(** * NMEA 0183 position broadcaster: sentence encoding core

    A shallow embedding of [code.py]: the coordinate formatter
    [_to_nmea_latlon], the XOR checksum [_checksum], the sentence builders
    [_make_gpgga] and [_make_gprmc], the clock model [_tick_time] and one
    pass of the transmit loop, followed by the properties of the
    specification that were checked against them.

    Python values are modelled as follows.
    - [str] is a sequence of Unicode code points ([list N]); [ord] is the
      code point as an integer.
    - [int] is [Z] (unbounded).
    - [float] is IEEE 754 binary64, given by the Standard Library's
      executable specification [spec_float] at precision 53 and [emax] 1024.
    - An exception is [None] in an [option] result. *)

From Stdlib Require Import String Ascii.
From Stdlib Require Import ZArith List Bool Lia Permutation.
From Stdlib Require Import Floats.SpecFloat.
Import ListNotations.
Open Scope Z_scope.

(** ** Python strings *)

Definition char := N.
Definition str := list char.

Definition ord (c : char) : Z := Z.of_N c.

(** A Rocq string literal read as a Python string (every character of a
    Rocq literal is one code point below 256). *)
Definition lit (s : string) : str := map N_of_ascii (list_ascii_of_string s).

(** [s[i:j]] for [0 <= i <= j]: a slice never raises; it is cut at the end
    of the string. *)
Definition slice (s : str) (i j : nat) : str := firstn (j - i) (skipn i s).

Definition is_digit (c : char) : bool := (48 <=? c)%N && (c <=? 57)%N.

Definition is_ascii (c : char) : bool := (c <? 128)%N.

(** ** Integer formatting: the [d] and [X] presentation types with a
    zero-padded minimum width ([02d], [03d], [02X]) *)

Definition digit_char (d : Z) : char :=
  if d <? 10 then Z.to_N (48 + d) else Z.to_N (55 + d).

(** Digits of a non-negative integer, most significant first; [fuel] bounds
    the number of digits produced. *)
Fixpoint to_digits (base : Z) (fuel : nat) (n : Z) (acc : str) : str :=
  match fuel with
  | O => acc
  | S fuel' =>
      let acc' := digit_char (n mod base) :: acc in
      if n / base =? 0 then acc' else to_digits base fuel' (n / base) acc'
  end.

Definition digits (base : Z) (n : Z) : str :=
  to_digits base (S (Z.to_nat (Z.log2 n))) n [].

Definition zeros (k : nat) : str := repeat 48%N k.

(** Zero padding is sign-aware: the sign comes first and counts in the
    width, as in [f"{-5:03d}" == "-05"]. *)
Definition zero_pad (width : nat) (negative : bool) (body : str) : str :=
  if negative
  then 45%N :: zeros (width - 1 - length body) ++ body
  else zeros (width - length body) ++ body.

Definition format_int (base : Z) (width : nat) (z : Z) : str :=
  zero_pad width (z <? 0) (digits base (Z.abs z)).

Definition format_d (width : nat) (z : Z) : str := format_int 10 width z.
Definition format_X (width : nat) (z : Z) : str := format_int 16 width z.

(** ** ChecksumComputer *)

(** [for ch in payload: csum ^= ord(ch)] *)
Definition xor_all (payload : str) : Z :=
  fold_left (fun csum ch => Z.lxor csum (ord ch)) payload 0.

Definition _checksum (payload : str) : str := format_X 2 (xor_all payload).

(** ** Python floats: IEEE 754 binary64 *)

Definition float64 := spec_float.

Module Float64.

Definition prec : Z := 53.
Definition emax : Z := 1024.

(** The well-formed values of the type: mantissa and exponent of a
    finite number are in canonical form. *)
Definition valid (x : float64) : bool := valid_binary prec emax x.

Definition zero : float64 := S754_zero false.

Definition abs (x : float64) : float64 := SFabs x.
Definition sub (x y : float64) : float64 := SFsub prec emax x y.
Definition mul (x y : float64) : float64 := SFmul prec emax x y.
Definition div (x y : float64) : float64 := SFdiv prec emax x y.
Definition ltb (x y : float64) : bool := SFltb x y.
Definition leb (x y : float64) : bool := SFleb x y.

(** [float(z)]: the nearest binary64, [OverflowError] beyond the finite
    range. *)
Definition of_int (z : Z) : option float64 :=
  match binary_normalize prec emax z 0 false with
  | S754_infinity _ => None
  | f => Some f
  end.

(** Magnitude of a finite number truncated to an integer. *)
Definition trunc_mag (m : positive) (e : Z) : Z :=
  match e with
  | Zneg p => Zpos m / 2 ^ Zpos p
  | _ => Zpos m * 2 ^ e
  end.

(** [int(x)]: truncation toward zero; [ValueError] on NaN and
    [OverflowError] on an infinity. *)
Definition to_int (x : float64) : option Z :=
  match x with
  | S754_zero _ => Some 0
  | S754_finite s m e => Some (cond_Zopp s (trunc_mag m e))
  | S754_infinity _ | S754_nan => None
  end.

(** The value of the literal [m]e-[k]: both [m] and [10^k] are binary64
    numbers when [m < 2^53] and [k <= 22], and the division rounds their
    exact quotient to nearest, which is how the literal is read. *)
Definition of_decimal (m : Z) (k : Z) : float64 :=
  div (binary_normalize prec emax m 0 false)
      (binary_normalize prec emax (10 ^ k) 0 false).

(** The literal [60.0]. *)
Definition sixty : float64 :=
  Eval vm_compute in binary_normalize prec emax 60 0 false.

End Float64.

(** ** Fixed-point formatting: the [f] presentation type with a zero-padded
    minimum width and a precision ([07.4f]) *)

(** [num / den] rounded to the nearest integer, ties to the even one. *)
Definition round_half_even (num den : Z) : Z :=
  let q := num / den in
  match 2 * (num mod den) ?= den with
  | Lt => q
  | Gt => q + 1
  | Eq => if Z.even q then q else q + 1
  end.

(** [m * 2^e * 10^precision] rounded to an integer: the decimal expansion
    of a float is computed from its exact value. *)
Definition scaled_round (precision : nat) (m : positive) (e : Z) : Z :=
  match e with
  | Zneg p => round_half_even (Zpos m * 10 ^ Z.of_nat precision) (2 ^ Zpos p)
  | _ => Zpos m * 2 ^ e * 10 ^ Z.of_nat precision
  end.

(** Decimal text of [n / 10^precision]. *)
Definition fixed_text (precision : nat) (n : Z) : str :=
  let scale := 10 ^ Z.of_nat precision in
  let ipart := digits 10 (n / scale) in
  match precision with
  | O => ipart
  | _ => ipart ++ lit "." ++ format_d precision (n mod scale)
  end.

Definition format_f (width precision : nat) (x : float64) : str :=
  match x with
  | S754_nan => zero_pad width false (lit "nan")
  | S754_infinity s => zero_pad width s (lit "inf")
  | S754_zero s => zero_pad width s (fixed_text precision 0)
  | S754_finite s m e =>
      zero_pad width s (fixed_text precision (scaled_round precision m e))
  end.

(** ** CoordinateFormatter *)

(** Sequencing of computations that may raise. *)
Notation "'let?' x ':=' e 'in' k" :=
  (match e with Some x => k | None => None end)
  (at level 10, x pattern, e at level 200, k at level 200).

Definition _to_nmea_latlon (value : float64) (is_lat : bool)
  : option (str * str) :=
  let hemi := if is_lat then lit "N" else lit "E" in
  let hemi :=
    if Float64.ltb value Float64.zero
    then (if is_lat then lit "S" else lit "W")
    else hemi in
  let abs_val := Float64.abs value in
  let? degrees := Float64.to_int abs_val in
  let? fdegrees := Float64.of_int degrees in
  let minutes := Float64.mul (Float64.sub abs_val fdegrees) Float64.sixty in
  if is_lat
  then Some (format_d 2 degrees ++ format_f 7 4 minutes, hemi)
  else Some (format_d 3 degrees ++ format_f 7 4 minutes, hemi).

(** ** USER CONFIG *)

Definition LATITUDE : float64 := Float64.of_decimal 48972657 6.
Definition LONGITUDE : float64 := SFopp (Float64.of_decimal 123610603 6).
Definition START_DATE_DDMMYY : str := lit "190226".
Definition START_TIME_HHMMSS : str := lit "120000".

(** ** SentenceBuilder *)

Definition _make_gpgga (utc_hhmmss : str) (lat lon : float64) : option str :=
  let? (lat_str, lat_hemi) := _to_nmea_latlon lat true in
  let? (lon_str, lon_hemi) := _to_nmea_latlon lon false in
  let payload :=
    lit "GPGGA," ++ utc_hhmmss ++ lit ".00," ++ lat_str ++ lit "," ++ lat_hemi
      ++ lit "," ++ lon_str ++ lit "," ++ lon_hemi ++ lit ","
      ++ lit "1,08,1.0,0.0,M,0.0,M,," in
  Some (lit "$" ++ payload ++ lit "*" ++ _checksum payload
          ++ [13%N; 10%N]).

Definition _make_gprmc (utc_hhmmss date_ddmmyy : str) (lat lon : float64)
  : option str :=
  let? (lat_str, lat_hemi) := _to_nmea_latlon lat true in
  let? (lon_str, lon_hemi) := _to_nmea_latlon lon false in
  let payload :=
    lit "GPRMC," ++ utc_hhmmss ++ lit ".00,A," ++ lat_str ++ lit ","
      ++ lat_hemi ++ lit "," ++ lon_str ++ lit "," ++ lon_hemi ++ lit ","
      ++ lit "0.0,0.0,"
      ++ date_ddmmyy ++ lit ",,,A" in
  Some (lit "$" ++ payload ++ lit "*" ++ _checksum payload
          ++ [13%N; 10%N]).

(** ** ClockModel *)

(** [int(s)] for a string, base ten, as CPython reads it.

    A string that is not ASCII throughout is first rewritten
    ([_PyUnicode_TransformDecimalAndSpaceToASCII]): a character below 127
    is kept, a Unicode white space becomes a blank, a Unicode decimal
    digit becomes its ASCII digit, and at any other character the text
    ends with a ['?'].  The tables are those of Unicode 14.0 (CPython
    3.11): the white space above 127, and the zero of each run of ten
    decimal digits above 127. *)
Definition unicode_spaces : list N :=
  [
    133; 160; 5760; 8192; 8193; 8194; 8195; 8196; 8197; 8198; 8199; 8200;
    8201; 8202; 8232; 8233; 8239; 8287; 12288
  ]%N.

Definition unicode_zeros : list N :=
  [
    1632; 1776; 1984; 2406; 2534; 2662; 2790; 2918; 3046; 3174; 3302; 3430;
    3558; 3664; 3792; 3872; 4160; 4240; 6112; 6160; 6470; 6608; 6784; 6800;
    6992; 7088; 7232; 7248; 42528; 43216; 43264; 43472; 43504; 43600;
    44016; 65296; 66720; 68912; 69734; 69872; 69942; 70096; 70384; 70736;
    70864; 71248; 71360; 71472; 71904; 72016; 72784; 73040; 73120; 92768;
    92864; 93008; 120782; 120792; 120802; 120812; 120822; 123200; 123632;
    125264; 130032
  ]%N.

Definition unicode_space (c : char) : bool :=
  existsb (N.eqb c) unicode_spaces.

Definition unicode_decimal (c : char) : option N :=
  option_map (fun zero => (c - zero)%N)
    (find (fun zero => (zero <=? c)%N && (c <? zero + 10)%N) unicode_zeros).

Fixpoint transform_decimal_and_space (s : str) : str :=
  match s with
  | [] => []
  | c :: rest =>
      if (c <? 127)%N then c :: transform_decimal_and_space rest
      else if unicode_space c then 32%N :: transform_decimal_and_space rest
      else match unicode_decimal c with
           | Some d => (48 + d)%N :: transform_decimal_and_space rest
           | None => [63%N]
           end
  end.

Definition to_ascii_text (s : str) : str :=
  if forallb is_ascii s then s else transform_decimal_and_space s.

(** The ASCII text is then read ([PyLong_FromString]): white space (the
    six characters of C's [isspace]) is skipped at both ends, one sign is
    allowed, and the digits may be separated by single underscores;
    anything else is a [ValueError], and so are more than 4300 digits. *)
Definition is_space (c : char) : bool :=
  ((9 <=? c)%N && (c <=? 13)%N) || (c =? 32)%N.

Fixpoint lstrip (s : str) : str :=
  match s with
  | c :: rest => if is_space c then lstrip rest else s
  | [] => []
  end.

Definition strip (s : str) : str := rev (lstrip (rev (lstrip s))).

Fixpoint parse_digits (s : str) (acc : Z) (count : Z) (after_digit : bool)
  : option Z :=
  match s with
  | [] =>
      if after_digit then (if 4300 <? count then None else Some acc)
      else None
  | c :: rest =>
      if is_digit c
      then parse_digits rest (10 * acc + (ord c - 48)) (count + 1) true
      else if (c =? 95)%N && after_digit
      then parse_digits rest acc count false
      else None
  end.

Definition int_of_str (s : str) : option Z :=
  let text := strip (to_ascii_text s) in
  match text with
  | sign :: rest =>
      if (sign =? 43)%N then parse_digits rest 0 0 false
      else if (sign =? 45)%N
      then option_map Z.opp (parse_digits rest 0 0 false)
      else parse_digits text 0 0 false
  | [] => parse_digits text 0 0 false
  end.

(** The elapsed time handed to [_tick_time] is a number: the loop passes a
    [float], a caller may as well pass an [int]. *)
Inductive number :=
  | PyInt (z : Z)
  | PyFloat (x : float64).

Definition int_of_number (n : number) : option Z :=
  match n with
  | PyInt z => Some z
  | PyFloat x => Float64.to_int x
  end.

Definition _tick_time (start_hhmmss : str) (seconds_elapsed : number)
  : option str :=
  let? hh := int_of_str (slice start_hhmmss 0 2) in
  let? mm := int_of_str (slice start_hhmmss 2 4) in
  let? ss := int_of_str (slice start_hhmmss 4 6) in
  let? elapsed := int_of_number seconds_elapsed in
  let total := hh * 3600 + mm * 60 + ss + elapsed in
  let total := total mod (24 * 3600) in
  let hh := total / 3600 in
  let mm := (total mod 3600) / 60 in
  let ss := total mod 60 in
  Some (format_d 2 hh ++ format_d 2 mm ++ format_d 2 ss).

(** ** The transmit loop *)

Record config := {
  cfg_latitude : float64;
  cfg_longitude : float64;
  cfg_start_date : str;
  cfg_start_time : str
}.

Definition USER_CONFIG : config :=
  {| cfg_latitude := LATITUDE;
     cfg_longitude := LONGITUDE;
     cfg_start_date := START_DATE_DDMMYY;
     cfg_start_time := START_TIME_HHMMSS |}.

(** [s.encode("ascii")]: [UnicodeEncodeError] on a code point above 127. *)
Fixpoint encode_ascii (s : str) : option (list Byte.byte) :=
  match s with
  | [] => Some []
  | c :: rest =>
      if is_ascii c then
        let? b := Byte.of_N c in
        let? bs := encode_ascii rest in
        Some (b :: bs)
      else None
  end.

(** The state the loop acts on is what the UART has been given so far, one
    entry per [uart.write]; [DE_RE_PIN] is [None], so no direction line is
    driven, and the sleeps do not show. *)
Definition uart_log := list (list Byte.byte).

Inductive outcome :=
  | Completed (uart : uart_log)
  | Raised (uart : uart_log).

Definition written (o : outcome) : uart_log :=
  match o with Completed u | Raised u => u end.

(** One pass of the [while True] body, [elapsed] being [now - start_time]. *)
Definition cycle (cfg : config) (elapsed : float64) (uart : uart_log)
  : outcome :=
  match _tick_time (cfg_start_time cfg) (PyFloat elapsed) with
  | None => Raised uart
  | Some utc_time =>
  match _make_gpgga utc_time (cfg_latitude cfg) (cfg_longitude cfg) with
  | None => Raised uart
  | Some gga =>
  match _make_gprmc utc_time (cfg_start_date cfg)
          (cfg_latitude cfg) (cfg_longitude cfg) with
  | None => Raised uart
  | Some rmc =>
  match encode_ascii gga with
  | None => Raised uart
  | Some gga_bytes =>
  let uart := uart ++ [gga_bytes] in
  match encode_ascii rmc with
  | None => Raised uart
  | Some rmc_bytes => Completed (uart ++ [rmc_bytes])
  end end end end end.

(** The loop over the successive clock readings, from an empty log; an
    exception ends the process. *)
Fixpoint run_from (cfg : config) (elapsed : list float64) (uart : uart_log)
  : outcome :=
  match elapsed with
  | [] => Completed uart
  | t :: later =>
      match cycle cfg t uart with
      | Completed uart' => run_from cfg later uart'
      | Raised uart' => Raised uart'
      end
  end.

Definition run (cfg : config) (elapsed : list float64) : outcome :=
  run_from cfg elapsed [].

(** ** Vocabulary of the specification *)

(** The literals [90.0] and [180.0]. *)
Definition ninety : float64 :=
  Eval vm_compute in binary_normalize Float64.prec Float64.emax 90 0 false.
Definition one_eighty : float64 :=
  Eval vm_compute in binary_normalize Float64.prec Float64.emax 180 0 false.

(** A binary64 number [v] with [-bound <= v <= bound]. *)
Definition within (bound v : float64) : bool :=
  Float64.valid v && Float64.leb (SFopp bound) v && Float64.leb v bound.

(** Latitude in [-90, 90], longitude in [-180, 180], as the comparisons
    [-90.0 <= v <= 90.0] and [-180.0 <= v <= 180.0] decide them. *)
Definition valid_latitude (v : float64) : bool := within ninety v.
Definition valid_longitude (v : float64) : bool := within one_eighty v.

Definition valid_position (lat lon : float64) : bool :=
  valid_latitude lat && valid_longitude lon.

(** The digits a text is written with: [nth_digit d] writes [d], for [d]
    from 0 to 15. *)
Definition nth_digit (d : Z) : char :=
  nth (Z.to_nat d) (lit "0123456789ABCDEF") 0%N.

(** The two decimal digits of [n]. *)
Definition two_digits (n : Z) : str :=
  [nth_digit (n / 10); nth_digit (n mod 10)].

(** [v >= 0] *)
Definition nonnegative (v : float64) : bool := Float64.leb Float64.zero v.

(** The hemisphere letter of the specification. *)
Definition hemisphere (v : float64) (is_lat : bool) : str :=
  if nonnegative v
  then (if is_lat then lit "N" else lit "E")
  else (if is_lat then lit "S" else lit "W").

(** Every finite binary64 number is a multiple of [2^-1074], the smallest
    positive one; [units x] is that multiple. *)
Definition units (x : float64) : Z :=
  match x with
  | S754_finite s m e => cond_Zopp s (Zpos m * 2 ^ (e + 1074))
  | _ => 0
  end.

(** [0 <= x <= c * 2^g] *)
Definition at_most (c g : Z) (x : float64) : Prop :=
  match x with
  | S754_zero false => True
  | S754_finite false m e => e <= g /\ Zpos m <= c * 2 ^ (g - e)
  | _ => False
  end.

(** [0 <= x < 1] *)
Definition proper_fraction (x : float64) : Prop :=
  match x with
  | S754_zero false => True
  | S754_finite false m e => -1074 <= e < 0 /\ Zpos m < 2 ^ (- e)
  | _ => False
  end.

(** The number of ten-thousandths that [07.4f] writes for [x]. *)
Definition ten_thousandths (x : float64) : Z :=
  match x with
  | S754_finite _ m e => scaled_round 4 m e
  | _ => 0
  end.

Definition three_digits (n : Z) : str :=
  [nth_digit (n / 100); nth_digit (n / 10 mod 10); nth_digit (n mod 10)].

Definition four_digits (n : Z) : str :=
  [nth_digit (n / 1000); nth_digit (n / 100 mod 10);
   nth_digit (n / 10 mod 10); nth_digit (n mod 10)].

(** [MM.MMMM] for a number of ten-thousandths of a minute. *)
Definition minutes_text (n : Z) : str :=
  two_digits (n / 10000) ++ lit "." ++ four_digits (n mod 10000).

(** A time of day [HHMMSS] and a date [DDMMYY] are six decimal digits. *)
Definition six_digits (s : str) : bool :=
  (length s =? 6)%nat && forallb is_digit s.


(** The text [HHMMSS] of a time of day. *)
Definition hhmmss (h m s : Z) : str :=
  two_digits h ++ two_digits m ++ two_digits s.

Definition valid_time_of_day (h m s : Z) : Prop :=
  0 <= h < 24 /\ 0 <= m < 60 /\ 0 <= s < 60.

(** What a receiver does with a sentence: the text between the leading
    ['$'] and the first ['*'] is the payload, the two characters after the
    ['*'] are read as a hexadecimal number, and that number is compared
    with the XOR of the characters of the payload, which the receiver
    takes on its side, character by character from the last one. *)
Definition receiver_xor (payload : str) : N := fold_right N.lxor 0%N payload.

Fixpoint split_at_star (s : str) : option (str * str) :=
  match s with
  | [] => None
  | c :: rest =>
      if (c =? 42)%N then Some ([], rest)
      else let? (before, after) := split_at_star rest in
           Some (c :: before, after)
  end.

Definition hex_digit_value (c : char) : option Z :=
  if is_digit c then Some (ord c - 48)
  else if (65 <=? c)%N && (c <=? 70)%N then Some (ord c - 55)
  else if (97 <=? c)%N && (c <=? 102)%N then Some (ord c - 87)
  else None.

Definition checksum_verifies (sentence : str) : bool :=
  match sentence with
  | 36%N :: rest =>
      match split_at_star rest with
      | Some (payload, hi :: lo :: _) =>
          match hex_digit_value hi, hex_digit_value lo with
          | Some h, Some l => Z.of_N (receiver_xor payload) =? 16 * h + l
          | _, _ => false
          end
      | _ => false
      end
  | _ => false
  end.

(** The wire form [$<payload>*<HH>\r\n] of a payload. *)
Definition render (payload : str) : str :=
  lit "$" ++ payload ++ lit "*" ++ _checksum payload ++ [13%N; 10%N].

(** Fields joined by commas. *)
Fixpoint join_fields (fields : list str) : str :=
  match fields with
  | [] => []
  | [f] => f
  | f :: rest => f ++ lit "," ++ join_fields rest
  end.

(** The fields of the two payloads, in the order of the specification. *)
Definition gga_fields (utc lat_str lat_hemi lon_str lon_hemi : str)
  : list str :=
  [ lit "GPGGA"; utc ++ lit ".00"; lat_str; lat_hemi; lon_str; lon_hemi;
    lit "1"; lit "08"; lit "1.0"; lit "0.0"; lit "M"; lit "0.0"; lit "M";
    lit ""; lit "" ].

Definition rmc_fields (utc date lat_str lat_hemi lon_str lon_hemi : str)
  : list str :=
  [ lit "GPRMC"; utc ++ lit ".00"; lit "A"; lat_str; lat_hemi; lon_str;
    lon_hemi; lit "0.0"; lit "0.0"; date; lit ""; lit ""; lit "A" ].

(** A character that may not occur in a payload: ['$'], ['*'], CR, LF. *)
Definition is_framing (c : char) : bool :=
  (c =? 36)%N || (c =? 42)%N || (c =? 13)%N || (c =? 10)%N.

(** A configuration is in order when the position is in range and the
    date and the start time are six digits. *)
Definition config_ok (cfg : config) : bool :=
  valid_position (cfg_latitude cfg) (cfg_longitude cfg)
    && six_digits (cfg_start_date cfg) && six_digits (cfg_start_time cfg).

(** A character that may stand in a payload and on the wire. *)
Definition plain (c : char) : bool := is_ascii c && negb (is_framing c).

(** The two hexadecimal digits of [n], and the checksum in the words of
    the specification: the running XOR masked to eight bits, as two
    uppercase hexadecimal digits. *)
Definition two_hex (n : Z) : str :=
  [nth_digit (n / 16); nth_digit (n mod 16)].

Definition checksum_spec (payload : str) : str :=
  two_hex (Z.land (Z.of_N (receiver_xor payload)) 255).

Definition is_upper_hex (c : char) : bool :=
  is_digit c || ((65 <=? c)%N && (c <=? 70)%N).

(** The text of a number of seconds since midnight. *)
Definition hhmmss_of_seconds (t : Z) : str :=
  hhmmss (t / 3600) (t mod 3600 / 60) (t mod 60).

(** An elapsed time that has an integer part. *)
Definition finite_number (n : number) : bool :=
  match n with
  | PyInt _ => true
  | PyFloat (S754_zero _) | PyFloat (S754_finite _ _ _) => true
  | PyFloat _ => false
  end.

(** A start time one of whose three fields does not read as an integer. *)
Definition unreadable_time (start : str) : Prop :=
  int_of_str (slice start 0 2) = None \/
  int_of_str (slice start 2 4) = None \/
  int_of_str (slice start 4 6) = None.

(** A number that is neither NaN nor an infinity. *)
Definition is_finite (x : float64) : bool :=
  match x with
  | S754_zero _ | S754_finite _ _ _ => true
  | S754_infinity _ | S754_nan => false
  end.

(** The magnitude [|v|] of a number in units of [2^-1074]: its integer
    part [floor |v|] is the quotient by [2^1074], and the fraction left,
    [|v| - floor |v|], is the remainder, in the same units. *)
Definition magnitude (v : float64) : Z := Z.abs (units v).
Definition whole_degrees (v : float64) : Z := magnitude v / 2 ^ 1074.
Definition fraction_left (v : float64) : Z := magnitude v mod 2 ^ 1074.

(** [n] ten-thousandths of a minute write sixty times a fraction of [u]
    units of [2^-1074]: [|n / 10^4 - 60 u 2^-1074| <= 10^-4 / 2 + 2^-45],
    half a unit of the last digit written, and the little by which the
    binary64 product with sixty may be off. *)
Definition writes_minutes (n u : Z) : Prop :=
  2 * Z.abs (n * 2 ^ 1074 - 600000 * u) <= 2 ^ 1074 + 10000 * 2 ^ 1030.

(** The whole seconds of an elapsed time: the time itself when it is an
    integer, and otherwise its value, [units x] times [2^-1074], cut toward
    zero. *)
Definition whole_seconds (n : number) : Z :=
  match n with
  | PyInt z => z
  | PyFloat x => Z.quot (units x) (2 ^ 1074)
  end.

(** An elapsed time: an integer, or a binary64 number that is neither NaN
    nor an infinity. *)
Definition elapsed_time (n : number) : bool :=
  match n with
  | PyInt _ => true
  | PyFloat x => Float64.valid x && is_finite x
  end.

(** A character no integer is written with: below 127 and not a digit, a
    sign, an underscore or white space (tab to carriage return, blank). *)
Definition foreign (c : char) : bool :=
  (c <? 127)%N
  && negb ((48 <=? c)%N && (c <=? 57)%N)
  && negb ((c =? 43)%N || (c =? 45)%N || (c =? 95)%N)
  && negb (((9 <=? c)%N && (c <=? 13)%N) || (c =? 32)%N).

(** A start time that cannot be a time of day: it has fewer than five
    characters, or such a character among its first six. *)
Definition malformed_time (start : str) : bool :=
  (length start <? 5)%nat || existsb foreign (firstn 6 start).

(** What the loop turns out to need of a configuration: a position that
    is a finite number, in range or not, a start time that begins with six
    digits, and a date in ASCII, six digits or not. *)
Definition transmittable (cfg : config) : bool :=
  Float64.valid (cfg_latitude cfg) && is_finite (cfg_latitude cfg)
  && Float64.valid (cfg_longitude cfg) && is_finite (cfg_longitude cfg)
  && six_digits (firstn 6 (cfg_start_time cfg))
  && forallb is_ascii (cfg_start_date cfg).

(** ** Checking a property on an initial segment of the integers *)

Definition all_below (n : Z) (P : Z -> bool) : bool :=
  forallb P (map Z.of_nat (seq 0 (Z.to_nat n))).

Definition str_eqb (a b : str) : bool :=
  if list_eq_dec N.eq_dec a b then true else false.

(** [float(d)] is [d] itself, with an exponent between -52 and 0. *)
Definition of_int_exact (d : Z) : bool :=
  match Float64.of_int d with
  | Some (S754_zero false) => d =? 0
  | Some (S754_finite false md ed) =>
      (-52 <=? ed) && (ed <=? 0) && (Zpos md =? d * 2 ^ (- ed))
  | _ => false
  end.

(** * Properties *)

(** ** The model on concrete values *)

Example checksum_empty : _checksum (lit "") = lit "00".
Proof. reflexivity. Qed.

Example checksum_AB : _checksum (lit "AB") = lit "03".
Proof. reflexivity. Qed.

Example format_d_neg : format_d 3 (-5) = lit "-05".
Proof. reflexivity. Qed.

Example format_X_255 : format_X 2 255 = lit "FF".
Proof. reflexivity. Qed.

Example format_d_wide : format_d 2 123 = lit "123".
Proof. reflexivity. Qed.

(** The literals of the configuration, as [float.hex] shows them:
    [0x1.87c80064a9cdcp+5] and [-0x1.ee7141e9af5bap+6]. *)
Example latitude_bits : LATITUDE = S754_finite false 0x187c80064a9cdc (-47).
Proof. vm_compute. reflexivity. Qed.

Example longitude_bits : LONGITUDE = S754_finite true 0x1ee7141e9af5ba (-46).
Proof. vm_compute. reflexivity. Qed.

Example format_f_samples :
  format_f 7 4 (Float64.of_decimal 15 1) = lit "01.5000" /\
  format_f 7 4 (SFopp (Float64.of_decimal 15 1)) = lit "-1.5000" /\
  format_f 7 4 (Float64.of_decimal 123456789 6) = lit "123.4568" /\
  format_f 7 4 (Float64.of_decimal 5 5) = lit "00.0001" /\
  format_f 7 4 (S754_zero true) = lit "-0.0000" /\
  format_f 3 0 (Float64.of_decimal 25 1) = lit "002" /\
  format_f 3 0 (Float64.of_decimal 35 1) = lit "004".
Proof. vm_compute. repeat split; reflexivity. Qed.

Example int_of_str_samples :
  int_of_str (lit " 42 ") = Some 42 /\
  int_of_str (lit "+7") = Some 7 /\
  int_of_str (lit "-07") = Some (-7) /\
  int_of_str (lit "1_000") = Some 1000 /\
  int_of_str (lit "") = None /\
  int_of_str (lit "4 2") = None /\
  int_of_str (lit "1__0") = None /\
  int_of_str (lit "_1") = None /\
  int_of_str (lit "1_") = None /\
  int_of_str (lit "+-1") = None /\
  int_of_str (lit "+ 1") = None /\
  int_of_str (lit ":0") = None.
Proof. vm_compute. repeat split; reflexivity. Qed.

(** Outside ASCII: the Arabic-Indic digits U+0661 U+0662 read as 12, so
    do fullwidth digits next to an ASCII one; a no-break space U+00A0 and
    an ideographic space U+3000 are skipped as white space is; the
    separators U+001C to U+001F are not white space here, although
    [str.strip] takes them for it; and a superscript two U+00B2 is no
    decimal digit. *)
Example int_of_str_beyond_ascii :
  int_of_str [1633; 1634]%N = Some 12 /\
  int_of_str [65297; 50; 65299]%N = Some 123 /\
  int_of_str [45; 1777]%N = Some (-1) /\
  int_of_str [160; 52; 50; 160]%N = Some 42 /\
  int_of_str [12288; 55]%N = Some 7 /\
  int_of_str [28; 49]%N = None /\
  int_of_str [49; 31]%N = None /\
  int_of_str [178]%N = None /\
  int_of_str [49; 8364; 50]%N = None /\
  int_of_str [49; 127]%N = None.
Proof. vm_compute. repeat split; reflexivity. Qed.

(** 4300 digits are read (the last ten bits of the number written with
    4300 ones are those of 455), 4301 are not. *)
Example int_of_str_digit_limit :
  option_map (fun z => Z.land z 1023)
    (int_of_str (repeat 49%N (Z.to_nat 4300))) = Some 455 /\
  int_of_str (repeat 49%N (Z.to_nat 4301)) = None.
Proof. vm_compute. split; reflexivity. Qed.

Example to_int_samples :
  Float64.to_int (Float64.of_decimal 15 1) = Some 1 /\
  Float64.to_int (SFopp (Float64.of_decimal 15 1)) = Some (-1) /\
  Float64.to_int S754_nan = None.
Proof. vm_compute. repeat split; reflexivity. Qed.

Example first_cycle_of_the_configuration :
  exists gga rmc,
    encode_ascii
      (lit "$GPGGA,120000.00,4858.3594,N,12336.6362,W,1,08,1.0,0.0,M,0.0,M,,*4A"
         ++ [13%N; 10%N]) = Some gga /\
    encode_ascii
      (lit "$GPRMC,120000.00,A,4858.3594,N,12336.6362,W,0.0,0.0,190226,,,A*4F"
         ++ [13%N; 10%N]) = Some rmc /\
    run USER_CONFIG [Float64.zero] = Completed [gga; rmc].
Proof. eexists _, _. repeat split; vm_compute; reflexivity. Qed.

Lemma all_below_spec (n : Z) (P : Z -> bool) :
  all_below n P = true -> forall z, 0 <= z < n -> P z = true.
Proof.
  unfold all_below. intros H z Hz.
  rewrite forallb_forall in H. apply H.
  apply in_map_iff. exists (Z.to_nat z). split; [lia|].
  apply in_seq. lia.
Qed.

(** ** Characters and digits *)

Lemma is_digit_inv (c : char) :
  is_digit c = true ->
  0 <= ord c - 48 < 10 /\ c = nth_digit (ord c - 48).
Proof.
  unfold is_digit, ord. intros H.
  apply andb_true_iff in H. destruct H as [H1 H2].
  apply N.leb_le in H1. apply N.leb_le in H2.
  split; [lia|].
  assert (A : all_below 10 (fun d => (Z.to_N (48 + d) =? nth_digit d)%N) = true)
    by reflexivity.
  pose proof (all_below_spec _ _ A (Z.of_N c - 48) ltac:(lia)) as B.
  cbv beta in B. apply N.eqb_eq in B. rewrite <- B.
  replace (48 + (Z.of_N c - 48)) with (Z.of_N c) by lia.
  now rewrite N2Z.id.
Qed.

Lemma digit_char_is_digit (d : Z) :
  0 <= d < 10 -> is_digit (digit_char d) = true.
Proof.
  intros H. revert d H. apply (all_below_spec 10). reflexivity.
Qed.

Lemma two_digits_of_pair (x y : Z) :
  0 <= x -> 0 <= y < 10 ->
  two_digits (10 * x + y) = [nth_digit x; nth_digit y].
Proof.
  intros Hx Hy. unfold two_digits.
  replace ((10 * x + y) / 10) with x
    by (apply Z.div_unique with y; lia).
  replace ((10 * x + y) mod 10) with y
    by (apply Z.mod_unique with x; lia).
  reflexivity.
Qed.

Lemma format_d_2 (n : Z) : 0 <= n < 100 -> format_d 2 n = two_digits n.
Proof.
  intros H.
  assert (A : all_below 100
                (fun n => if list_eq_dec N.eq_dec (format_d 2 n) (two_digits n)
                          then true else false) = true) by (vm_compute; reflexivity).
  pose proof (all_below_spec _ _ A n H) as B. cbv beta in B.
  destruct (list_eq_dec N.eq_dec (format_d 2 n) (two_digits n)); congruence.
Qed.

Lemma int_of_two_digits (n : Z) :
  0 <= n < 100 -> int_of_str (two_digits n) = Some n.
Proof.
  intros H.
  assert (A : all_below 100
                (fun n => match int_of_str (two_digits n) with
                          | Some k => k =? n
                          | None => false
                          end) = true) by (vm_compute; reflexivity).
  pose proof (all_below_spec _ _ A n H) as B. cbv beta in B.
  destruct (int_of_str (two_digits n)); [|discriminate].
  apply Z.eqb_eq in B. now subst.
Qed.

Lemma two_digits_is_digit (n : Z) :
  0 <= n < 100 -> forallb is_digit (two_digits n) = true.
Proof.
  intros H. revert n H. apply (all_below_spec 100). vm_compute; reflexivity.
Qed.

(** ** The running XOR *)

Lemma lxor_below (k a b : Z) :
  0 <= k -> 0 <= a < 2 ^ k -> 0 <= b < 2 ^ k -> 0 <= Z.lxor a b < 2 ^ k.
Proof.
  intros Hk Ha Hb.
  assert (N0 : 0 <= Z.lxor a b) by (apply Z.lxor_nonneg; lia).
  split; [exact N0|].
  destruct (Z.eq_dec (Z.lxor a b) 0) as [E|E].
  - rewrite E. apply Z.pow_pos_nonneg; lia.
  - apply Z.log2_lt_pow2; [lia|].
    pose proof (Z.log2_lxor a b (proj1 Ha) (proj1 Hb)) as L.
    assert (Z.log2 a < k).
    { destruct (Z.eq_dec a 0) as [->|]; [simpl|apply Z.log2_lt_pow2]; try lia.
      destruct (Z.eq_dec k 0) as [->|]; [|lia].
      destruct (Z.eq_dec b 0) as [->|]; [now rewrite Z.lxor_0_r in E|].
      simpl in Hb. lia. }
    assert (Z.log2 b < k).
    { destruct (Z.eq_dec b 0) as [->|]; [simpl|apply Z.log2_lt_pow2]; try lia.
      destruct (Z.eq_dec k 0) as [->|]; [|lia].
      simpl in Ha. assert (a = 0) by lia. subst a.
      now rewrite Z.lxor_0_l in E. }
    lia.
Qed.

Lemma fold_xor_below (k : Z) (payload : str) (acc : Z) :
  0 <= k -> 0 <= acc < 2 ^ k ->
  Forall (fun c => ord c < 2 ^ k) payload ->
  0 <= fold_left (fun csum ch => Z.lxor csum (ord ch)) payload acc < 2 ^ k.
Proof.
  intros Hk. revert acc.
  induction payload as [|c rest IH]; intros acc Hacc Hall; simpl; [exact Hacc|].
  inversion Hall as [|? ? Hc Hrest]; subst.
  apply IH; [|exact Hrest].
  apply lxor_below; [lia|exact Hacc|].
  unfold ord in *. lia.
Qed.

Lemma xor_all_below (k : Z) (payload : str) :
  0 <= k -> Forall (fun c => ord c < 2 ^ k) payload ->
  0 <= xor_all payload < 2 ^ k.
Proof.
  intros Hk H. apply fold_xor_below; [lia| |exact H].
  split; [lia|]. apply Z.pow_pos_nonneg; lia.
Qed.

Lemma fold_xor_acc (payload : str) (acc : Z) :
  fold_left (fun csum ch => Z.lxor csum (ord ch)) payload acc
  = Z.lxor acc (xor_all payload).
Proof.
  unfold xor_all. revert acc.
  induction payload as [|c rest IH]; intros acc; cbn [fold_left].
  - now rewrite Z.lxor_0_r.
  - rewrite IH, (IH (Z.lxor 0 (ord c))), Z.lxor_0_l. apply Z.lxor_assoc.
Qed.

Lemma xor_all_cons (c : char) (rest : str) :
  xor_all (c :: rest) = Z.lxor (ord c) (xor_all rest).
Proof.
  unfold xor_all at 1. cbn [fold_left]. now rewrite fold_xor_acc, Z.lxor_0_l.
Qed.

(** The loop of [_checksum], which takes the characters from the first
    one on, ends on the number the receiver gets. *)
Lemma xor_all_receiver (payload : str) :
  xor_all payload = Z.of_N (receiver_xor payload).
Proof.
  induction payload as [|c rest IH]; [reflexivity|].
  rewrite xor_all_cons, IH. unfold ord, receiver_xor. cbn [fold_right].
  now rewrite N2Z.inj_lxor.
Qed.

Lemma format_X_2 (n : Z) : 0 <= n < 256 -> format_X 2 n = two_hex n.
Proof.
  intros H.
  assert (A : all_below 256
                (fun n => if list_eq_dec N.eq_dec (format_X 2 n) (two_hex n)
                          then true else false) = true) by (vm_compute; reflexivity).
  pose proof (all_below_spec _ _ A n H) as B. cbv beta in B.
  destruct (list_eq_dec N.eq_dec (format_X 2 n) (two_hex n)); congruence.
Qed.

Lemma two_hex_read_back (n : Z) :
  0 <= n < 256 ->
  exists hi lo,
    two_hex n = [hi; lo] /\ is_upper_hex hi = true /\ is_upper_hex lo = true
    /\ exists h l, hex_digit_value hi = Some h /\ hex_digit_value lo = Some l
                   /\ 16 * h + l = n.
Proof.
  intros H.
  assert (A : all_below 256
                (fun n => match two_hex n with
                          | [hi; lo] =>
                              is_upper_hex hi && is_upper_hex lo &&
                              match hex_digit_value hi, hex_digit_value lo with
                              | Some h, Some l => 16 * h + l =? n
                              | _, _ => false
                              end
                          | _ => false
                          end) = true) by (vm_compute; reflexivity).
  pose proof (all_below_spec _ _ A n H) as B. cbv beta in B.
  unfold two_hex in *.
  exists (nth_digit (n / 16)), (nth_digit (n mod 16)).
  apply andb_true_iff in B. destruct B as [B1 B3].
  apply andb_true_iff in B1. destruct B1 as [B1 B2].
  split; [reflexivity|]. split; [exact B1|]. split; [exact B2|].
  destruct (hex_digit_value (nth_digit (n / 16))) as [h|]; [|discriminate].
  destruct (hex_digit_value (nth_digit (n mod 16))) as [l|]; [|discriminate].
  exists h, l. apply Z.eqb_eq in B3. auto.
Qed.

(** ** ClockModel *)

Lemma finite_number_int (n : number) :
  finite_number n = true -> exists k, int_of_number n = Some k.
Proof.
  destruct n as [z|[s|s| |s m e]]; simpl; try discriminate; eauto.
Qed.

Lemma seconds_in_day (t : Z) :
  0 <= t < 86400 ->
  valid_time_of_day (t / 3600) (t mod 3600 / 60) (t mod 60).
Proof.
  intros H. unfold valid_time_of_day.
  pose proof (Z.mod_pos_bound t 3600 ltac:(lia)).
  pose proof (Z.mod_pos_bound t 60 ltac:(lia)).
  repeat split; try lia.
  - apply Z.div_pos; lia.
  - apply Z.div_lt_upper_bound; lia.
  - apply Z.div_pos; lia.
  - apply Z.div_lt_upper_bound; lia.
Qed.

Lemma seconds_of_time (h m s : Z) :
  valid_time_of_day h m s ->
  let t := h * 3600 + m * 60 + s in
  0 <= t < 86400 /\ t / 3600 = h /\ t mod 3600 / 60 = m /\ t mod 60 = s.
Proof.
  intros (Hh & Hm & Hs) t. subst t.
  assert (E1 : (h * 3600 + m * 60 + s) / 3600 = h)
    by (symmetry; apply Z.div_unique with (m * 60 + s); lia).
  assert (E2 : (h * 3600 + m * 60 + s) mod 3600 = m * 60 + s)
    by (symmetry; apply Z.mod_unique with h; lia).
  assert (E3 : (m * 60 + s) / 60 = m)
    by (symmetry; apply Z.div_unique with s; lia).
  assert (E4 : (h * 3600 + m * 60 + s) mod 60 = s)
    by (symmetry; apply Z.mod_unique with (h * 60 + m); lia).
  rewrite E1, E2, E3, E4. repeat split; lia.
Qed.

Lemma hhmmss_six_digits (h m s : Z) :
  valid_time_of_day h m s -> six_digits (hhmmss h m s) = true.
Proof.
  intros (Hh & Hm & Hs). unfold six_digits, hhmmss.
  apply andb_true_iff. split; [reflexivity|].
  rewrite !forallb_app, !two_digits_is_digit by lia. reflexivity.
Qed.

(** The fields of a string that starts with six digits are read as the
    numbers those digits write. *)
Lemma six_digits_fields (start : str) :
  six_digits (firstn 6 start) = true ->
  exists hh mm ss,
    0 <= hh < 100 /\ 0 <= mm < 100 /\ 0 <= ss < 100 /\
    firstn 6 start = hhmmss hh mm ss /\
    int_of_str (slice start 0 2) = Some hh /\
    int_of_str (slice start 2 4) = Some mm /\
    int_of_str (slice start 4 6) = Some ss.
Proof.
  unfold six_digits. intros H. apply andb_true_iff in H. destruct H as [L D].
  apply Nat.eqb_eq in L.
  destruct start as [|a [|b [|c [|d [|e [|f rest]]]]]]; try discriminate.
  cbn [firstn forallb] in D.
  repeat (apply andb_true_iff in D; destruct D as [?D D]).
  repeat match goal with
         | H : is_digit ?x = true |- _ =>
             apply is_digit_inv in H; destruct H as [? ?]
         end.
  exists (10 * (ord a - 48) + (ord b - 48)),
         (10 * (ord c - 48) + (ord d - 48)),
         (10 * (ord e - 48) + (ord f - 48)).
  unfold slice, hhmmss. cbn [firstn skipn Nat.sub].
  rewrite !two_digits_of_pair by lia.
  repeat split; try lia.
  - cbn [app]. congruence.
  - rewrite <- int_of_two_digits by lia.
    rewrite two_digits_of_pair by lia. congruence.
  - rewrite <- int_of_two_digits by lia.
    rewrite two_digits_of_pair by lia. congruence.
  - rewrite <- int_of_two_digits by lia.
    rewrite two_digits_of_pair by lia. congruence.
Qed.

(** What [_tick_time] computes once its inputs are read. *)
Lemma tick_time_formula (start : str) (n : number) (hh mm ss k : Z) :
  int_of_str (slice start 0 2) = Some hh ->
  int_of_str (slice start 2 4) = Some mm ->
  int_of_str (slice start 4 6) = Some ss ->
  int_of_number n = Some k ->
  _tick_time start n
  = Some (hhmmss_of_seconds ((hh * 3600 + mm * 60 + ss + k) mod 86400)).
Proof.
  intros H1 H2 H3 H4. unfold _tick_time. rewrite H1, H2, H3, H4.
  change (24 * 3600) with 86400.
  set (t := (hh * 3600 + mm * 60 + ss + k) mod 86400).
  assert (Ht : 0 <= t < 86400) by (apply Z.mod_pos_bound; lia).
  destruct (seconds_in_day t Ht) as (Hh & Hm & Hs).
  unfold hhmmss_of_seconds, hhmmss.
  rewrite !format_d_2 by lia. reflexivity.
Qed.

Lemma hhmmss_fields (h m s : Z) :
  valid_time_of_day h m s ->
  int_of_str (slice (hhmmss h m s) 0 2) = Some h /\
  int_of_str (slice (hhmmss h m s) 2 4) = Some m /\
  int_of_str (slice (hhmmss h m s) 4 6) = Some s.
Proof.
  intros (Hh & Hm & Hs). unfold hhmmss, slice, two_digits.
  cbn [app firstn skipn Nat.sub].
  fold (two_digits h). fold (two_digits m). fold (two_digits s).
  rewrite !int_of_two_digits by lia. auto.
Qed.

(** C9. [_tick_time] returns for every elapsed time, negative ones
    included: whenever the first six characters of the start string are
    digits (as they are for every time of day) and the elapsed time is a
    finite number of either sign, whole or fractional, the result is a
    six-digit string [HHMMSS] with hours in [0, 23], minutes in [0, 59] and
    seconds in [0, 59], the truncated total having been reduced modulo
    86400 to a non-negative value first. *)
Theorem tick_time_total (start : str) (n : number) :
  six_digits (firstn 6 start) = true ->
  finite_number n = true ->
  exists t h m s,
    0 <= t < 86400 /\ valid_time_of_day h m s /\
    h = t / 3600 /\ m = t mod 3600 / 60 /\ s = t mod 60 /\
    _tick_time start n = Some (hhmmss h m s) /\
    six_digits (hhmmss h m s) = true.
Proof.
  intros D F.
  destruct (six_digits_fields start D) as (hh & mm & ss & _ & _ & _ & _ & F1 & F2 & F3).
  destruct (finite_number_int n F) as (k & Hk).
  set (t := (hh * 3600 + mm * 60 + ss + k) mod 86400).
  assert (Ht : 0 <= t < 86400) by (apply Z.mod_pos_bound; lia).
  exists t, (t / 3600), (t mod 3600 / 60), (t mod 60).
  pose proof (seconds_in_day t Ht) as V.
  repeat split; try lia; try apply V.
  - now rewrite (tick_time_formula start n hh mm ss k).
  - now apply hhmmss_six_digits.
Qed.

Lemma tick_time_total_witness :
  six_digits (firstn 6 (lit "000010")) = true /\
  finite_number (PyFloat (SFopp (Float64.of_decimal 205 1))) = true /\
  exists t h m s,
    0 <= t < 86400 /\ valid_time_of_day h m s /\
    h = t / 3600 /\ m = t mod 3600 / 60 /\ s = t mod 60 /\
    _tick_time (lit "000010") (PyFloat (SFopp (Float64.of_decimal 205 1)))
    = Some (hhmmss h m s) /\
    six_digits (hhmmss h m s) = true.
Proof.
  split; [reflexivity|]. split; [reflexivity|].
  apply tick_time_total; reflexivity.
Defined.

(** An elapsed time that is not a number, or not finite, has no integer
    part: [int] raises, and so does [_tick_time]. *)
Lemma tick_time_not_finite (start : str) :
  _tick_time start (PyFloat S754_nan) = None /\
  _tick_time start (PyFloat (S754_infinity false)) = None.
Proof.
  unfold _tick_time.
  destruct (int_of_str (slice start 0 2)); [|auto].
  destruct (int_of_str (slice start 2 4)); [|auto].
  destruct (int_of_str (slice start 4 6)); auto.
Qed.

(** ** Binary64 arithmetic *)

Lemma digits2_pos_bounds (m : positive) :
  2 ^ (Zpos (digits2_pos m) - 1) <= Zpos m < 2 ^ Zpos (digits2_pos m).
Proof.
  induction m as [p IH|p IH|]; cbn [digits2_pos].
  - rewrite Pos2Z.inj_succ, Z.pow_succ_r by lia.
    replace (Z.succ (Zpos (digits2_pos p)) - 1)
      with (Z.succ (Zpos (digits2_pos p) - 1)) by lia.
    rewrite Z.pow_succ_r by lia. lia.
  - rewrite Pos2Z.inj_succ, Z.pow_succ_r by lia.
    replace (Z.succ (Zpos (digits2_pos p)) - 1)
      with (Z.succ (Zpos (digits2_pos p) - 1)) by lia.
    rewrite Z.pow_succ_r by lia. lia.
  - simpl. lia.
Qed.

Lemma digits2_pos_le (m : positive) (k : Z) :
  Zpos m < 2 ^ k -> Zpos (digits2_pos m) <= k.
Proof.
  intros H. destruct (Z_le_gt_dec (Zpos (digits2_pos m)) k) as [L|G]; [exact L|].
  exfalso. pose proof (digits2_pos_bounds m) as [B _].
  assert (0 <= k).
  { destruct (Z_lt_le_dec k 0) as [N|N]; [|exact N].
    rewrite Z.pow_neg_r in H by lia. lia. }
  assert (2 ^ k <= 2 ^ (Zpos (digits2_pos m) - 1))
    by (apply Z.pow_le_mono_r; lia).
  lia.
Qed.

Lemma bounded_mantissa (m : positive) (e : Z) :
  bounded Float64.prec Float64.emax m e = true ->
  Zpos m < 2 ^ 53 /\ -1074 <= e <= 971.
Proof.
  unfold bounded, canonical_mantissa, fexp, emin, Float64.prec, Float64.emax.
  intros H. apply andb_true_iff in H. destruct H as [C L].
  apply Z.eqb_eq in C. apply Z.leb_le in L.
  pose proof (digits2_pos_bounds m) as [_ U].
  assert (Zpos (digits2_pos m) <= 53) by lia.
  assert (2 ^ Zpos (digits2_pos m) <= 2 ^ 53) by (apply Z.pow_le_mono_r; lia).
  lia.
Qed.

(** Comparison with a positive bound [b], for a number and its opposite. *)
Lemma within_bound (s : bool) (m mb : positive) (e eb : Z) :
  Float64.leb (SFopp (S754_finite false mb eb)) (S754_finite s m e) = true ->
  Float64.leb (S754_finite s m e) (S754_finite false mb eb) = true ->
  e < eb \/ (e = eb /\ (m <= mb)%positive).
Proof.
  unfold Float64.leb, SFleb, SFcompare, SFopp. cbn [negb].
  destruct s.
  - intros H _. destruct (Z.compare_spec eb e) as [E|E|E];
      simpl in H; try discriminate; try lia.
    right. split; [lia|].
    destruct (Pos.compare_cont Eq mb m) eqn:C; simpl in H; try discriminate.
    + apply Pos.compare_eq in C. subst. reflexivity.
    + change (Pos.compare mb m = Gt) in C. apply Pos.compare_gt_iff in C. lia.
  - intros _ H. destruct (Z.compare_spec e eb) as [E|E|E];
      simpl in H; try discriminate; try lia.
    right. split; [lia|].
    destruct (Pos.compare_cont Eq m mb) eqn:C; try discriminate.
    + apply Pos.compare_eq in C. subst. reflexivity.
    + apply Pos.lt_le_incl. exact C.
Qed.

Lemma pow2_pos (k : Z) : 0 <= k -> 0 < 2 ^ k.
Proof. intros. apply Z.pow_pos_nonneg; lia. Qed.

Lemma pow2_split (a b : Z) : 0 <= a -> 0 <= b -> 2 ^ (a + b) = 2 ^ a * 2 ^ b.
Proof. intros. apply Z.pow_add_r; lia. Qed.

(** Closes [2 ^ c = 2 ^ a * 2 ^ b] when [c = a + b] and neither exponent
    is negative. *)
Ltac pow2_product := rewrite <- pow2_split by lia; f_equal; lia.

Lemma pow2_xO (p : positive) : 2 ^ Zpos p~0 = 2 ^ Zpos p * 2 ^ Zpos p.
Proof. pow2_product. Qed.

Lemma pow2_xI (p : positive) : 2 ^ Zpos p~1 = 2 * (2 ^ Zpos p * 2 ^ Zpos p).
Proof.
  replace (Zpos p~1) with (1 + (Zpos p + Zpos p)) by lia.
  rewrite !pow2_split by lia. reflexivity.
Qed.

Lemma Zdigits2_le (m k : Z) : 0 <= m < 2 ^ k -> 0 <= k -> Zdigits2 m <= k.
Proof.
  intros [H0 H1] Hk. destruct m as [|p|p]; simpl; [lia| |lia].
  now apply digits2_pos_le.
Qed.

(** ** Shifting a mantissa to the right *)

Lemma shr_1_m (mrs : shr_record) :
  0 <= shr_m mrs -> shr_m (shr_1 mrs) = shr_m mrs / 2.
Proof.
  destruct mrs as [m r s]. cbn [shr_m]. intros H.
  destruct m as [|[p|p|]|p]; cbn [shr_1 shr_m]; try lia.
  - reflexivity.
  - apply Z.div_unique with 1; lia.
  - apply Z.div_unique with 0; lia.
  - reflexivity.
Qed.

Lemma iter_shr_1_m (p : positive) (mrs : shr_record) :
  0 <= shr_m mrs ->
  shr_m (iter_pos shr_1 p mrs) = shr_m mrs / 2 ^ Zpos p.
Proof.
  revert mrs. induction p as [p IH|p IH|]; intros mrs H; cbn [iter_pos].
  - assert (H1 : 0 <= shr_m (shr_1 mrs))
      by (rewrite shr_1_m by lia; apply Z.div_pos; lia).
    assert (H2 : 0 <= shr_m (iter_pos shr_1 p (shr_1 mrs)))
      by (rewrite IH by lia; apply Z.div_pos; [lia|apply pow2_pos; lia]).
    rewrite IH, IH, shr_1_m by lia.
    pose proof (pow2_pos (Zpos p) ltac:(lia)).
    rewrite !Z.div_div by lia. rewrite pow2_xI. f_equal; lia.
  - assert (H2 : 0 <= shr_m (iter_pos shr_1 p mrs))
      by (rewrite IH by lia; apply Z.div_pos; [lia|apply pow2_pos; lia]).
    rewrite IH, IH by lia.
    pose proof (pow2_pos (Zpos p) ltac:(lia)).
    rewrite !Z.div_div by lia. rewrite pow2_xO. reflexivity.
  - rewrite shr_1_m by lia. reflexivity.
Qed.

Lemma shr_record_of_loc_m (m : Z) (l : location) :
  shr_m (shr_record_of_loc m l) = m.
Proof. destruct l as [|[]]; reflexivity. Qed.

(** The mantissa and the exponent [shr_fexp] leaves, whatever the rounding
    bits: no shift when the exponent is already the canonical one or
    larger, a division by a power of two otherwise. *)
Lemma shr_fexp_m (m e : Z) (l : location) :
  0 <= m ->
  let n := fexp Float64.prec Float64.emax (Zdigits2 m + e) - e in
  let r := shr_fexp Float64.prec Float64.emax m e l in
  (n <= 0 /\ fst r = shr_record_of_loc m l /\ snd r = e) \/
  (0 < n /\ shr_m (fst r) = m / 2 ^ n /\ snd r = e + n).
Proof.
  intros H n r. subst r. unfold shr_fexp. fold n.
  destruct n as [|p|p] eqn:E.
  - left. simpl. repeat split; lia.
  - right. cbn [shr fst snd]. repeat split; try lia.
    rewrite iter_shr_1_m by (rewrite shr_record_of_loc_m; lia).
    now rewrite shr_record_of_loc_m.
  - left. simpl. repeat split; lia.
Qed.

Lemma round_nearest_even_range (m : Z) (l : location) :
  m <= round_nearest_even m l <= m + 1.
Proof.
  unfold round_nearest_even. destruct l as [|[]]; try lia.
  destruct (Z.even m); lia.
Qed.

Lemma div_pow2_le (m a b : Z) :
  0 <= b <= a -> 0 <= m <= 2 ^ a -> 0 <= m / 2 ^ b <= 2 ^ (a - b).
Proof.
  intros Hab Hm. pose proof (pow2_pos b ltac:(lia)).
  split; [apply Z.div_pos; lia|].
  apply Z.div_le_upper_bound; [lia|].
  rewrite <- pow2_split by lia. replace (b + (a - b)) with a by lia. lia.
Qed.

Lemma div_pow2_lt (m a b : Z) :
  0 <= b <= a -> 0 <= m < 2 ^ a -> 0 <= m / 2 ^ b < 2 ^ (a - b).
Proof.
  intros Hab Hm. pose proof (pow2_pos b ltac:(lia)).
  split; [apply Z.div_pos; lia|].
  apply Z.div_lt_upper_bound; [lia|].
  rewrite <- pow2_split by lia. replace (b + (a - b)) with a by lia. lia.
Qed.

Lemma div_scaled_le (m c a b : Z) :
  0 <= b <= a -> 0 <= c -> 0 <= m <= c * 2 ^ a ->
  0 <= m / 2 ^ b <= c * 2 ^ (a - b).
Proof.
  intros Hab Hc Hm. pose proof (pow2_pos b ltac:(lia)).
  split; [apply Z.div_pos; lia|].
  apply Z.div_le_upper_bound; [lia|].
  replace (2 ^ b * (c * 2 ^ (a - b))) with (c * (2 ^ b * 2 ^ (a - b))) by lia.
  rewrite <- pow2_split by lia. replace (b + (a - b)) with a by lia. lia.
Qed.

Lemma div_scaled_lt (m c a b : Z) :
  0 <= b <= a -> 0 <= c -> 0 <= m < c * 2 ^ a ->
  0 <= m / 2 ^ b < c * 2 ^ (a - b).
Proof.
  intros Hab Hc Hm. pose proof (pow2_pos b ltac:(lia)).
  split; [apply Z.div_pos; lia|].
  apply Z.div_lt_upper_bound; [lia|].
  replace (2 ^ b * (c * 2 ^ (a - b))) with (c * (2 ^ b * 2 ^ (a - b))) by lia.
  rewrite <- pow2_split by lia. replace (b + (a - b)) with a by lia. lia.
Qed.

Lemma Zdigits2_scaled (m c k : Z) :
  0 < c < 2 ^ 53 -> 0 <= k -> 0 <= m <= c * 2 ^ k -> Zdigits2 m <= 53 + k.
Proof.
  intros Hc Hk Hm. apply Zdigits2_le; [|lia].
  rewrite pow2_split by lia. pose proof (pow2_pos k Hk). nia.
Qed.

(** ** Rounding does not pass a number of few bits

    A positive quantity [mx * 2^ex] below [c * 2^g], where [c] has at most
    53 bits, is rounded to zero or to a finite number [m * 2^e] with
    [e <= g] and [m <= c * 2^(g - e)], that is, to at most [c * 2^g]. *)
Lemma binary_round_aux_below (s : bool) (mx : positive) (ex c g : Z) :
  0 < c < 2 ^ 53 -> ex <= g -> -1074 <= g <= 971 ->
  Zpos mx < c * 2 ^ (g - ex) ->
  match binary_round_aux Float64.prec Float64.emax s (Zpos mx) ex loc_Exact with
  | S754_zero s' => s' = s
  | S754_finite s' m e => s' = s /\ ex <= e <= g /\ Zpos m <= c * 2 ^ (g - e)
  | _ => False
  end.
Proof.
  intros Hc Hex Hg Hmx. unfold binary_round_aux.
  (* first shift *)
  pose proof (shr_fexp_m (Zpos mx) ex loc_Exact ltac:(lia)) as S1.
  cbv zeta in S1.
  destruct (shr_fexp Float64.prec Float64.emax (Zpos mx) ex loc_Exact)
    as [mrs1 e1]. cbn [fst snd] in S1.
  set (m2 := round_nearest_even (shr_m mrs1) (loc_of_shr_record mrs1)).
  assert (D1 : Zdigits2 (Zpos mx) <= 53 + (g - ex))
    by (apply (Zdigits2_scaled _ c); lia).
  assert (B1 : ex <= e1 <= g /\ 0 <= m2 <= c * 2 ^ (g - e1)).
  { destruct S1 as [(N & R & E)|(N & M & E)].
    - subst mrs1 e1. subst m2. cbn. lia.
    - unfold fexp, emin, Float64.prec, Float64.emax in N, M, E.
      assert (e1 <= g) by lia.
      pose proof (round_nearest_even_range (shr_m mrs1) (loc_of_shr_record mrs1)) as R.
      fold m2 in R. rewrite M in R.
      pose proof (div_scaled_lt (Zpos mx) c (g - ex) (e1 - ex)
                    ltac:(lia) ltac:(lia) ltac:(lia)) as Q.
      replace (e1 - ex) with
        (Z.max (Zdigits2 (Zpos mx) + ex - 53) (3 - 1024 - 53) - ex) in Q by lia.
      replace (g - ex - (Z.max (Zdigits2 (Zpos mx) + ex - 53) (3 - 1024 - 53) - ex))
        with (g - e1) in Q by lia.
      lia. }
  clearbody m2. clear S1 D1. destruct B1 as (E1 & M2).
  (* second shift *)
  pose proof (shr_fexp_m m2 e1 loc_Exact ltac:(lia)) as S2.
  cbv zeta in S2.
  destruct (shr_fexp Float64.prec Float64.emax m2 e1 loc_Exact) as [mrs3 e3].
  cbn [fst snd] in S2.
  assert (D2 : Zdigits2 m2 <= 53 + (g - e1))
    by (apply (Zdigits2_scaled _ c); lia).
  assert (B3 : e1 <= e3 <= g /\ 0 <= shr_m mrs3 <= c * 2 ^ (g - e3)).
  { destruct S2 as [(N & R & E)|(N & M & E)].
    - subst mrs3 e3. cbn. lia.
    - unfold fexp, emin, Float64.prec, Float64.emax in N, M, E.
      assert (e3 <= g) by lia.
      pose proof (div_scaled_le m2 c (g - e1) (e3 - e1)
                    ltac:(lia) ltac:(lia) ltac:(lia)) as Q.
      replace (e3 - e1) with
        (Z.max (Zdigits2 m2 + e1 - 53) (3 - 1024 - 53) - e1) in Q by lia.
      rewrite <- M in Q.
      replace (g - e1 - (Z.max (Zdigits2 m2 + e1 - 53) (3 - 1024 - 53) - e1))
        with (g - e3) in Q by lia.
      lia. }
  destruct B3 as (E3 & M3).
  destruct (shr_m mrs3) as [|m|m]; [reflexivity| |lia].
  unfold Float64.emax, Float64.prec.
  replace (e3 <=? 1024 - 53) with true by (symmetry; apply Z.leb_le; lia).
  repeat split; lia.
Qed.

(** ** The error of one rounding *)

Lemma div_pow2_error (m n : Z) :
  0 <= m -> 0 <= n ->
  0 <= m - m / 2 ^ n * 2 ^ n < 2 ^ n.
Proof.
  intros Hm Hn. pose proof (pow2_pos n Hn) as P.
  pose proof (Z.div_mod m (2 ^ n) ltac:(lia)).
  pose proof (Z.mod_pos_bound m (2 ^ n) P). lia.
Qed.

(** A positive quantity [mx * 2^ex] below [2^g] is rounded to zero or to a
    finite number [m * 2^e] whose exponent is at most
    [L = max ex (g - 52) (-1074)], and which is within [2 * 2^L] of it. *)
Lemma binary_round_aux_error (s : bool) (mx : positive) (ex g : Z) :
  ex <= g -> -1074 <= g <= 971 ->
  Zpos mx < 2 ^ (g - ex) ->
  let L := Z.max ex (Z.max (g - 52) (-1074)) in
  exists m e,
    0 <= m /\ ex <= e <= L /\ -1074 <= e /\
    Z.abs (m * 2 ^ (e - ex) - Zpos mx) <= 2 * 2 ^ (L - ex) /\
    binary_round_aux Float64.prec Float64.emax s (Zpos mx) ex loc_Exact
    = match m with
      | Zpos p => S754_finite s p e
      | _ => S754_zero s
      end.
Proof.
  intros Hex Hg Hmx L. unfold binary_round_aux.
  (* first shift *)
  pose proof (shr_fexp_m (Zpos mx) ex loc_Exact ltac:(lia)) as S1.
  cbv zeta in S1.
  destruct (shr_fexp Float64.prec Float64.emax (Zpos mx) ex loc_Exact)
    as [mrs1 e1]. cbn [fst snd] in S1.
  set (m2 := round_nearest_even (shr_m mrs1) (loc_of_shr_record mrs1)).
  assert (D1 : Zdigits2 (Zpos mx) <= g - ex)
    by (apply Zdigits2_le; lia).
  assert (D1' : 0 < Zdigits2 (Zpos mx)).
  { cbn [Zdigits2]. lia. }
  assert (B1 : ex <= e1 <= Z.max ex (Z.max (g - 53) (-1074)) /\
               0 <= m2 <= 2 ^ (g - e1) /\
               Z.abs (m2 * 2 ^ (e1 - ex) - Zpos mx) <= 2 ^ (e1 - ex)).
  { destruct S1 as [(N & R & E)|(N & M & E)].
    - subst mrs1 e1. subst m2.
      change (round_nearest_even _ _) with (Zpos mx).
      replace (ex - ex) with 0 by lia. rewrite Z.pow_0_r. lia.
    - unfold fexp, emin, Float64.prec, Float64.emax in N, M, E.
      set (n := Z.max (Zdigits2 (Zpos mx) + ex - 53) (3 - 1024 - 53) - ex) in *.
      assert (En : e1 - ex = n) by lia.
      pose proof (round_nearest_even_range (shr_m mrs1) (loc_of_shr_record mrs1)) as R.
      fold m2 in R. rewrite M in R.
      pose proof (div_pow2_lt (Zpos mx) (g - ex) n ltac:(lia) ltac:(lia)) as Q.
      pose proof (div_pow2_error (Zpos mx) n ltac:(lia) ltac:(lia)) as Er.
      replace (g - ex - n) with (g - e1) in Q by lia.
      rewrite En. pose proof (pow2_pos n ltac:(lia)).
      split; [lia|]. split; [lia|]. nia. }
  clearbody m2. clear S1 D1 D1'. destruct B1 as (E1 & M2 & Er1).
  (* second shift *)
  pose proof (shr_fexp_m m2 e1 loc_Exact ltac:(lia)) as S2.
  cbv zeta in S2.
  destruct (shr_fexp Float64.prec Float64.emax m2 e1 loc_Exact) as [mrs3 e3].
  cbn [fst snd] in S2.
  assert (D2 : Zdigits2 m2 <= g - e1 + 1).
  { apply Zdigits2_le; [|lia].
    rewrite Z.pow_add_r by lia. change (2 ^ 1) with 2.
    pose proof (pow2_pos (g - e1) ltac:(lia)). lia. }
  assert (D2' : 0 <= Zdigits2 m2).
  { destruct m2; cbn [Zdigits2]; lia. }
  assert (B3 : e1 <= e3 <= L /\ -1074 <= e3 /\ 0 <= shr_m mrs3 /\
               Z.abs (shr_m mrs3 * 2 ^ (e3 - e1) - m2) <= 2 ^ (e3 - e1)).
  { destruct S2 as [(N & R & E)|(N & M & E)].
    - subst mrs3 e3. cbn [shr_record_of_loc shr_m].
      unfold fexp, emin, Float64.prec, Float64.emax in N.
      replace (e1 - e1) with 0 by lia. rewrite Z.pow_0_r. unfold L. lia.
    - unfold fexp, emin, Float64.prec, Float64.emax in N, M, E.
      set (n := Z.max (Zdigits2 m2 + e1 - 53) (3 - 1024 - 53) - e1) in *.
      assert (En : e3 - e1 = n) by lia.
      pose proof (div_pow2_error m2 n ltac:(lia) ltac:(lia)) as Er.
      rewrite En, M. pose proof (pow2_pos n ltac:(lia)).
      split; [unfold L; lia|]. split; [lia|].
      split; [apply Z.div_pos; lia|]. lia. }
  destruct B3 as (E3 & E3' & M3 & Er3).
  exists (shr_m mrs3), e3.
  split; [exact M3|]. split; [lia|]. split; [exact E3'|].
  split.
  - assert (P1 : 2 ^ (e3 - ex) = 2 ^ (e3 - e1) * 2 ^ (e1 - ex)) by pow2_product.
    assert (P2 : 2 ^ (L - ex) = 2 ^ (L - e3) * 2 ^ (e3 - ex)) by pow2_product.
    assert (P3 : 2 ^ (L - ex) = 2 ^ (L - e1) * 2 ^ (e1 - ex)) by pow2_product.
    pose proof (pow2_pos (e3 - e1) ltac:(lia)).
    pose proof (pow2_pos (e1 - ex) ltac:(lia)).
    pose proof (pow2_pos (L - e3) ltac:(lia)).
    pose proof (pow2_pos (L - e1) ltac:(lia)).
    pose proof (pow2_pos (e3 - ex) ltac:(lia)).
    set (a := 2 ^ (e3 - e1)) in *. set (b := 2 ^ (e1 - ex)) in *.
    set (c := 2 ^ (L - e3)) in *. set (d := 2 ^ (L - e1)) in *.
    set (t := 2 ^ (e3 - ex)) in *. set (u := 2 ^ (L - ex)) in *.
    clearbody a b c d t u.
    assert (Z.abs (shr_m mrs3 * t - m2 * b) <= t) by nia.
    assert (t <= u) by nia. assert (b <= u) by nia.
    lia.
  - destruct (shr_m mrs3) as [|m|m]; [reflexivity| |lia].
    unfold Float64.emax, Float64.prec.
    replace (e3 <=? 1024 - 53) with true; [reflexivity|].
    symmetry. apply Z.leb_le. unfold L in E3. lia.
Qed.

(** ** Shifting a mantissa to the left *)

Lemma iter_xO_value (m d : positive) :
  Zpos (Pos.iter xO m d) = Zpos m * 2 ^ Zpos d.
Proof.
  induction d as [|d IH] using Pos.peano_ind.
  - simpl. lia.
  - rewrite Pos.iter_succ, Pos2Z.inj_xO, IH, Pos2Z.inj_succ, Z.pow_succ_r by lia.
    lia.
Qed.

Lemma iter_xO_digits (m d : positive) :
  Zpos (digits2_pos (Pos.iter xO m d)) = Zpos (digits2_pos m) + Zpos d.
Proof.
  induction d as [|d IH] using Pos.peano_ind.
  - simpl. lia.
  - rewrite Pos.iter_succ. cbn [digits2_pos]. lia.
Qed.

Lemma shl_align_spec (mx : positive) (ex ex' : Z) :
  let r := shl_align mx ex ex' in
  snd r = Z.min ex ex' /\
  Zpos (fst r) = Zpos mx * 2 ^ (ex - snd r) /\
  Zpos (digits2_pos (fst r)) = Zpos (digits2_pos mx) + (ex - snd r).
Proof.
  unfold shl_align. destruct (ex' - ex) as [|d|d] eqn:E; cbn [fst snd].
  - replace (ex - ex) with 0 by lia. simpl. lia.
  - replace (ex - ex) with 0 by lia. simpl. lia.
  - replace (ex - ex') with (Zpos d) by lia.
    rewrite iter_xO_value, iter_xO_digits. lia.
Qed.

(** ** A number of at most 53 bits is not rounded *)

Lemma binary_round_exact (s : bool) (mx : positive) (ex : Z) :
  Zpos mx < 2 ^ 53 -> -1074 <= ex <= 971 ->
  exists mz ez,
    binary_round Float64.prec Float64.emax s mx ex = S754_finite s mz ez /\
    -1074 <= ez <= ex /\ Zpos mz = Zpos mx * 2 ^ (ex - ez).
Proof.
  intros Hm He. unfold binary_round.
  pose proof (digits2_pos_le mx 53 Hm) as D.
  set (f := fexp Float64.prec Float64.emax (Zpos (digits2_pos mx) + ex)).
  assert (Hf : -1074 <= f <= ex /\ f = Z.max (Zpos (digits2_pos mx) + ex - 53) (-1074))
    by (unfold f, fexp, emin, Float64.prec, Float64.emax; lia).
  pose proof (shl_align_spec mx ex f) as A. cbv zeta in A.
  destruct (shl_align mx ex f) as [mz ez]. cbn [fst snd] in A.
  destruct A as (A1 & A2 & A3).
  assert (ez = f) by lia. clear A1. subst ez.
  assert (F : fexp Float64.prec Float64.emax (Zdigits2 (Zpos mz) + f) - f = 0).
  { cbn [Zdigits2]. rewrite A3.
    unfold fexp, emin, Float64.prec, Float64.emax. lia. }
  exists mz, f. split; [|lia].
  unfold binary_round_aux, shr_fexp. rewrite F. cbn [shr shr_record_of_loc].
  cbn [loc_of_shr_record shr_m round_nearest_even]. rewrite F.
  cbn [shr shr_record_of_loc shr_m].
  unfold Float64.emax, Float64.prec.
  replace (f <=? 1024 - 53) with true by (symmetry; apply Z.leb_le; lia).
  reflexivity.
Qed.

(** ** Taking the integer part away *)

Lemma trunc_mag_neg (m : positive) (e : Z) :
  e < 0 -> Float64.trunc_mag m e = Zpos m / 2 ^ (- e).
Proof. destruct e; try lia. intros _. reflexivity. Qed.

(** The integer part of a number with at most 53 bits, once it is a
    binary64 number [fd], is taken away without rounding. *)
Lemma sub_integer_part (m : positive) (e d : Z) (fd : float64) :
  Zpos m < 2 ^ 53 -> -1074 <= e < 0 ->
  d = Float64.trunc_mag m e ->
  (d = 0 /\ fd = S754_zero false \/
   exists md ed, fd = S754_finite false md ed /\ -52 <= ed <= 0 /\
                 Zpos md = d * 2 ^ (- ed)) ->
  let frac := Float64.sub (S754_finite false m e) fd in
  proper_fraction frac /\
  units frac = Zpos m * 2 ^ (e + 1074) - d * 2 ^ 1074.
Proof.
  intros Hm He Hd Hfd frac. rewrite trunc_mag_neg in Hd by lia.
  pose proof (pow2_pos (- e) ltac:(lia)) as P.
  assert (Hdiv : d * 2 ^ (- e) <= Zpos m < (d + 1) * 2 ^ (- e)).
  { subst d. pose proof (Z.div_mod (Zpos m) (2 ^ (- e)) ltac:(lia)).
    pose proof (Z.mod_pos_bound (Zpos m) (2 ^ (- e)) P). nia. }
  assert (S1074 : 2 ^ 1074 = 2 ^ (e + 1074) * 2 ^ (- e))
        by pow2_product.
  destruct Hfd as [(D0 & ->)|(md & ed & -> & Hed & Hmd)].
  - subst frac. cbn. rewrite D0 in *. split; [|lia]. lia.
  - subst frac. unfold Float64.sub, SFsub. cbn [cond_Zopp].
    set (ez := Z.min e ed).
    assert (Ez0 : ez <= e /\ ez <= ed /\ (ez = e \/ ez = ed)) by (unfold ez; lia).
    clearbody ez.
    pose proof (shl_align_spec m e ez) as (A1 & A2 & _).
    pose proof (shl_align_spec md ed ez) as (B1 & B2 & _).
    rewrite A1 in A2. rewrite B1 in B2.
    replace (Z.min e ez) with ez in A2 by lia.
    replace (Z.min ed ez) with ez in B2 by lia.
    rewrite A2, B2, Hmd.
    set (z := Zpos m * 2 ^ (e - ez) - d * 2 ^ (- ed) * 2 ^ (ed - ez)).
    assert (Ez : -1074 <= ez <= 0) by lia.
    assert (Q1 : 2 ^ (- ed) * 2 ^ (ed - ez) = 2 ^ (- ez))
        by pow2_product.
    assert (Q2 : 2 ^ (- e) * 2 ^ (e - ez) = 2 ^ (- ez))
        by pow2_product.
    pose proof (pow2_pos (e - ez) ltac:(lia)) as P2.
    pose proof (pow2_pos (- ez) ltac:(lia)) as P3.
    assert (Hz : 0 <= z < 2 ^ (- ez)) by (unfold z; nia).
    assert (Vz : z * 2 ^ (ez + 1074) = Zpos m * 2 ^ (e + 1074) - d * 2 ^ 1074).
    { assert (2 ^ (e + 1074) = 2 ^ (e - ez) * 2 ^ (ez + 1074))
        by pow2_product.
      assert (2 ^ 1074 = 2 ^ (- ez) * 2 ^ (ez + 1074))
        by pow2_product.
      unfold z. nia. }
    clearbody z. destruct z as [|pz|pz]; [| |lia].
    + cbn [binary_normalize proper_fraction units]. split; [exact I|lia].
    + cbn [binary_normalize].
      assert (E52 : -52 <= ez).
      { (* a number of at least one has an exponent above -53 *)
        destruct (Z_le_gt_dec (-52) e) as [?|G]; [lia|].
        exfalso. assert (2 ^ 53 <= 2 ^ (- e)) by (apply Z.pow_le_mono_r; lia).
        assert (d = 0) by nia. subst d.
        pose proof (pow2_pos (- ed) ltac:(lia)). lia. }
      assert (Zpos pz < 2 ^ 53).
      { assert (2 ^ (- ez) <= 2 ^ 53) by (apply Z.pow_le_mono_r; lia). lia. }
      destruct (binary_round_exact false pz ez ltac:(lia) ltac:(lia))
        as (mz & ef & -> & Hef & Hmz).
      cbn [proper_fraction units cond_Zopp].
      assert (Q3 : 2 ^ (- ef) = 2 ^ (- ez) * 2 ^ (ez - ef))
        by pow2_product.
      assert (Q4 : 2 ^ (ez + 1074) = 2 ^ (ez - ef) * 2 ^ (ef + 1074))
        by pow2_product.
      pose proof (pow2_pos (ez - ef) ltac:(lia)).
      split.
      * split; [|nia].
        (* the exponent is negative: the mantissa is positive and below one *)
        split; [lia|].
        destruct (Z_lt_le_dec ef 0) as [?|G]; [lia|].
        assert (ef = 0 /\ ez = 0) as [-> ->] by lia.
        simpl in Hz. lia.
      * rewrite <- Vz, Hmz, Q4. lia.
Qed.

Lemma trunc_mag_floor (m : positive) (e : Z) :
  -1074 <= e < 0 ->
  let d := Float64.trunc_mag m e in
  d * 2 ^ 1074 <= Zpos m * 2 ^ (e + 1074) < (d + 1) * 2 ^ 1074.
Proof.
  intros He d. subst d. rewrite trunc_mag_neg by lia.
  pose proof (pow2_pos (- e) ltac:(lia)) as P.
  pose proof (pow2_pos (e + 1074) ltac:(lia)) as P'.
  pose proof (Z.div_mod (Zpos m) (2 ^ (- e)) ltac:(lia)).
  pose proof (Z.mod_pos_bound (Zpos m) (2 ^ (- e)) P).
  assert (S1074 : 2 ^ 1074 = 2 ^ (e + 1074) * 2 ^ (- e))
        by pow2_product.
  nia.
Qed.

(** ** ClockModel: the whole seconds of an elapsed time *)

(** [int] of a binary64 number is its value cut toward zero. *)
Lemma to_int_whole (x : float64) :
  Float64.valid x = true -> is_finite x = true ->
  Float64.to_int x = Some (Z.quot (units x) (2 ^ 1074)).
Proof.
  pose proof (pow2_pos 1074 ltac:(lia)) as P.
  destruct x as [s|s| |s m e]; try discriminate; intros V _.
  - cbn [Float64.to_int units]. now rewrite Z.quot_0_l by lia.
  - destruct (bounded_mantissa m e V) as (_ & He).
    cbn [Float64.to_int units]. f_equal.
    pose proof (pow2_pos (e + 1074) ltac:(lia)) as Q.
    assert (D : Zpos m * 2 ^ (e + 1074) / 2 ^ 1074 = Float64.trunc_mag m e).
    { destruct (Z_lt_le_dec e 0) as [N|N].
      - rewrite trunc_mag_neg by lia.
        assert (S : 2 ^ 1074 = 2 ^ (- e) * 2 ^ (e + 1074)) by pow2_product.
        rewrite S. apply Z.div_mul_cancel_r; [|lia].
        pose proof (pow2_pos (- e) ltac:(lia)). lia.
      - assert (S : 2 ^ (e + 1074) = 2 ^ e * 2 ^ 1074) by pow2_product.
        rewrite S, Z.mul_assoc, Z.div_mul by lia.
        destruct e; try lia; reflexivity. }
    destruct s; cbn [cond_Zopp].
    + rewrite Z.quot_opp_l by lia.
      rewrite Z.quot_div_nonneg by nia. now rewrite D.
    + rewrite Z.quot_div_nonneg by nia. now rewrite D.
Qed.

Lemma int_of_elapsed_time (n : number) :
  elapsed_time n = true -> int_of_number n = Some (whole_seconds n).
Proof.
  destruct n as [z|x]; [reflexivity|]. cbn [elapsed_time int_of_number whole_seconds].
  intros H. apply andb_true_iff in H. destruct H as [V F].
  now apply to_int_whole.
Qed.

(** C5. [_tick_time] computes (hours*3600 + minutes*60 + seconds + the
    elapsed seconds cut to a whole number) mod 86400 and writes it back as
    hours, minutes and seconds, the whole number being the elapsed time
    itself for an integer and its value cut toward zero for a float; hence,
    for every valid start time of day, ticking by 0 or by 86400 seconds
    gives the start back, 23:59:59 ticked by one second is 00:00:00, and
    12:00:00 ticked by 3661 seconds is 13:01:01, as it is ticked by 3661.9
    seconds, while 00:00:00 ticked by -1.5 seconds is 23:59:59. *)
Theorem tick_time_wraps_around (h m s : Z) :
  valid_time_of_day h m s ->
  let start := hhmmss h m s in
  (forall n, elapsed_time n = true ->
     _tick_time start n
     = Some (hhmmss_of_seconds
               ((h * 3600 + m * 60 + s + whole_seconds n) mod 86400)))
  /\ (forall n k, int_of_number n = Some k ->
     _tick_time start n
     = Some (hhmmss_of_seconds ((h * 3600 + m * 60 + s + k) mod 86400)))
  /\ _tick_time start (PyInt 0) = Some start
  /\ _tick_time start (PyFloat Float64.zero) = Some start
  /\ _tick_time start (PyInt 86400) = Some start
  /\ _tick_time start (PyFloat (Float64.of_decimal 864009 1)) = Some start
  /\ _tick_time (lit "235959") (PyInt 1) = Some (lit "000000")
  /\ _tick_time (lit "120000") (PyInt 3661) = Some (lit "130101")
  /\ whole_seconds (PyFloat (Float64.of_decimal 36619 1)) = 3661
  /\ _tick_time (lit "120000") (PyFloat (Float64.of_decimal 36619 1))
     = Some (lit "130101")
  /\ whole_seconds (PyFloat (SFopp (Float64.of_decimal 15 1))) = -1
  /\ _tick_time (lit "000000") (PyFloat (SFopp (Float64.of_decimal 15 1)))
     = Some (lit "235959").
Proof.
  intros V start.
  destruct (hhmmss_fields h m s V) as (F1 & F2 & F3).
  destruct (seconds_of_time h m s V) as (T & E1 & E2 & E3). cbv zeta in *.
  assert (G : forall n k, int_of_number n = Some k ->
     _tick_time start n
     = Some (hhmmss_of_seconds ((h * 3600 + m * 60 + s + k) mod 86400)))
    by (intros n k Hk; now apply tick_time_formula).
  assert (Z0 : forall n, int_of_number n = Some 0 -> _tick_time start n = Some start).
  { intros n Hn. rewrite (G n 0 Hn), Z.add_0_r, Z.mod_small by lia.
    unfold hhmmss_of_seconds. now rewrite E1, E2, E3. }
  assert (D : forall n, int_of_number n = Some 86400 ->
                        _tick_time start n = Some start).
  { intros n Hn. rewrite (G n 86400 Hn).
    replace (h * 3600 + m * 60 + s + 86400)
      with (h * 3600 + m * 60 + s + 1 * 86400) by lia.
    rewrite Z.mod_add, Z.mod_small by lia.
    unfold hhmmss_of_seconds. now rewrite E1, E2, E3. }
  split; [intros n Hn; apply G; now apply int_of_elapsed_time|].
  split; [exact G|].
  split; [now apply Z0|]. split; [now apply Z0|].
  split; [now apply D|]. split; [now apply D|].
  repeat split; vm_compute; reflexivity.
Qed.

Lemma tick_time_wraps_around_witness :
  valid_time_of_day 7 30 15 /\
  hhmmss 7 30 15 = lit "073015" /\
  elapsed_time (PyFloat (Float64.of_decimal 1725 2)) = true /\
  whole_seconds (PyFloat (Float64.of_decimal 1725 2)) = 17 /\
  _tick_time (lit "073015") (PyFloat (Float64.of_decimal 1725 2))
  = Some (lit "073032") /\
  _tick_time (lit "073015") (PyInt 86400) = Some (lit "073015").
Proof.
  assert (V : valid_time_of_day 7 30 15) by (unfold valid_time_of_day; lia).
  pose proof (tick_time_wraps_around 7 30 15 V) as (W & _ & _ & _ & D & _).
  split; [exact V|]. split; [reflexivity|]. split; [reflexivity|].
  split; [vm_compute; reflexivity|].
  split; [|exact D].
  exact (W (PyFloat (Float64.of_decimal 1725 2)) eq_refl).
Defined.

(** ** Multiplying a proper fraction by sixty *)

Lemma mul_sixty_at_most (x : float64) :
  proper_fraction x -> at_most 15 2 (Float64.mul x Float64.sixty).
Proof.
  destruct x as [[|]|[|]| |[|] m e]; cbn [proper_fraction]; try contradiction.
  - intros _. exact I.
  - intros (He & Hm).
    unfold Float64.mul, Float64.sixty, SFmul. cbn [xorb].
    pose proof (binary_round_aux_below false (m * 8444249301319680)
                  (e + -47) 15 2) as B.
    assert (P : 0 < 2 ^ (- e)) by (apply pow2_pos; lia).
    assert (Hlt : Zpos (m * 8444249301319680) < 15 * 2 ^ (2 - (e + -47))).
    { replace (2 - (e + -47)) with (49 + - e) by lia.
      rewrite pow2_split by lia. rewrite Pos2Z.inj_mul.
      change (2 ^ 49) with 562949953421312. lia. }
    specialize (B ltac:(change (2 ^ 53) with 9007199254740992; lia)
                  ltac:(lia) ltac:(lia) Hlt).
    destruct (binary_round_aux Float64.prec Float64.emax false
                (Zpos (m * 8444249301319680)) (e + -47) loc_Exact)
      as [s'|s'| |s' m' e']; cbn [at_most].
    + now subst s'.
    + contradiction.
    + contradiction.
    + destruct B as (-> & E' & M'). lia.
Qed.

(** ** The decimal rounding of a bounded number *)

Lemma round_half_even_bounds (num den B : Z) :
  0 < den -> 0 <= num <= B * den -> 0 <= round_half_even num den <= B.
Proof.
  intros Hd Hn. unfold round_half_even.
  pose proof (Z.div_mod num den ltac:(lia)) as E.
  pose proof (Z.mod_pos_bound num den Hd) as R.
  assert (Q0 : 0 <= num / den) by (apply Z.div_pos; lia).
  assert (Q1 : num / den <= B) by (apply Z.div_le_upper_bound; lia).
  assert (Q2 : num / den = B -> num mod den = 0) by nia.
  destruct (Z.compare_spec (2 * (num mod den)) den) as [C|C|C].
  - destruct (Z.even (num / den)); [lia|].
    destruct (Z.eq_dec (num / den) B) as [Eq|]; [|lia].
    specialize (Q2 Eq). lia.
  - lia.
  - destruct (Z.eq_dec (num / den) B) as [Eq|]; [|lia].
    specialize (Q2 Eq). lia.
Qed.

Lemma ten_thousandths_range (x : float64) :
  at_most 15 2 x -> 0 <= ten_thousandths x <= 600000.
Proof.
  destruct x as [[|]|[|]| |[|] m e]; cbn [at_most ten_thousandths]; try contradiction; try lia.
  intros (He & Hm). unfold scaled_round.
  change (10 ^ Z.of_nat 4) with 10000.
  destruct e as [|p|p].
  - simpl in Hm. lia.
  - assert (P : 0 < 2 ^ Zpos p) by (apply pow2_pos; lia).
    assert (H60 : Zpos m * 2 ^ Zpos p <= 60).
    { assert (2 ^ 2 = 2 ^ (2 - Zpos p) * 2 ^ Zpos p)
        by pow2_product.
      change (2 ^ 2) with 4 in *. nia. }
    nia.
  - assert (P : 0 < 2 ^ Zpos p) by (apply pow2_pos; lia).
    apply round_half_even_bounds; [exact P|].
    replace (2 - Zneg p) with (2 + Zpos p) in Hm by lia.
    rewrite pow2_split in Hm by lia. change (2 ^ 2) with 4 in Hm. lia.
Qed.

(** ** The text of the minutes *)

Lemma str_eqb_eq (a b : str) : str_eqb a b = true -> a = b.
Proof. unfold str_eqb. destruct (list_eq_dec N.eq_dec a b); congruence. Qed.

Lemma format_d_4 (n : Z) : 0 <= n < 10000 -> format_d 4 n = four_digits n.
Proof.
  intros H. apply str_eqb_eq. revert n H.
  apply (all_below_spec 10000). vm_compute. reflexivity.
Qed.

Lemma format_d_3 (n : Z) : 0 <= n < 1000 -> format_d 3 n = three_digits n.
Proof.
  intros H. apply str_eqb_eq. revert n H.
  apply (all_below_spec 1000). vm_compute. reflexivity.
Qed.

Lemma digits_pad_2 (n : Z) :
  0 <= n < 100 ->
  (length (digits 10 n) <= 2)%nat /\
  zeros (2 - length (digits 10 n)) ++ digits 10 n = two_digits n.
Proof.
  intros H.
  assert (A : all_below 100
                (fun n => (length (digits 10 n) <=? 2)%nat &&
                          str_eqb (zeros (2 - length (digits 10 n)) ++ digits 10 n)
                                  (two_digits n)) = true)
    by (vm_compute; reflexivity).
  pose proof (all_below_spec _ _ A n H) as B. cbv beta in B.
  apply andb_true_iff in B. destruct B as [B1 B2].
  split; [now apply Nat.leb_le|now apply str_eqb_eq].
Qed.

Lemma fixed_text_shape (n : Z) :
  0 <= n < 1000000 -> zero_pad 7 false (fixed_text 4 n) = minutes_text n.
Proof.
  intros H. unfold fixed_text, minutes_text.
  change (10 ^ Z.of_nat 4) with 10000.
  assert (I : 0 <= n / 10000 < 100).
  { split; [apply Z.div_pos; lia|apply Z.div_lt_upper_bound; lia]. }
  pose proof (Z.mod_pos_bound n 10000 ltac:(lia)) as F.
  rewrite format_d_4 by lia.
  destruct (digits_pad_2 (n / 10000) I) as [L E].
  unfold zero_pad. rewrite <- E, <- app_assoc. f_equal.
  rewrite !length_app. cbn [length lit four_digits map list_ascii_of_string].
  f_equal. lia.
Qed.

Lemma format_f_minutes (x : float64) :
  at_most 15 2 x -> format_f 7 4 x = minutes_text (ten_thousandths x).
Proof.
  intros H. pose proof (ten_thousandths_range x H) as R.
  destruct x as [[|]|[|]| |[|] m e]; cbn [at_most] in H; try contradiction.
  - reflexivity.
  - cbn [format_f ten_thousandths] in *. apply fixed_text_shape. lia.
Qed.

(** ** The integers up to 180 as binary64 numbers *)

Lemma of_int_small (d : Z) :
  0 <= d <= 180 ->
  exists fd, Float64.of_int d = Some fd /\
    (d = 0 /\ fd = S754_zero false \/
     exists md ed, fd = S754_finite false md ed /\ -52 <= ed <= 0 /\
                   Zpos md = d * 2 ^ (- ed)).
Proof.
  intros H.
  assert (A : all_below 181 of_int_exact = true) by (vm_compute; reflexivity).
  pose proof (all_below_spec _ _ A d ltac:(lia)) as B.
  unfold of_int_exact in B.
  destruct (Float64.of_int d) as [[[|]|[|]| |[|] md ed]|]; try discriminate.
  - exists (S754_zero false). split; [reflexivity|]. left.
    apply Z.eqb_eq in B. auto.
  - exists (S754_finite false md ed). split; [reflexivity|]. right.
    apply andb_true_iff in B. destruct B as [B B3].
    apply andb_true_iff in B. destruct B as [B1 B2].
    apply Z.leb_le in B1. apply Z.leb_le in B2. apply Z.eqb_eq in B3.
    exists md, ed. auto.
Qed.

(** ** Numbers within a bound *)

Section InRange.

(** The bound is the integer [dmax], the binary64 number [mb * 2^eb];
    [dmax] is between [2^(52 + eb)] and 180. *)
Variables (mb : positive) (eb dmax : Z).
Hypothesis eb_negative : eb < 0.
Hypothesis bound_value : Zpos mb = dmax * 2 ^ (- eb).
Hypothesis bound_large : 2 ^ (52 + eb) <= dmax.
Hypothesis bound_small : dmax <= 180.

Lemma within_cases (v : float64) :
  within (S754_finite false mb eb) v = true ->
  (exists s, v = S754_zero s) \/
  (exists s m e, v = S754_finite s m e /\ Zpos m < 2 ^ 53 /\
                 -1074 <= e < 0 /\ 0 <= Float64.trunc_mag m e <= dmax).
Proof.
  unfold within. intros H.
  apply andb_true_iff in H. destruct H as [H Hu].
  apply andb_true_iff in H. destruct H as [Hv Hl].
  destruct v as [s|s| |s m e].
  - left. eauto.
  - destruct s; discriminate.
  - discriminate.
  - right. exists s, m, e. split; [reflexivity|].
    destruct (bounded_mantissa m e Hv) as (Hm & He).
    pose proof (within_bound s m mb e eb Hl Hu) as C.
    assert (Hneg : e < 0) by lia.
    split; [exact Hm|]. split; [lia|].
    rewrite trunc_mag_neg by lia.
    pose proof (pow2_pos (- e) ltac:(lia)) as P.
    split; [apply Z.div_pos; lia|].
    destruct C as [C|(-> & C)].
    + destruct (Z_le_gt_dec 53 (- e)) as [Big|Small].
      * assert (2 ^ 53 <= 2 ^ (- e)) by (apply Z.pow_le_mono_r; lia).
        rewrite Z.div_small by lia.
        pose proof (Z.pow_nonneg 2 (52 + eb) ltac:(lia)). lia.
      * assert (Zpos m / 2 ^ (- e) < 2 ^ (53 + e)).
        { apply Z.div_lt_upper_bound; [lia|].
          rewrite <- pow2_split by lia.
          replace (- e + (53 + e)) with 53 by lia. lia. }
        assert (2 ^ (53 + e) <= 2 ^ (52 + eb))
          by (apply Z.pow_le_mono_r; lia).
        lia.
    + apply Z.div_le_upper_bound; [lia|]. lia.
Qed.

(** What [_to_nmea_latlon] returns on a number within the bound. *)
Lemma to_nmea_latlon_within (v : float64) (is_lat : bool) :
  within (S754_finite false mb eb) v = true ->
  exists deg frac,
    Float64.to_int (Float64.abs v) = Some deg /\
    0 <= deg <= dmax /\
    deg * 2 ^ 1074 <= units (Float64.abs v) < (deg + 1) * 2 ^ 1074 /\
    proper_fraction frac /\
    units frac = units (Float64.abs v) - deg * 2 ^ 1074 /\
    0 <= ten_thousandths (Float64.mul frac Float64.sixty) <= 600000 /\
    _to_nmea_latlon v is_lat
    = Some (format_d (if is_lat then 2 else 3) deg
              ++ minutes_text (ten_thousandths (Float64.mul frac Float64.sixty)),
            hemisphere v is_lat).
Proof.
  intros W.
  assert (D0 : 0 <= dmax)
    by (pose proof (Z.pow_nonneg 2 (52 + eb) ltac:(lia)); lia).
  pose proof (pow2_pos 1074 ltac:(lia)) as P1074.
  destruct (within_cases v W) as [(s & ->)|(s & m & e & -> & Hm & He & Hd)].
  - exists 0, (S754_zero false).
    split; [reflexivity|]. split; [lia|].
    split; [cbn [Float64.abs SFabs units]; lia|].
    split; [exact I|]. split; [reflexivity|].
    split; [cbn; lia|].
    destruct s, is_lat; reflexivity.
  - set (deg := Float64.trunc_mag m e) in *.
    destruct (of_int_small deg ltac:(lia)) as (fd & Hfd & Sfd).
    destruct (sub_integer_part m e deg fd Hm He eq_refl Sfd) as (PF & UF).
    set (frac := Float64.sub (S754_finite false m e) fd) in *.
    pose proof (mul_sixty_at_most frac PF) as AM.
    exists deg, frac.
    split; [reflexivity|]. split; [lia|].
    split; [apply trunc_mag_floor; lia|].
    split; [exact PF|]. split; [exact UF|].
    split; [now apply ten_thousandths_range|].
    unfold _to_nmea_latlon.
    cbn [Float64.abs SFabs Float64.to_int cond_Zopp]. fold deg.
    rewrite Hfd. fold frac. rewrite (format_f_minutes _ AM).
    destruct s, is_lat; reflexivity.
Qed.

End InRange.

(** ** CoordinateFormatter *)

Lemma three_digits_is_digit (n : Z) :
  0 <= n < 1000 -> forallb is_digit (three_digits n) = true.
Proof.
  intros H. revert n H. apply (all_below_spec 1000). vm_compute; reflexivity.
Qed.

Lemma four_digits_is_digit (n : Z) :
  0 <= n < 10000 -> forallb is_digit (four_digits n) = true.
Proof.
  intros H. revert n H. apply (all_below_spec 10000). vm_compute; reflexivity.
Qed.

Lemma minutes_digits (n : Z) :
  0 <= n < 1000000 ->
  forallb is_digit (two_digits (n / 10000) ++ four_digits (n mod 10000)) = true.
Proof.
  intros H. rewrite forallb_app.
  rewrite two_digits_is_digit, four_digits_is_digit; [reflexivity| |].
  - apply Z.mod_pos_bound. lia.
  - split; [apply Z.div_pos; lia|apply Z.div_lt_upper_bound; lia].
Qed.

(** The result of [_to_nmea_latlon] on a latitude or a longitude in range:
    the degrees are the integer part of the magnitude, the fraction left
    is exact, and the minutes are its product with sixty as [07.4f]
    writes it. *)
Lemma to_nmea_latlon_in_range (v : float64) (is_lat : bool) :
  (if is_lat then valid_latitude v else valid_longitude v) = true ->
  exists deg frac n,
    Float64.to_int (Float64.abs v) = Some deg /\
    0 <= deg <= (if is_lat then 90 else 180) /\
    deg * 2 ^ 1074 <= units (Float64.abs v) < (deg + 1) * 2 ^ 1074 /\
    proper_fraction frac /\
    units frac = units (Float64.abs v) - deg * 2 ^ 1074 /\
    n = ten_thousandths (Float64.mul frac Float64.sixty) /\
    0 <= n <= 600000 /\
    _to_nmea_latlon v is_lat
    = Some ((if is_lat then two_digits deg else three_digits deg)
              ++ minutes_text n,
            hemisphere v is_lat).
Proof.
  intros V.
  assert (S : exists dmax,
             dmax = (if is_lat then 90 else 180) /\
             exists deg frac,
               Float64.to_int (Float64.abs v) = Some deg /\
               0 <= deg <= dmax /\
               deg * 2 ^ 1074 <= units (Float64.abs v) < (deg + 1) * 2 ^ 1074 /\
               proper_fraction frac /\
               units frac = units (Float64.abs v) - deg * 2 ^ 1074 /\
               0 <= ten_thousandths (Float64.mul frac Float64.sixty) <= 600000 /\
               _to_nmea_latlon v is_lat
               = Some (format_d (if is_lat then 2 else 3) deg
                         ++ minutes_text
                              (ten_thousandths (Float64.mul frac Float64.sixty)),
                       hemisphere v is_lat)).
  { destruct is_lat.
    - exists 90. split; [reflexivity|].
      apply (to_nmea_latlon_within 6333186975989760 (-46) 90);
        [lia|reflexivity|vm_compute; discriminate|lia|exact V].
    - exists 180. split; [reflexivity|].
      apply (to_nmea_latlon_within 6333186975989760 (-45) 180);
        [lia|reflexivity|vm_compute; discriminate|lia|exact V]. }
  destruct S as (dmax & Hdmax & deg & frac & H1 & H2 & H3 & H4 & H5 & H6 & H7).
  exists deg, frac, (ten_thousandths (Float64.mul frac Float64.sixty)).
  rewrite <- Hdmax.
  repeat (split; [assumption|]).
  split; [reflexivity|]. split; [assumption|].
  rewrite H7.
  destruct is_lat; [rewrite format_d_2 by lia|rewrite format_d_3 by lia];
    reflexivity.
Qed.

(** ** The error of the minutes *)

Lemma mul_sixty_error (x : float64) :
  proper_fraction x ->
  match Float64.mul x Float64.sixty with
  | S754_finite _ _ e => -1074 <= e
  | _ => True
  end /\
  Z.abs (units (Float64.mul x Float64.sixty) - 60 * units x) <= 2 ^ 1029.
Proof.
  destruct x as [[|]|[|]| |[|] m e]; cbn [proper_fraction]; try contradiction.
  - intros _.
    change (Float64.mul (S754_zero false) Float64.sixty) with (S754_zero false).
    cbn [units]. split; [exact I|].
    change (Z.abs (0 - 60 * 0)) with 0. apply Z.pow_nonneg. lia.
  - intros (He & Hm).
    unfold Float64.mul, Float64.sixty, SFmul. cbn [xorb].
    assert (P : 0 < 2 ^ (- e)) by (apply pow2_pos; lia).
    assert (Hlt : Zpos (m * 8444249301319680) < 2 ^ (6 - (e + -47))).
    { replace (6 - (e + -47)) with (53 + - e) by lia.
      rewrite pow2_split by lia. rewrite Pos2Z.inj_mul.
      change (2 ^ 53) with 9007199254740992. lia. }
    destruct (binary_round_aux_error false (m * 8444249301319680) (e + -47) 6
                ltac:(lia) ltac:(lia) Hlt)
      as (m' & e' & M0 & E' & E1074 & Er & ->).
    replace (Z.max (e + -47) (Z.max (6 - 52) (-1074))) with (-46) in * by lia.
    split; [destruct m'; auto|].
    match goal with
    | |- Z.abs (units ?r - _) <= _ =>
        assert (U : units r = m' * 2 ^ (e' + 1074))
          by (destruct m' as [|p|p]; cbn [units cond_Zopp]; lia)
    end.
    rewrite U. cbn [units cond_Zopp].
    rewrite Pos2Z.inj_mul in Er.
    assert (Q1 : 2 ^ 47 * 2 ^ (e' + 1074)
                 = 2 ^ (e' - (e + -47)) * 2 ^ (e + 1074)).
    { rewrite <- !pow2_split by lia. f_equal. lia. }
    assert (Q2 : 2 * 2 ^ (-46 - (e + -47)) * 2 ^ (e + 1074) = 2 ^ 47 * 2 ^ 1029).
    { change 2 with (2 ^ 1) at 1. rewrite <- !pow2_split by lia. f_equal. lia. }
    pose proof (pow2_pos (e + 1074) ltac:(lia)) as P1.
    pose proof (pow2_pos (e' + 1074) ltac:(lia)) as P2.
    pose proof (pow2_pos (e' - (e + -47)) ltac:(lia)) as P3.
    pose proof (pow2_pos 1029 ltac:(lia)) as P4.
    change (2 ^ 47) with 140737488355328 in Q1, Q2.
    set (a := 2 ^ (e + 1074)) in *. set (b := 2 ^ (e' + 1074)) in *.
    set (c := 2 ^ (e' - (e + -47))) in *.
    set (d := 2 ^ (-46 - (e + -47))) in *. set (t := 2 ^ 1029) in *.
    clearbody a b c d t.
    assert (S : 140737488355328 * (m' * b - 60 * (Zpos m * a))
                = (m' * c - Zpos m * 8444249301319680) * a) by nia.
    assert (Z.abs ((m' * c - Zpos m * 8444249301319680) * a)
            <= 140737488355328 * t).
    { rewrite Z.abs_mul, (Z.abs_eq a) by lia. nia. }
    rewrite <- S, Z.abs_mul in H. lia.
Qed.

Lemma round_half_even_error (num den : Z) :
  0 < den -> 2 * Z.abs (round_half_even num den * den - num) <= den.
Proof.
  intros Hd. unfold round_half_even.
  pose proof (Z.div_mod num den ltac:(lia)) as E.
  pose proof (Z.mod_pos_bound num den Hd) as R.
  destruct (Z.compare_spec (2 * (num mod den)) den) as [C|C|C];
    [destruct (Z.even (num / den))| |]; nia.
Qed.

Lemma ten_thousandths_error (m : positive) (e : Z) :
  -1074 <= e ->
  2 * Z.abs (ten_thousandths (S754_finite false m e) * 2 ^ 1074
             - 10000 * units (S754_finite false m e)) <= 2 ^ 1074.
Proof.
  intros He. cbn [ten_thousandths units cond_Zopp]. unfold scaled_round.
  change (10 ^ Z.of_nat 4) with 10000.
  pose proof (pow2_pos 1074 ltac:(lia)) as P.
  destruct e as [|p|p].
  - rewrite Z.add_0_l, Z.pow_0_r.
    replace (Zpos m * 1 * 10000 * 2 ^ 1074 - 10000 * (Zpos m * 2 ^ 1074))
      with 0 by ring.
    cbn [Z.abs]. lia.
  - rewrite (pow2_split (Zpos p) 1074) by lia.
    replace (Zpos m * 2 ^ Zpos p * 10000 * 2 ^ 1074
             - 10000 * (Zpos m * (2 ^ Zpos p * 2 ^ 1074))) with 0 by ring.
    cbn [Z.abs]. lia.
  - pose proof (round_half_even_error (Zpos m * 10000) (2 ^ Zpos p)
                  (pow2_pos (Zpos p) ltac:(lia))) as R.
    assert (Q : 2 ^ 1074 = 2 ^ Zpos p * 2 ^ (Zneg p + 1074)) by pow2_product.
    pose proof (pow2_pos (Zpos p) ltac:(lia)) as P1.
    pose proof (pow2_pos (Zneg p + 1074) ltac:(lia)) as P2.
    set (n := round_half_even (Zpos m * 10000) (2 ^ Zpos p)) in *.
    set (a := 2 ^ Zpos p) in *. set (b := 2 ^ (Zneg p + 1074)) in *.
    set (t := 2 ^ 1074) in *. clearbody n a b t. subst t.
    replace (n * (a * b) - 10000 * (Zpos m * b))
      with ((n * a - Zpos m * 10000) * b) by lia.
    rewrite Z.abs_mul, (Z.abs_eq b) by lia. nia.
Qed.

(** The digits of the minutes write sixty times the fraction. *)
Lemma minutes_of_fraction (x : float64) :
  proper_fraction x ->
  writes_minutes (ten_thousandths (Float64.mul x Float64.sixty)) (units x).
Proof.
  intros PF. unfold writes_minutes.
  destruct (mul_sixty_error x PF) as (E & M).
  pose proof (mul_sixty_at_most x PF) as A.
  pose proof (pow2_pos 1074 ltac:(lia)) as P.
  assert (Q : 2 ^ 1030 = 2 * 2 ^ 1029)
    by (change 2 with (2 ^ 1) at 2; pow2_product).
  assert (T : 2 * Z.abs (ten_thousandths (Float64.mul x Float64.sixty) * 2 ^ 1074
                         - 10000 * units (Float64.mul x Float64.sixty))
              <= 2 ^ 1074).
  { destruct (Float64.mul x Float64.sixty) as [[|]|[|]| |[|] m e];
      cbn [at_most] in A; try contradiction.
    - cbn [ten_thousandths units].
      change (Z.abs (0 * 2 ^ 1074 - 10000 * 0)) with 0. lia.
    - now apply ten_thousandths_error. }
  set (n := ten_thousandths (Float64.mul x Float64.sixty)) in *.
  set (r := units (Float64.mul x Float64.sixty)) in *.
  set (a := 2 ^ 1074) in *. set (b := 2 ^ 1029) in *.
  clearbody n r a b. rewrite Q. lia.
Qed.

Lemma units_abs (v : float64) : units (Float64.abs v) = Z.abs (units v).
Proof.
  destruct v as [s|s| |s m e]; try reflexivity.
  cbn [Float64.abs SFabs units cond_Zopp].
  pose proof (Z.pow_nonneg 2 (e + 1074) ltac:(lia)).
  destruct s; cbn [cond_Zopp]; nia.
Qed.

Lemma nonnegative_units (v : float64) :
  Float64.valid v = true -> is_finite v = true ->
  (nonnegative v = true <-> 0 <= units v).
Proof.
  destruct v as [s|s| |s m e]; try discriminate; intros V _.
  - cbn [units]. split; [lia|reflexivity].
  - destruct (bounded_mantissa m e V) as (_ & He).
    pose proof (pow2_pos (e + 1074) ltac:(lia)) as P.
    cbn [units]. destruct s; cbn [cond_Zopp].
    + change (nonnegative (S754_finite true m e)) with false.
      split; [discriminate|]. intros H. exfalso. nia.
    + change (nonnegative (S754_finite false m e)) with true.
      split; [intros _; nia|reflexivity].
Qed.

Lemma within_valid (b v : float64) :
  within b v = true -> Float64.valid v = true.
Proof.
  unfold within. intros H.
  apply andb_true_iff in H. destruct H as [H _].
  apply andb_true_iff in H. tauto.
Qed.

(** C3. For every latitude in [-90, 90] the hemisphere is N exactly when
    the value is not negative (S otherwise), the degrees field is the two
    digits of the integer part of the magnitude, and the minutes field is
    seven characters [MM.MMMM], four of them after the point, writing
    sixty times the fraction left (to within half a unit of the last digit
    and [2^-45]); for every longitude in [-180, 180] the hemisphere is E
    exactly when the value is not negative (W otherwise) and the degrees
    field has three digits, the minutes being as before. *)
Theorem to_nmea_latlon_format (v : float64) (is_lat : bool) :
  (if is_lat then valid_latitude v else valid_longitude v) = true ->
  exists deg frac n degrees_text,
    Float64.to_int (Float64.abs v) = Some deg /\
    0 <= deg <= (if is_lat then 90 else 180) /\
    deg * 2 ^ 1074 <= units (Float64.abs v) < (deg + 1) * 2 ^ 1074 /\
    proper_fraction frac /\
    units frac = units (Float64.abs v) - deg * 2 ^ 1074 /\
    n = ten_thousandths (Float64.mul frac Float64.sixty) /\
    0 <= n <= 600000 /\
    (nonnegative v = true <-> 0 <= units v) /\
    deg = whole_degrees v /\
    units frac = fraction_left v /\
    writes_minutes n (fraction_left v) /\
    degrees_text = (if is_lat then two_digits deg else three_digits deg) /\
    length degrees_text = (if is_lat then 2 else 3)%nat /\
    forallb is_digit degrees_text = true /\
    length (minutes_text n) = 7%nat /\
    minutes_text n
    = two_digits (n / 10000) ++ lit "." ++ four_digits (n mod 10000) /\
    forallb is_digit (two_digits (n / 10000) ++ four_digits (n mod 10000))
    = true /\
    _to_nmea_latlon v is_lat
    = Some (degrees_text ++ minutes_text n,
            if nonnegative v
            then (if is_lat then lit "N" else lit "E")
            else (if is_lat then lit "S" else lit "W")).
Proof.
  intros V.
  destruct (to_nmea_latlon_in_range v is_lat V)
    as (deg & frac & n & H1 & H2 & H3 & H4 & H5 & H6 & H7 & H8).
  assert (Vv : Float64.valid v = true)
    by (destruct is_lat; exact (within_valid _ _ V)).
  assert (Fv : is_finite v = true)
    by (destruct v; try discriminate; reflexivity).
  pose proof (pow2_pos 1074 ltac:(lia)) as P.
  assert (D : deg = whole_degrees v).
  { unfold whole_degrees, magnitude. rewrite <- units_abs.
    apply Z.div_unique with (units (Float64.abs v) - deg * 2 ^ 1074); lia. }
  assert (F : units frac = fraction_left v).
  { unfold fraction_left, magnitude. rewrite <- units_abs, H5.
    apply Z.mod_unique with deg; lia. }
  exists deg, frac, n, (if is_lat then two_digits deg else three_digits deg).
  repeat (split; [assumption|]).
  split; [now apply nonnegative_units|].
  split; [exact D|]. split; [exact F|].
  split; [rewrite <- F, H6; now apply minutes_of_fraction|].
  split; [reflexivity|].
  split; [destruct is_lat; reflexivity|].
  split; [destruct is_lat;
          [apply two_digits_is_digit|apply three_digits_is_digit]; lia|].
  split; [reflexivity|]. split; [reflexivity|].
  split; [apply minutes_digits; lia|].
  exact H8.
Qed.

Lemma to_nmea_latlon_format_witness :
  valid_latitude LATITUDE = true /\
  (exists deg frac n degrees_text,
    Float64.to_int (Float64.abs LATITUDE) = Some deg /\
    0 <= deg <= 90 /\
    deg * 2 ^ 1074 <= units (Float64.abs LATITUDE) < (deg + 1) * 2 ^ 1074 /\
    proper_fraction frac /\
    units frac = units (Float64.abs LATITUDE) - deg * 2 ^ 1074 /\
    n = ten_thousandths (Float64.mul frac Float64.sixty) /\
    0 <= n <= 600000 /\
    (nonnegative LATITUDE = true <-> 0 <= units LATITUDE) /\
    deg = whole_degrees LATITUDE /\
    units frac = fraction_left LATITUDE /\
    writes_minutes n (fraction_left LATITUDE) /\
    degrees_text = two_digits deg /\
    length degrees_text = 2%nat /\
    forallb is_digit degrees_text = true /\
    length (minutes_text n) = 7%nat /\
    minutes_text n
    = two_digits (n / 10000) ++ lit "." ++ four_digits (n mod 10000) /\
    forallb is_digit (two_digits (n / 10000) ++ four_digits (n mod 10000))
    = true /\
    _to_nmea_latlon LATITUDE true
    = Some (degrees_text ++ minutes_text n,
            if nonnegative LATITUDE then lit "N" else lit "S")) /\
  whole_degrees LATITUDE = 48 /\
  two_digits 48 ++ minutes_text 583594 = lit "4858.3594" /\
  writes_minutes 583594 (fraction_left LATITUDE) /\
  ~ writes_minutes 583593 (fraction_left LATITUDE) /\
  ~ writes_minutes 583595 (fraction_left LATITUDE) /\
  _to_nmea_latlon LATITUDE true = Some (lit "4858.3594", lit "N").
Proof.
  split; [reflexivity|].
  split; [exact (to_nmea_latlon_format LATITUDE true eq_refl)|].
  split; [vm_compute; reflexivity|].
  split; [reflexivity|].
  split; [unfold writes_minutes; apply Z.leb_le; vm_compute; reflexivity|].
  split; [unfold writes_minutes; intros H; apply Z.leb_le in H;
          vm_compute in H; discriminate H|].
  split; [unfold writes_minutes; intros H; apply Z.leb_le in H;
          vm_compute in H; discriminate H|].
  vm_compute; reflexivity.
Defined.

(** C10. There is a latitude in range, 89.99999992, whose minutes, below
    sixty as computed, are written [60.0000]: the text is [8960.0000],
    nothing being carried into the degrees. *)
Theorem minutes_written_as_sixty :
  let v := Float64.of_decimal 8999999992 8 in
  let minutes :=
    Float64.mul (Float64.sub (Float64.abs v) (S754_finite false 6262818231812096 (-46)))
      Float64.sixty in
  valid_latitude v = true /\
  Float64.to_int (Float64.abs v) = Some 89 /\
  Float64.of_int 89 = Some (S754_finite false 6262818231812096 (-46)) /\
  Float64.ltb minutes Float64.sixty = true /\
  format_f 7 4 minutes = lit "60.0000" /\
  _to_nmea_latlon v true = Some (lit "8960.0000", lit "N").
Proof.
  vm_compute. repeat split; reflexivity.
Qed.

(** ** ChecksumComputer *)

Lemma checksum_of_bytes (payload : str) :
  Forall (fun c => ord c < 256) payload ->
  0 <= xor_all payload < 256 /\
  Z.land (xor_all payload) 255 = xor_all payload /\
  _checksum payload = two_hex (xor_all payload).
Proof.
  intros H.
  assert (B : 0 <= xor_all payload < 2 ^ 8) by (apply xor_all_below; [lia|exact H]).
  change (2 ^ 8) with 256 in B.
  split; [exact B|]. split.
  - change 255 with (Z.ones 8). rewrite Z.land_ones by lia.
    apply Z.mod_small. exact B.
  - unfold _checksum. now apply format_X_2.
Qed.

(** The same on the receiver's side. *)
Lemma checksum_of_bytes_received (payload : str) :
  Forall (fun c => ord c < 256) payload ->
  0 <= Z.of_N (receiver_xor payload) < 256 /\
  Z.land (Z.of_N (receiver_xor payload)) 255 = Z.of_N (receiver_xor payload) /\
  _checksum payload = two_hex (Z.of_N (receiver_xor payload)).
Proof.
  intros H. rewrite <- xor_all_receiver. now apply checksum_of_bytes.
Qed.

(** The checksum does not mask: for the payload of the one character
    U+20AC it has four digits. *)
Lemma checksum_is_not_masked :
  _checksum [8364%N] = lit "20AC" /\
  length (_checksum [8364%N]) = 4%nat /\
  checksum_spec [8364%N] = lit "AC" /\
  _checksum [8364%N] <> checksum_spec [8364%N].
Proof.
  repeat split; try reflexivity. vm_compute. discriminate.
Qed.

(** C4, amended. For every payload of characters below code point 256
    (every ASCII payload in particular) [_checksum] returns the running
    XOR of the character values, which the mask to eight bits leaves as it
    is, as exactly two uppercase hexadecimal digits with a leading zero
    where needed; it returns a result for every such payload, [00] for the
    empty one; 0 is written [00] and 255 is written [FF].  No mask is
    applied: the checksum of the one character U+20AC is [20AC]. *)
Theorem checksum_two_hex_digits (payload : str) :
  Forall (fun c => ord c < 256) payload ->
  _checksum payload = checksum_spec payload /\
  Z.land (Z.of_N (receiver_xor payload)) 255 = Z.of_N (receiver_xor payload) /\
  _checksum payload = two_hex (Z.of_N (receiver_xor payload)) /\
  length (_checksum payload) = 2%nat /\
  forallb is_upper_hex (_checksum payload) = true /\
  _checksum (lit "") = lit "00" /\
  format_X 2 0 = lit "00" /\
  format_X 2 255 = lit "FF" /\
  _checksum (lit "AA") = lit "00" /\
  _checksum [255%N] = lit "FF" /\
  _checksum (lit "AB") = lit "03" /\
  _checksum [8364%N] = lit "20AC".
Proof.
  intros H. destruct (checksum_of_bytes_received payload H) as (B & M & E).
  unfold checksum_spec. rewrite M, E.
  split; [reflexivity|]. split; [reflexivity|]. split; [reflexivity|].
  split; [reflexivity|].
  split; [|repeat split; reflexivity].
  destruct (two_hex_read_back _ B) as (hi & lo & -> & Hh & Hl & _).
  cbn [forallb]. now rewrite Hh, Hl.
Qed.

Lemma checksum_two_hex_digits_witness :
  let payload := lit "GPGGA,120000.00,4858.3594,N,12336.6362,W,1,08,1.0,0.0,M,0.0,M,," in
  Forall (fun c => ord c < 256) payload /\
  receiver_xor payload = 74%N /\
  two_hex 74 = lit "4A" /\
  checksum_spec payload = lit "4A" /\
  _checksum payload = lit "4A" /\
  _checksum payload = checksum_spec payload /\
  length (_checksum payload) = 2%nat.
Proof.
  intros payload.
  assert (H : Forall (fun c => ord c < 256) payload)
    by (repeat constructor).
  pose proof (checksum_two_hex_digits payload H) as (E & _ & _ & L & _).
  split; [exact H|].
  split; [reflexivity|]. split; [reflexivity|]. split; [reflexivity|].
  split; [reflexivity|].
  split; [exact E|exact L].
Defined.

(** ** SentenceBuilder *)

Lemma plain_ord (c : char) : plain c = true -> ord c < 256.
Proof.
  unfold plain, is_ascii, ord. intros H.
  apply andb_true_iff in H. destruct H as [H _].
  apply N.ltb_lt in H. lia.
Qed.

Lemma plain_not_star (c : char) : plain c = true -> (c =? 42)%N = false.
Proof.
  unfold plain, is_framing. intros H.
  apply andb_true_iff in H. destruct H as [_ H].
  destruct (c =? 42)%N; [|reflexivity].
  rewrite orb_true_r in H. discriminate.
Qed.

Lemma digit_plain (c : char) : is_digit c = true -> plain c = true.
Proof.
  intros H. destruct (is_digit_inv c H) as [B ->].
  revert B. generalize (ord c - 48). apply (all_below_spec 10). reflexivity.
Qed.

Lemma digits_plain (s : str) :
  forallb is_digit s = true -> forallb plain s = true.
Proof.
  induction s as [|c s IH]; [reflexivity|]. cbn [forallb]. intros H.
  apply andb_true_iff in H. destruct H as [H1 H2].
  now rewrite (digit_plain c H1), IH.
Qed.

Lemma six_digits_plain (s : str) :
  six_digits s = true -> forallb plain s = true.
Proof.
  unfold six_digits. intros H. apply andb_true_iff in H.
  apply digits_plain. tauto.
Qed.

Lemma split_at_star_plain (payload rest : str) :
  forallb plain payload = true ->
  split_at_star (payload ++ 42%N :: rest) = Some (payload, rest).
Proof.
  induction payload as [|c p IH]; cbn [forallb app split_at_star]; intros H.
  - reflexivity.
  - apply andb_true_iff in H. destruct H as [H1 H2].
    now rewrite (plain_not_star c H1), IH.
Qed.

Lemma plain_bytes (payload : str) :
  forallb plain payload = true -> Forall (fun c => ord c < 256) payload.
Proof.
  intros H. apply Forall_forall. intros c Hc.
  apply plain_ord. rewrite forallb_forall in H. now apply H.
Qed.

(** On a plain payload the code's checksum is the one of the
    specification. *)
Lemma checksum_spec_plain (payload : str) :
  forallb plain payload = true -> _checksum payload = checksum_spec payload.
Proof.
  intros H.
  destruct (checksum_of_bytes_received payload (plain_bytes payload H))
    as (_ & M & E).
  unfold checksum_spec. now rewrite M.
Qed.

(** A rendered sentence passes the receiver's check, and is ASCII, when
    its payload is plain. *)
Lemma render_verifies (payload : str) :
  forallb plain payload = true -> checksum_verifies (render payload) = true.
Proof.
  intros H. unfold render, checksum_verifies. cbn [lit map list_ascii_of_string app].
  change (N_of_ascii "$") with 36%N. change (N_of_ascii "*") with 42%N.
  rewrite split_at_star_plain by exact H.
  destruct (checksum_of_bytes_received payload (plain_bytes payload H))
    as (B & _ & ->).
  destruct (two_hex_read_back _ B) as (hi & lo & -> & _ & _ & h & l & Eh & El & E).
  cbn [app]. rewrite Eh, El. apply Z.eqb_eq. lia.
Qed.

Lemma upper_hex_ascii (c : char) : is_upper_hex c = true -> is_ascii c = true.
Proof.
  unfold is_upper_hex, is_digit, is_ascii. intros H. apply N.ltb_lt.
  apply orb_true_iff in H.
  destruct H as [H|H]; apply andb_true_iff in H; destruct H as [_ H];
    apply N.leb_le in H; lia.
Qed.

Lemma plain_ascii (s : str) :
  forallb plain s = true -> forallb is_ascii s = true.
Proof.
  induction s as [|c s IH]; [reflexivity|]. cbn [forallb]. intros H.
  apply andb_true_iff in H. destruct H as [H1 H2].
  rewrite IH by exact H2. unfold plain in H1.
  apply andb_true_iff in H1. now rewrite (proj1 H1).
Qed.

Lemma plain_not_framing (s : str) :
  forallb plain s = true -> forallb (fun c => negb (is_framing c)) s = true.
Proof.
  induction s as [|c s IH]; [reflexivity|]. cbn [forallb]. intros H.
  apply andb_true_iff in H. destruct H as [H1 H2].
  rewrite IH by exact H2. unfold plain in H1.
  apply andb_true_iff in H1. now rewrite (proj2 H1).
Qed.

Lemma render_ascii (payload : str) :
  forallb plain payload = true -> forallb is_ascii (render payload) = true.
Proof.
  intros H. unfold render.
  destruct (checksum_of_bytes payload (plain_bytes payload H)) as (B & _ & ->).
  destruct (two_hex_read_back _ B) as (hi & lo & -> & Hh & Hl & _).
  rewrite !forallb_app, (plain_ascii payload H).
  cbn. now rewrite (upper_hex_ascii hi Hh), (upper_hex_ascii lo Hl).
Qed.

(** The coordinate texts on a position in range are plain. *)
Lemma to_nmea_latlon_plain (v : float64) (is_lat : bool) :
  (if is_lat then valid_latitude v else valid_longitude v) = true ->
  exists text hemi,
    _to_nmea_latlon v is_lat = Some (text, hemi) /\
    forallb plain text = true /\ forallb plain hemi = true.
Proof.
  intros V.
  destruct (to_nmea_latlon_in_range v is_lat V)
    as (deg & frac & n & _ & Hd & _ & _ & _ & _ & Hn & E).
  eexists _, _. split; [exact E|]. split.
  - unfold minutes_text. rewrite !forallb_app.
    assert (I : 0 <= n / 10000 < 100)
      by (split; [apply Z.div_pos; lia|apply Z.div_lt_upper_bound; lia]).
    pose proof (Z.mod_pos_bound n 10000 ltac:(lia)) as F.
    rewrite (digits_plain _ (two_digits_is_digit _ I)).
    rewrite (digits_plain _ (four_digits_is_digit _ F)).
    destruct is_lat.
    + now rewrite (digits_plain _ (two_digits_is_digit deg ltac:(lia))).
    + now rewrite (digits_plain _ (three_digits_is_digit deg ltac:(lia))).
  - unfold hemisphere. destruct (nonnegative v), is_lat; reflexivity.
Qed.

Lemma valid_position_inv (lat lon : float64) :
  valid_position lat lon = true ->
  valid_latitude lat = true /\ valid_longitude lon = true.
Proof. unfold valid_position. intros H. now apply andb_true_iff in H. Qed.

(** The payloads as the lists of fields of the specification. *)
Lemma make_gpgga_fields (utc : str) (lat lon : float64)
      (lat_str lat_hemi lon_str lon_hemi : str) :
  _to_nmea_latlon lat true = Some (lat_str, lat_hemi) ->
  _to_nmea_latlon lon false = Some (lon_str, lon_hemi) ->
  _make_gpgga utc lat lon
  = Some (render (join_fields (gga_fields utc lat_str lat_hemi lon_str lon_hemi))).
Proof.
  intros H1 H2. unfold _make_gpgga, render. rewrite H1, H2.
  cbn [join_fields gga_fields]. rewrite <- !app_assoc. reflexivity.
Qed.

Lemma make_gprmc_fields (utc date : str) (lat lon : float64)
      (lat_str lat_hemi lon_str lon_hemi : str) :
  _to_nmea_latlon lat true = Some (lat_str, lat_hemi) ->
  _to_nmea_latlon lon false = Some (lon_str, lon_hemi) ->
  _make_gprmc utc date lat lon
  = Some (render (join_fields
                    (rmc_fields utc date lat_str lat_hemi lon_str lon_hemi))).
Proof.
  intros H1 H2. unfold _make_gprmc, render. rewrite H1, H2.
  cbn [join_fields rmc_fields]. rewrite <- !app_assoc. reflexivity.
Qed.

Lemma gga_fields_plain (utc lat_str lat_hemi lon_str lon_hemi : str) :
  forallb plain utc = true ->
  forallb plain lat_str = true -> forallb plain lat_hemi = true ->
  forallb plain lon_str = true -> forallb plain lon_hemi = true ->
  forallb plain (join_fields (gga_fields utc lat_str lat_hemi lon_str lon_hemi))
  = true.
Proof.
  intros H1 H2 H3 H4 H5. cbn [join_fields gga_fields].
  rewrite !forallb_app, H1, H2, H3, H4, H5. reflexivity.
Qed.

Lemma rmc_fields_plain (utc date lat_str lat_hemi lon_str lon_hemi : str) :
  forallb plain utc = true -> forallb plain date = true ->
  forallb plain lat_str = true -> forallb plain lat_hemi = true ->
  forallb plain lon_str = true -> forallb plain lon_hemi = true ->
  forallb plain
    (join_fields (rmc_fields utc date lat_str lat_hemi lon_str lon_hemi))
  = true.
Proof.
  intros H1 H2 H3 H4 H5 H6. cbn [join_fields rmc_fields].
  rewrite !forallb_app, H1, H2, H3, H4, H5, H6. reflexivity.
Qed.

(** Both sentences of a position in range, with their payloads. *)
Lemma sentences_in_range (utc date : str) (lat lon : float64) :
  valid_position lat lon = true ->
  exists lat_str lat_hemi lon_str lon_hemi,
    _to_nmea_latlon lat true = Some (lat_str, lat_hemi) /\
    _to_nmea_latlon lon false = Some (lon_str, lon_hemi) /\
    _make_gpgga utc lat lon
    = Some (render (join_fields
                      (gga_fields utc lat_str lat_hemi lon_str lon_hemi))) /\
    _make_gprmc utc date lat lon
    = Some (render (join_fields
                      (rmc_fields utc date lat_str lat_hemi lon_str lon_hemi))) /\
    (forallb plain utc = true ->
     forallb plain
       (join_fields (gga_fields utc lat_str lat_hemi lon_str lon_hemi)) = true) /\
    (forallb plain utc = true -> forallb plain date = true ->
     forallb plain
       (join_fields (rmc_fields utc date lat_str lat_hemi lon_str lon_hemi))
     = true).
Proof.
  intros V. destruct (valid_position_inv lat lon V) as [V1 V2].
  destruct (to_nmea_latlon_plain lat true V1) as (lat_str & lat_hemi & E1 & P1 & P2).
  destruct (to_nmea_latlon_plain lon false V2) as (lon_str & lon_hemi & E2 & P3 & P4).
  exists lat_str, lat_hemi, lon_str, lon_hemi.
  split; [exact E1|]. split; [exact E2|].
  split; [now apply make_gpgga_fields|].
  split; [now apply make_gprmc_fields|].
  split; intros; [now apply gga_fields_plain|now apply rmc_fields_plain].
Qed.

(** The receiver's check is a real one: a sentence whose two digits are
    not the XOR of its payload is turned down. *)
Example checksum_verifies_rejects :
  checksum_verifies (lit "$AB*03") = true /\
  checksum_verifies (lit "$AB*04") = false /\
  checksum_verifies (lit "AB*03") = false.
Proof. repeat split; reflexivity. Qed.

(** C1. For every position in range, every time of day and every date
    (six digits each), [_make_gpgga] and [_make_gprmc] each produce a
    sentence, and in it the XOR of the characters between the leading
    ['$'] and the ['*'], as a receiver takes it, is the number the two
    hexadecimal digits after the ['*'] write. *)
Theorem checksum_round_trip (utc date : str) (lat lon : float64) :
  valid_position lat lon = true ->
  six_digits utc = true ->
  six_digits date = true ->
  exists gga rmc,
    _make_gpgga utc lat lon = Some gga /\
    _make_gprmc utc date lat lon = Some rmc /\
    checksum_verifies gga = true /\
    checksum_verifies rmc = true.
Proof.
  intros V U D.
  destruct (sentences_in_range utc date lat lon V)
    as (lat_str & lat_hemi & lon_str & lon_hemi & _ & _ & G & R & PG & PR).
  pose proof (six_digits_plain utc U) as PU.
  pose proof (six_digits_plain date D) as PD.
  eexists _, _. split; [exact G|]. split; [exact R|].
  split; apply render_verifies; auto.
Qed.

Lemma checksum_round_trip_witness :
  let gga_payload :=
    lit "GPGGA,235959.00,4858.3594,N,12336.6362,W,1,08,1.0,0.0,M,0.0,M,," in
  let rmc_payload :=
    lit "GPRMC,235959.00,A,4858.3594,N,12336.6362,W,0.0,0.0,190226,,,A" in
  valid_position LATITUDE LONGITUDE = true /\
  six_digits (lit "235959") = true /\
  six_digits START_DATE_DDMMYY = true /\
  exists gga rmc,
    _make_gpgga (lit "235959") LATITUDE LONGITUDE = Some gga /\
    _make_gprmc (lit "235959") START_DATE_DDMMYY LATITUDE LONGITUDE = Some rmc /\
    checksum_verifies gga = true /\
    checksum_verifies rmc = true /\
    gga = lit "$" ++ gga_payload ++ lit "*48" ++ [13%N; 10%N] /\
    rmc = lit "$" ++ rmc_payload ++ lit "*4D" ++ [13%N; 10%N] /\
    receiver_xor gga_payload = 0x48%N /\
    receiver_xor rmc_payload = 0x4D%N.
Proof.
  cbv zeta. repeat (split; [reflexivity|]).
  destruct (checksum_round_trip (lit "235959") START_DATE_DDMMYY
              LATITUDE LONGITUDE eq_refl eq_refl eq_refl)
    as (gga & rmc & G & R & VG & VR).
  exists gga, rmc.
  split; [exact G|]. split; [exact R|].
  split; [exact VG|]. split; [exact VR|].
  vm_compute in G. vm_compute in R.
  injection G as <-. injection R as <-.
  repeat split; vm_compute; reflexivity.
Defined.

(** C6. For every position in range, whatever the time and date strings,
    the GGA payload is, in order and joined by commas: GPGGA, the time
    followed by [.00], the latitude text and hemisphere, the longitude text
    and hemisphere, fix quality 1, satellite count 08, HDOP 1.0, altitude
    0.0 and M, geoid separation 0.0 and M, and two empty fields; the RMC
    payload is: GPRMC, the time followed by [.00], status A, the latitude
    text and hemisphere, the longitude text and hemisphere, speed 0.0,
    course 0.0, the date string, two empty fields, and mode A; both are
    rendered as ['$'], the payload, ['*'], the checksum of the payload, CR
    and LF. *)
Theorem payload_fields_in_order (utc date : str) (lat lon : float64) :
  valid_position lat lon = true ->
  exists lat_str lat_hemi lon_str lon_hemi,
    _to_nmea_latlon lat true = Some (lat_str, lat_hemi) /\
    _to_nmea_latlon lon false = Some (lon_str, lon_hemi) /\
    let gga_payload :=
      join_fields
        [ lit "GPGGA"; utc ++ lit ".00"; lat_str; lat_hemi; lon_str; lon_hemi;
          lit "1"; lit "08"; lit "1.0"; lit "0.0"; lit "M"; lit "0.0"; lit "M";
          lit ""; lit "" ] in
    let rmc_payload :=
      join_fields
        [ lit "GPRMC"; utc ++ lit ".00"; lit "A"; lat_str; lat_hemi; lon_str;
          lon_hemi; lit "0.0"; lit "0.0"; date; lit ""; lit ""; lit "A" ] in
    _make_gpgga utc lat lon
    = Some (lit "$" ++ gga_payload ++ lit "*" ++ _checksum gga_payload
              ++ [13%N; 10%N]) /\
    _make_gprmc utc date lat lon
    = Some (lit "$" ++ rmc_payload ++ lit "*" ++ _checksum rmc_payload
              ++ [13%N; 10%N]).
Proof.
  intros V.
  destruct (sentences_in_range utc date lat lon V)
    as (lat_str & lat_hemi & lon_str & lon_hemi & E1 & E2 & G & R & _).
  exists lat_str, lat_hemi, lon_str, lon_hemi.
  split; [exact E1|]. split; [exact E2|]. split; [exact G|exact R].
Qed.

Lemma payload_fields_in_order_witness :
  valid_position LATITUDE LONGITUDE = true /\
  _make_gpgga (lit "120000") LATITUDE LONGITUDE
  = Some (lit "$GPGGA,120000.00,4858.3594,N,12336.6362,W,1,08,1.0,0.0,M,0.0,M,,*4A"
            ++ [13%N; 10%N]).
Proof.
  split; [reflexivity|].
  destruct (payload_fields_in_order (lit "120000") START_DATE_DDMMYY
              LATITUDE LONGITUDE eq_refl)
    as (lat_str & lat_hemi & lon_str & lon_hemi & E1 & E2 & G & _).
  vm_compute in E1. vm_compute in E2.
  injection E1 as <- <-. injection E2 as <- <-.
  rewrite G. vm_compute. reflexivity.
Defined.

(** C8. For every position in range, time of day and date, the payload of
    each sentence, which is the text a receiver finds between the ['$']
    and the ['*'], has no ['$'], ['*'], CR or LF in it, the two digits
    after the ['*'] are the checksum of exactly that payload (the XOR of
    its characters, masked to eight bits, in two uppercase hexadecimal
    digits), and the sentence is ASCII throughout. *)
Theorem payload_invariants (utc date : str) (lat lon : float64) :
  valid_position lat lon = true ->
  six_digits utc = true ->
  six_digits date = true ->
  exists gga_payload rmc_payload,
    let gga :=
      lit "$" ++ gga_payload ++ lit "*" ++ checksum_spec gga_payload
        ++ [13%N; 10%N] in
    let rmc :=
      lit "$" ++ rmc_payload ++ lit "*" ++ checksum_spec rmc_payload
        ++ [13%N; 10%N] in
    _make_gpgga utc lat lon = Some gga /\
    _make_gprmc utc date lat lon = Some rmc /\
    forallb (fun c => negb (is_framing c)) gga_payload = true /\
    forallb (fun c => negb (is_framing c)) rmc_payload = true /\
    split_at_star (tl gga)
    = Some (gga_payload, checksum_spec gga_payload ++ [13%N; 10%N]) /\
    split_at_star (tl rmc)
    = Some (rmc_payload, checksum_spec rmc_payload ++ [13%N; 10%N]) /\
    forallb is_ascii gga = true /\
    forallb is_ascii rmc = true.
Proof.
  intros V U D.
  destruct (sentences_in_range utc date lat lon V)
    as (lat_str & lat_hemi & lon_str & lon_hemi & _ & _ & G & R & PG & PR).
  pose proof (six_digits_plain utc U) as PU.
  pose proof (six_digits_plain date D) as PD.
  specialize (PG PU). specialize (PR PU PD).
  pose proof (render_ascii _ PG) as AG. pose proof (render_ascii _ PR) as AR.
  unfold render in G, R, AG, AR.
  rewrite (checksum_spec_plain _ PG) in G, AG.
  rewrite (checksum_spec_plain _ PR) in R, AR.
  eexists _, _. cbv zeta.
  split; [exact G|]. split; [exact R|].
  split; [now apply plain_not_framing|].
  split; [now apply plain_not_framing|].
  split; [exact (split_at_star_plain _ _ PG)|].
  split; [exact (split_at_star_plain _ _ PR)|].
  split; [exact AG|exact AR].
Qed.

Lemma payload_invariants_witness :
  let gga_text :=
    lit "GPGGA,120000.00,4858.3594,N,12336.6362,W,1,08,1.0,0.0,M,0.0,M,," in
  let rmc_text :=
    lit "GPRMC,120000.00,A,4858.3594,N,12336.6362,W,0.0,0.0,190226,,,A" in
  valid_position LATITUDE LONGITUDE = true /\
  six_digits START_TIME_HHMMSS = true /\
  six_digits START_DATE_DDMMYY = true /\
  checksum_spec gga_text = lit "4A" /\
  checksum_spec rmc_text = lit "4F" /\
  exists gga_payload rmc_payload,
    _make_gpgga START_TIME_HHMMSS LATITUDE LONGITUDE
    = Some (lit "$" ++ gga_payload ++ lit "*" ++ checksum_spec gga_payload
              ++ [13%N; 10%N]) /\
    _make_gprmc START_TIME_HHMMSS START_DATE_DDMMYY LATITUDE LONGITUDE
    = Some (lit "$" ++ rmc_payload ++ lit "*" ++ checksum_spec rmc_payload
              ++ [13%N; 10%N]) /\
    forallb (fun c => negb (is_framing c)) gga_payload = true /\
    forallb (fun c => negb (is_framing c)) rmc_payload = true /\
    gga_payload = gga_text /\ rmc_payload = rmc_text.
Proof.
  cbv zeta. repeat (split; [reflexivity|]).
  destruct (payload_invariants START_TIME_HHMMSS START_DATE_DDMMYY
              LATITUDE LONGITUDE eq_refl eq_refl eq_refl)
    as (g & r & G & R & FG & FR & SG & SR & _).
  exists g, r.
  split; [exact G|]. split; [exact R|].
  split; [exact FG|]. split; [exact FR|].
  cbv zeta in SG, SR.
  assert (EG : option_map (fun s => split_at_star (tl s))
                 (_make_gpgga START_TIME_HHMMSS LATITUDE LONGITUDE)
               = Some (Some (lit "GPGGA,120000.00,4858.3594,N,12336.6362,W,1,08,1.0,0.0,M,0.0,M,,",
                             lit "4A" ++ [13%N; 10%N])))
    by (vm_compute; reflexivity).
  assert (ER : option_map (fun s => split_at_star (tl s))
                 (_make_gprmc START_TIME_HHMMSS START_DATE_DDMMYY
                    LATITUDE LONGITUDE)
               = Some (Some (lit "GPRMC,120000.00,A,4858.3594,N,12336.6362,W,0.0,0.0,190226,,,A",
                             lit "4F" ++ [13%N; 10%N])))
    by (vm_compute; reflexivity).
  rewrite G in EG. rewrite R in ER. cbn [option_map] in EG, ER.
  rewrite SG in EG. rewrite SR in ER.
  injection EG as EG _. injection ER as ER _.
  split; assumption.
Defined.

(** C2. For the position (48.972657, -123.610603) and the time 120000 the
    latitude field is [4858.3594] with hemisphere N, the longitude field
    is [12336.6362] with hemisphere W, and [_make_gpgga] returns
    [$GPGGA,120000.00,4858.3594,N,12336.6362,W,1,08,1.0,0.0,M,0.0,M,,*4A]
    followed by CR and LF, 4A being the checksum of the payload between
    ['$'] and ['*']. *)
Theorem gpgga_of_the_configured_position :
  let payload :=
    lit "GPGGA,120000.00,4858.3594,N,12336.6362,W,1,08,1.0,0.0,M,0.0,M,," in
  LATITUDE = Float64.of_decimal 48972657 6 /\
  LONGITUDE = SFopp (Float64.of_decimal 123610603 6) /\
  _to_nmea_latlon LATITUDE true = Some (lit "4858.3594", lit "N") /\
  _to_nmea_latlon LONGITUDE false = Some (lit "12336.6362", lit "W") /\
  _checksum payload = lit "4A" /\
  _make_gpgga (lit "120000") LATITUDE LONGITUDE
  = Some (lit "$" ++ payload ++ lit "*" ++ _checksum payload ++ [13%N; 10%N]) /\
  _make_gpgga (lit "120000") LATITUDE LONGITUDE
  = Some (lit "$GPGGA,120000.00,4858.3594,N,12336.6362,W,1,08,1.0,0.0,M,0.0,M,,*4A"
            ++ [13%N; 10%N]).
Proof.
  cbv zeta. repeat split; vm_compute; reflexivity.
Qed.

(** ** The transmit loop *)

Lemma tick_time_unreadable (start : str) (n : number) :
  unreadable_time start -> _tick_time start n = None.
Proof.
  unfold unreadable_time, _tick_time. intros [H|[H|H]].
  - now rewrite H.
  - destruct (int_of_str (slice start 0 2)); [|reflexivity]. now rewrite H.
  - destruct (int_of_str (slice start 0 2)); [|reflexivity].
    destruct (int_of_str (slice start 2 4)); [|reflexivity]. now rewrite H.
Qed.

(** The loop makes no check of its own: a latitude of 91 degrees, and a
    date that is not six digits, go out on the wire. *)
Lemma invalid_configuration_is_transmitted :
  let out_of_range :=
    {| cfg_latitude := Float64.of_decimal 91 0;
       cfg_longitude := LONGITUDE;
       cfg_start_date := START_DATE_DDMMYY;
       cfg_start_time := START_TIME_HHMMSS |} in
  let bad_date :=
    {| cfg_latitude := LATITUDE;
       cfg_longitude := LONGITUDE;
       cfg_start_date := lit "19/02/26";
       cfg_start_time := START_TIME_HHMMSS |} in
  (config_ok out_of_range = false /\
   valid_latitude (cfg_latitude out_of_range) = false /\
   exists gga rmc,
     encode_ascii
       (lit "$GPGGA,120000.00,9100.0000,N,12336.6362,W,1,08,1.0,0.0,M,0.0,M,,*48"
          ++ [13%N; 10%N]) = Some gga /\
     encode_ascii
       (lit "$GPRMC,120000.00,A,9100.0000,N,12336.6362,W,0.0,0.0,190226,,,A*4D"
          ++ [13%N; 10%N]) = Some rmc /\
     run out_of_range [Float64.zero] = Completed [gga; rmc]) /\
  (config_ok bad_date = false /\
   six_digits (cfg_start_date bad_date) = false /\
   exists gga rmc,
     encode_ascii
       (lit "$GPGGA,120000.00,4858.3594,N,12336.6362,W,1,08,1.0,0.0,M,0.0,M,,*4A"
          ++ [13%N; 10%N]) = Some gga /\
     encode_ascii
       (lit "$GPRMC,120000.00,A,4858.3594,N,12336.6362,W,0.0,0.0,19/02/26,,,A*4F"
          ++ [13%N; 10%N]) = Some rmc /\
     run bad_date [Float64.zero] = Completed [gga; rmc]).
Proof.
  cbv zeta. split.
  - split; [reflexivity|]. split; [reflexivity|].
    eexists _, _. repeat split; vm_compute; reflexivity.
  - split; [reflexivity|]. split; [reflexivity|].
    eexists _, _. repeat split; vm_compute; reflexivity.
Qed.

(** * Further properties of the code *)

(** ** Integers as binary64 numbers *)

(** A number of at most 53 bits keeps its value, and takes the canonical
    exponent of its size. *)
Lemma binary_round_canonical (s : bool) (mx : positive) (ex : Z) :
  Zpos mx < 2 ^ 53 -> -1074 <= ex <= 971 ->
  exists mz ez,
    binary_round Float64.prec Float64.emax s mx ex = S754_finite s mz ez /\
    ez = Z.max (Zpos (digits2_pos mx) + ex - 53) (-1074) /\
    ez <= ex /\ Zpos mz = Zpos mx * 2 ^ (ex - ez).
Proof.
  intros Hm He. unfold binary_round.
  pose proof (digits2_pos_le mx 53 Hm) as D.
  set (f := fexp Float64.prec Float64.emax (Zpos (digits2_pos mx) + ex)).
  assert (Hf : -1074 <= f <= ex /\ f = Z.max (Zpos (digits2_pos mx) + ex - 53) (-1074))
    by (unfold f, fexp, emin, Float64.prec, Float64.emax; lia).
  pose proof (shl_align_spec mx ex f) as A. cbv zeta in A.
  destruct (shl_align mx ex f) as [mz ez]. cbn [fst snd] in A.
  destruct A as (A1 & A2 & A3).
  assert (ez = f) by lia. clear A1. subst ez.
  assert (F : fexp Float64.prec Float64.emax (Zdigits2 (Zpos mz) + f) - f = 0).
  { cbn [Zdigits2]. rewrite A3.
    unfold fexp, emin, Float64.prec, Float64.emax. lia. }
  exists mz, f. split; [|lia].
  unfold binary_round_aux, shr_fexp. rewrite F. cbn [shr shr_record_of_loc].
  cbn [loc_of_shr_record shr_m round_nearest_even]. rewrite F.
  cbn [shr shr_record_of_loc shr_m].
  unfold Float64.emax, Float64.prec.
  replace (f <=? 1024 - 53) with true by (symmetry; apply Z.leb_le; lia).
  reflexivity.
Qed.

(** [float(d)] is [d] itself for every integer of at most 53 bits. *)
Lemma of_int_below_2_53 (d : Z) :
  0 <= d < 2 ^ 53 ->
  exists fd, Float64.of_int d = Some fd /\
    (d = 0 /\ fd = S754_zero false \/
     exists md ed, fd = S754_finite false md ed /\ -52 <= ed <= 0 /\
                   Zpos md = d * 2 ^ (- ed)).
Proof.
  intros H. destruct d as [|p|p]; [| |lia].
  - exists (S754_zero false). split; [reflexivity|]. left. auto.
  - destruct (binary_round_canonical false p 0 ltac:(lia) ltac:(lia))
      as (mz & ez & E & Hez & Hle & Hmz).
    exists (S754_finite false mz ez).
    unfold Float64.of_int. cbn [binary_normalize]. rewrite E.
    split; [reflexivity|]. right. exists mz, ez.
    split; [reflexivity|].
    pose proof (digits2_pos_bounds p) as [B _].
    assert (1 <= Zpos (digits2_pos p)) by lia.
    split; [lia|]. rewrite Hmz. f_equal.
Qed.

(** Shifting out bits that are all zero leaves no rounding bit behind. *)
Lemma shr_1_even (k : Z) :
  0 <= k ->
  shr_1 {| shr_m := 2 * k; shr_r := false; shr_s := false |}
  = {| shr_m := k; shr_r := false; shr_s := false |}.
Proof. destruct k as [|q|q]; [reflexivity|reflexivity|lia]. Qed.

Lemma iter_shr_1_exact (p : positive) (k : Z) :
  0 <= k ->
  iter_pos shr_1 p {| shr_m := k * 2 ^ Zpos p; shr_r := false; shr_s := false |}
  = {| shr_m := k; shr_r := false; shr_s := false |}.
Proof.
  revert k. induction p as [p IH|p IH|]; intros k Hk; cbn [iter_pos].
  - pose proof (pow2_pos (Zpos p) ltac:(lia)).
    rewrite pow2_xI.
    replace (k * (2 * (2 ^ Zpos p * 2 ^ Zpos p)))
      with (2 * (k * 2 ^ Zpos p * 2 ^ Zpos p)) by lia.
    rewrite shr_1_even by nia.
    rewrite IH by nia. now rewrite IH.
  - pose proof (pow2_pos (Zpos p) ltac:(lia)).
    rewrite pow2_xO, Z.mul_assoc.
    rewrite IH by nia. now rewrite IH.
  - change (2 ^ 1) with 2. rewrite Z.mul_comm. now apply shr_1_even.
Qed.

Lemma bounded_canonical (m : positive) (e : Z) :
  bounded Float64.prec Float64.emax m e = true ->
  e = Z.max (Zpos (digits2_pos m) + e - 53) (-1074) /\ e <= 971.
Proof.
  unfold bounded, canonical_mantissa, fexp, emin, Float64.prec, Float64.emax.
  intros H. apply andb_true_iff in H. destruct H as [C L].
  apply Z.eqb_eq in C. apply Z.leb_le in L. lia.
Qed.

(** A binary64 number that is an integer is the float of that integer. *)
Lemma of_int_integer (m : positive) (e : Z) :
  bounded Float64.prec Float64.emax m e = true -> 0 <= e ->
  Float64.of_int (Zpos m * 2 ^ e) = Some (S754_finite false m e).
Proof.
  intros B He. destruct (bounded_canonical m e B) as (C & L).
  destruct (bounded_mantissa m e B) as (Hm & _).
  destruct e as [|pe|pe]; [| |lia].
  - rewrite Z.mul_1_r.
    destruct (binary_round_canonical false m 0 Hm ltac:(lia))
      as (mz & ez & E & Hez & Hle & Hmz).
    unfold Float64.of_int. cbn [binary_normalize]. rewrite E.
    assert (ez = 0) by lia. clear Hez. subst ez.
    change (2 ^ (0 - 0)) with 1 in Hmz. rewrite Z.mul_1_r in Hmz.
    injection Hmz as ->. reflexivity.
  - rewrite <- iter_xO_value.
    unfold Float64.of_int. cbn [binary_normalize]. unfold binary_round.
    assert (F1 : fexp Float64.prec Float64.emax
                   (Zpos (digits2_pos (Pos.iter xO m pe)) + 0) = Zpos pe).
    { rewrite iter_xO_digits.
      unfold fexp, emin, Float64.prec, Float64.emax. lia. }
    rewrite F1. unfold shl_align. cbn [Z.sub Z.opp Z.add].
    unfold binary_round_aux, shr_fexp. cbn [Zdigits2]. rewrite F1.
    replace (Zpos pe - 0) with (Zpos pe) by lia.
    cbn [shr shr_record_of_loc]. rewrite iter_xO_value.
    rewrite iter_shr_1_exact by lia.
    cbn [loc_of_shr_record shr_m round_nearest_even Zdigits2].
    assert (F2 : fexp Float64.prec Float64.emax
                   (Zpos (digits2_pos m) + (0 + Zpos pe)) - (0 + Zpos pe) = 0).
    { unfold fexp, emin, Float64.prec, Float64.emax. lia. }
    rewrite F2. cbn [shr shr_record_of_loc shr_m].
    unfold Float64.emax, Float64.prec.
    replace (0 + Zpos pe <=? 1024 - 53) with true
      by (symmetry; apply Z.leb_le; lia).
    reflexivity.
Qed.

(** ** CoordinateFormatter on every finite number *)

Lemma trunc_mag_nonneg_exp (m : positive) (e : Z) :
  0 <= e -> Float64.trunc_mag m e = Zpos m * 2 ^ e.
Proof. destruct e; try lia; intros _; reflexivity. Qed.

Lemma sub_self (m : positive) (e : Z) :
  Float64.sub (S754_finite false m e) (S754_finite false m e)
  = S754_zero false.
Proof.
  unfold Float64.sub, SFsub. cbn [cond_Zopp]. now rewrite Z.sub_diag.
Qed.

Lemma to_nmea_latlon_finite_shape (v : float64) (is_lat : bool) :
  Float64.valid v = true -> is_finite v = true ->
  exists deg frac n,
    Float64.to_int (Float64.abs v) = Some deg /\
    0 <= deg /\
    deg * 2 ^ 1074 <= units (Float64.abs v) < (deg + 1) * 2 ^ 1074 /\
    proper_fraction frac /\
    units frac = units (Float64.abs v) - deg * 2 ^ 1074 /\
    n = ten_thousandths (Float64.mul frac Float64.sixty) /\
    0 <= n <= 600000 /\
    _to_nmea_latlon v is_lat
    = Some (format_d (if is_lat then 2 else 3) deg ++ minutes_text n,
            hemisphere v is_lat).
Proof.
  intros V F.
  pose proof (pow2_pos 1074 ltac:(lia)) as P1074.
  destruct v as [s|s| |s m e]; try discriminate.
  - exists 0, (S754_zero false), 0.
    split; [reflexivity|]. split; [lia|].
    split; [cbn [Float64.abs SFabs units]; lia|].
    split; [exact I|]. split; [reflexivity|].
    split; [reflexivity|]. split; [lia|].
    destruct s, is_lat; reflexivity.
  - cbn [Float64.valid valid_binary] in V.
    destruct (bounded_mantissa m e V) as (Hm & He).
    destruct (Z_lt_le_dec e 0) as [Neg|Pos].
    + set (deg := Float64.trunc_mag m e).
      assert (Hdeg : 0 <= deg < 2 ^ 53).
      { unfold deg. rewrite trunc_mag_neg by lia.
        pose proof (pow2_pos (- e) ltac:(lia)) as P.
        split; [apply Z.div_pos; lia|].
        apply Z.div_lt_upper_bound; [lia|]. nia. }
      destruct (of_int_below_2_53 deg Hdeg) as (fd & Hfd & Sfd).
      destruct (sub_integer_part m e deg fd Hm ltac:(lia) eq_refl Sfd)
        as (PF & UF).
      set (frac := Float64.sub (S754_finite false m e) fd) in *.
      pose proof (mul_sixty_at_most frac PF) as AM.
      exists deg, frac, (ten_thousandths (Float64.mul frac Float64.sixty)).
      split; [reflexivity|]. split; [lia|].
      split; [apply trunc_mag_floor; lia|].
      split; [exact PF|]. split; [exact UF|].
      split; [reflexivity|].
      split; [now apply ten_thousandths_range|].
      unfold _to_nmea_latlon.
      cbn [Float64.abs SFabs Float64.to_int cond_Zopp]. fold deg.
      rewrite Hfd. fold frac. rewrite (format_f_minutes _ AM).
      destruct s, is_lat; reflexivity.
    + set (deg := Zpos m * 2 ^ e).
      pose proof (pow2_pos e Pos) as Pe.
      assert (U : units (S754_finite false m e) = deg * 2 ^ 1074).
      { cbn [units cond_Zopp]. unfold deg.
        rewrite pow2_split by lia. lia. }
      exists deg, (S754_zero false), 0.
      split; [cbn [Float64.abs SFabs Float64.to_int cond_Zopp];
              now rewrite trunc_mag_nonneg_exp by lia|].
      split; [unfold deg; nia|].
      split; [cbn [Float64.abs SFabs]; rewrite U; lia|].
      split; [exact I|].
      split; [cbn [Float64.abs SFabs]; rewrite U; cbn [units]; lia|].
      split; [reflexivity|]. split; [lia|].
      unfold _to_nmea_latlon.
      cbn [Float64.abs SFabs Float64.to_int cond_Zopp].
      rewrite trunc_mag_nonneg_exp by lia. fold deg.
      unfold deg at 1. rewrite (of_int_integer m e V Pos), sub_self.
      change (format_f 7 4 (Float64.mul (S754_zero false) Float64.sixty))
        with (minutes_text 0).
      destruct s, is_lat; reflexivity.
Qed.

Lemma to_digits_is_digit (fuel : nat) (n : Z) (acc : str) :
  0 <= n -> forallb is_digit acc = true ->
  forallb is_digit (to_digits 10 fuel n acc) = true.
Proof.
  revert n acc. induction fuel as [|fuel IH]; intros n acc Hn Hacc;
    cbn [to_digits]; [exact Hacc|].
  assert (D : forallb is_digit (digit_char (n mod 10) :: acc) = true).
  { cbn [forallb]. rewrite Hacc, digit_char_is_digit; [reflexivity|].
    apply Z.mod_pos_bound. lia. }
  destruct (n / 10 =? 0); [exact D|].
  apply IH; [apply Z.div_pos; lia|exact D].
Qed.

Lemma zeros_is_digit (k : nat) : forallb is_digit (zeros k) = true.
Proof. induction k as [|k IH]; [reflexivity|]. cbn. exact IH. Qed.

(** An integer that is not negative is written with digits only, at least
    as many as the width asks for. *)
Lemma format_d_nonneg (width : nat) (n : Z) :
  0 <= n ->
  forallb is_digit (format_d width n) = true /\
  (width <= length (format_d width n))%nat.
Proof.
  intros H. unfold format_d, format_int, zero_pad.
  replace (n <? 0) with false by (symmetry; apply Z.ltb_ge; lia).
  rewrite Z.abs_eq by lia. split.
  - rewrite forallb_app, zeros_is_digit. unfold digits.
    now apply to_digits_is_digit.
  - rewrite length_app. unfold zeros. rewrite repeat_length. lia.
Qed.



(** X2. [_to_nmea_latlon] raises exactly on the numbers that are not
    finite: NaN and the two infinities. *)
Theorem to_nmea_latlon_raises_iff (v : float64) (is_lat : bool) :
  Float64.valid v = true ->
  (_to_nmea_latlon v is_lat = None <-> is_finite v = false).
Proof.
  intros V. split.
  - intros N. destruct (is_finite v) eqn:F; [|reflexivity].
    destruct (to_nmea_latlon_finite_shape v is_lat V F)
      as (deg & frac & n & _ & _ & _ & _ & _ & _ & _ & E).
    congruence.
  - destruct v as [s|s| |s m e]; try discriminate; reflexivity.
Qed.

Lemma to_nmea_latlon_raises_iff_witness :
  Float64.valid (S754_infinity true) = true /\
  _to_nmea_latlon (S754_infinity true) false = None.
Proof.
  split; [reflexivity|].
  exact (proj2 (to_nmea_latlon_raises_iff (S754_infinity true) false eq_refl)
           eq_refl).
Defined.

(** X3. The text depends on the magnitude alone: a finite number other
    than zero and its opposite get the same text and opposite hemispheres,
    the hemisphere returned being N or E for the positive one and S or W
    for the negative one. *)
Theorem to_nmea_latlon_opposite (s : bool) (m : positive) (e : Z)
        (is_lat : bool) :
  let v := S754_finite s m e in
  option_map fst (_to_nmea_latlon (SFopp v) is_lat)
  = option_map fst (_to_nmea_latlon v is_lat) /\
  option_map snd (_to_nmea_latlon v is_lat)
  = option_map (fun _ => hemisphere v is_lat) (_to_nmea_latlon v is_lat) /\
  option_map snd (_to_nmea_latlon (SFopp v) is_lat)
  = option_map (fun _ => hemisphere (SFopp v) is_lat)
      (_to_nmea_latlon (SFopp v) is_lat) /\
  hemisphere (SFopp v) is_lat <> hemisphere v is_lat /\
  hemisphere (S754_finite false m e) is_lat
  = (if is_lat then lit "N" else lit "E") /\
  hemisphere (S754_finite true m e) is_lat
  = (if is_lat then lit "S" else lit "W").
Proof.
  cbv zeta. unfold _to_nmea_latlon.
  cbn [SFopp Float64.abs SFabs Float64.to_int cond_Zopp].
  destruct (Float64.of_int (Float64.trunc_mag m e)) as [fd|].
  - destruct s, is_lat; repeat split; try reflexivity;
      vm_compute; discriminate.
  - destruct s, is_lat; repeat split; try reflexivity;
      vm_compute; discriminate.
Qed.

(** ** The algebra of the checksum *)

Lemma xor_all_app (a b : str) :
  xor_all (a ++ b) = Z.lxor (xor_all a) (xor_all b).
Proof.
  unfold xor_all at 1. rewrite fold_left_app.
  fold (xor_all a). apply fold_xor_acc.
Qed.


(** X4. The checksum of a concatenation is the checksum of the XOR of the
    two parts, so a payload written twice in a row has checksum [00]. *)
Theorem checksum_of_concatenation (a b : str) :
  _checksum (a ++ b) = format_X 2 (Z.lxor (xor_all a) (xor_all b)) /\
  _checksum (a ++ a) = lit "00".
Proof.
  unfold _checksum. rewrite !xor_all_app. split; [reflexivity|].
  now rewrite Z.lxor_nilpotent.
Qed.

(** X5. The checksum does not see the order of the characters: payloads
    that are permutations of one another have the same checksum. *)
Theorem checksum_of_permutation (p q : str) :
  Permutation p q -> _checksum p = _checksum q.
Proof.
  intros H. unfold _checksum. f_equal.
  induction H as [|c p q _ IH|c d p|p q r _ IH1 _ IH2].
  - reflexivity.
  - now rewrite !xor_all_cons, IH.
  - rewrite !xor_all_cons, <- !Z.lxor_assoc. f_equal. apply Z.lxor_comm.
  - congruence.
Qed.

Lemma checksum_of_permutation_witness :
  Permutation (lit "AB") (lit "BA") /\
  _checksum (lit "AB") = _checksum (lit "BA").
Proof.
  assert (P : Permutation (lit "AB") (lit "BA")) by apply perm_swap.
  split; [exact P|]. exact (checksum_of_permutation _ _ P).
Defined.




(** ** SentenceBuilder on every finite position *)

Lemma to_nmea_latlon_plain_finite (v : float64) (is_lat : bool) :
  Float64.valid v = true -> is_finite v = true ->
  exists text hemi,
    _to_nmea_latlon v is_lat = Some (text, hemi) /\
    forallb plain text = true /\ forallb plain hemi = true.
Proof.
  intros V F.
  destruct (to_nmea_latlon_finite_shape v is_lat V F)
    as (deg & frac & n & _ & Hd & _ & _ & _ & _ & Hn & E).
  eexists _, _. split; [exact E|]. split.
  - unfold minutes_text. rewrite !forallb_app.
    assert (I : 0 <= n / 10000 < 100)
      by (split; [apply Z.div_pos; lia|apply Z.div_lt_upper_bound; lia]).
    pose proof (Z.mod_pos_bound n 10000 ltac:(lia)) as R.
    rewrite (digits_plain _ (two_digits_is_digit _ I)).
    rewrite (digits_plain _ (four_digits_is_digit _ R)).
    now rewrite (digits_plain _ (proj1 (format_d_nonneg _ deg Hd))).
  - unfold hemisphere. destruct (nonnegative v), is_lat; reflexivity.
Qed.

Lemma to_nmea_latlon_not_finite (v : float64) (is_lat : bool) :
  is_finite v = false -> _to_nmea_latlon v is_lat = None.
Proof. destruct v; try discriminate; reflexivity. Qed.

(** X7. The two builders raise exactly when a coordinate is not finite;
    on every other position, in range or not, each returns a sentence. *)
Theorem builders_raise_iff (utc date : str) (lat lon : float64) :
  Float64.valid lat = true -> Float64.valid lon = true ->
  (_make_gpgga utc lat lon = None
   <-> is_finite lat = false \/ is_finite lon = false) /\
  (_make_gprmc utc date lat lon = None
   <-> is_finite lat = false \/ is_finite lon = false).
Proof.
  intros V1 V2.
  assert (N : is_finite lat = false \/ is_finite lon = false ->
              _make_gpgga utc lat lon = None /\
              _make_gprmc utc date lat lon = None).
  { unfold _make_gpgga, _make_gprmc. intros [F|F].
    - now rewrite (to_nmea_latlon_not_finite lat true F).
    - rewrite (to_nmea_latlon_not_finite lon false F).
      destruct (_to_nmea_latlon lat true) as [[a b]|]; auto. }
  assert (S : is_finite lat = true -> is_finite lon = true ->
              _make_gpgga utc lat lon <> None /\
              _make_gprmc utc date lat lon <> None).
  { intros F1 F2.
    destruct (to_nmea_latlon_plain_finite lat true V1 F1) as (a & b & E1 & _).
    destruct (to_nmea_latlon_plain_finite lon false V2 F2) as (c & d & E2 & _).
    rewrite (make_gpgga_fields utc lat lon a b c d E1 E2).
    rewrite (make_gprmc_fields utc date lat lon a b c d E1 E2).
    split; discriminate. }
  split; (split; [|intros H; now apply N]); intros H;
    destruct (is_finite lat) eqn:F1; auto;
    destruct (is_finite lon) eqn:F2; auto;
    destruct (S eq_refl eq_refl); contradiction.
Qed.

Lemma builders_raise_iff_witness :
  Float64.valid LATITUDE = true /\ Float64.valid S754_nan = true /\
  _make_gpgga (lit "120000") LATITUDE S754_nan = None.
Proof.
  split; [reflexivity|]. split; [reflexivity|].
  apply (proj2 (proj1 (builders_raise_iff (lit "120000") (lit "190226")
                         LATITUDE S754_nan eq_refl eq_refl))).
  right. reflexivity.
Defined.

(** X8. The checksum of a sentence verifies for every finite position, in
    range or not, and for every time and date text that is ASCII and free
    of ['$'], ['*'], CR and LF, six digits or not. *)
Theorem checksum_round_trip_every_finite (utc date : str) (lat lon : float64) :
  Float64.valid lat = true -> is_finite lat = true ->
  Float64.valid lon = true -> is_finite lon = true ->
  forallb plain utc = true -> forallb plain date = true ->
  exists gga rmc,
    _make_gpgga utc lat lon = Some gga /\
    _make_gprmc utc date lat lon = Some rmc /\
    checksum_verifies gga = true /\ checksum_verifies rmc = true /\
    forallb is_ascii gga = true /\ forallb is_ascii rmc = true.
Proof.
  intros V1 F1 V2 F2 PU PD.
  destruct (to_nmea_latlon_plain_finite lat true V1 F1) as (a & b & E1 & Pa & Pb).
  destruct (to_nmea_latlon_plain_finite lon false V2 F2) as (c & d & E2 & Pc & Pd).
  pose proof (gga_fields_plain utc a b c d PU Pa Pb Pc Pd) as PG.
  pose proof (rmc_fields_plain utc date a b c d PU PD Pa Pb Pc Pd) as PR.
  eexists _, _.
  split; [exact (make_gpgga_fields utc lat lon a b c d E1 E2)|].
  split; [exact (make_gprmc_fields utc date lat lon a b c d E1 E2)|].
  split; [now apply render_verifies|]. split; [now apply render_verifies|].
  split; now apply render_ascii.
Qed.

Lemma checksum_round_trip_every_finite_witness :
  let lat := Float64.of_decimal 12345678 2 in
  Float64.valid lat = true /\ is_finite lat = true /\
  Float64.valid LONGITUDE = true /\ is_finite LONGITUDE = true /\
  forallb plain (lit "12:00") = true /\ forallb plain (lit "19/02/26") = true /\
  exists gga rmc,
    _make_gpgga (lit "12:00") lat LONGITUDE = Some gga /\
    _make_gprmc (lit "12:00") (lit "19/02/26") lat LONGITUDE = Some rmc /\
    checksum_verifies gga = true /\ checksum_verifies rmc = true /\
    forallb is_ascii gga = true /\ forallb is_ascii rmc = true /\
    gga = lit "$GPGGA,12:00.00,12345646.8000,N,12336.6362,W,1,08,1.0,0.0,M,0.0,M,,*77"
            ++ [13%N; 10%N] /\
    rmc = lit "$GPRMC,12:00.00,A,12345646.8000,N,12336.6362,W,0.0,0.0,19/02/26,,,A*72"
            ++ [13%N; 10%N] /\
    receiver_xor
      (lit "GPGGA,12:00.00,12345646.8000,N,12336.6362,W,1,08,1.0,0.0,M,0.0,M,,")
    = 0x77%N /\
    receiver_xor
      (lit "GPRMC,12:00.00,A,12345646.8000,N,12336.6362,W,0.0,0.0,19/02/26,,,A")
    = 0x72%N.
Proof.
  cbv zeta. repeat (split; [reflexivity|]).
  destruct (checksum_round_trip_every_finite (lit "12:00") (lit "19/02/26")
              (Float64.of_decimal 12345678 2) LONGITUDE
              eq_refl eq_refl eq_refl eq_refl eq_refl eq_refl)
    as (gga & rmc & G & R & VG & VR & AG & AR).
  exists gga, rmc.
  split; [exact G|]. split; [exact R|].
  split; [exact VG|]. split; [exact VR|].
  split; [exact AG|]. split; [exact AR|].
  vm_compute in G. vm_compute in R.
  injection G as <-. injection R as <-.
  repeat split; vm_compute; reflexivity.
Defined.

(** X9. For a position in range and six-digit time and date the sentences
    have a fixed size: 69 characters for GGA and 67 for RMC, CR and LF
    included, within the 82 characters NMEA 0183 allows. *)
Theorem sentence_lengths (utc date : str) (lat lon : float64) :
  valid_position lat lon = true ->
  six_digits utc = true -> six_digits date = true ->
  exists gga rmc,
    _make_gpgga utc lat lon = Some gga /\
    _make_gprmc utc date lat lon = Some rmc /\
    length gga = 69%nat /\ length rmc = 67%nat.
Proof.
  intros V U D. destruct (valid_position_inv lat lon V) as [V1 V2].
  destruct (to_nmea_latlon_in_range lat true V1)
    as (d1 & f1 & n1 & _ & _ & _ & _ & _ & _ & _ & E1).
  destruct (to_nmea_latlon_in_range lon false V2)
    as (d2 & f2 & n2 & _ & _ & _ & _ & _ & _ & _ & E2).
  destruct (sentences_in_range utc date lat lon V)
    as (a & b & c & d & E1' & E2' & G & R & PG & PR).
  rewrite E1 in E1'. rewrite E2 in E2'.
  injection E1' as <- <-. injection E2' as <- <-.
  pose proof (six_digits_plain utc U) as PU.
  pose proof (six_digits_plain date D) as PD.
  specialize (PG PU). specialize (PR PU PD).
  assert (LU : length utc = 6%nat).
  { unfold six_digits in U. apply andb_true_iff in U.
    now apply Nat.eqb_eq. }
  assert (LD : length date = 6%nat).
  { unfold six_digits in D. apply andb_true_iff in D.
    now apply Nat.eqb_eq. }
  assert (LH : forall v is_lat, length (hemisphere v is_lat) = 1%nat)
    by (intros v is_lat; unfold hemisphere;
        destruct (nonnegative v), is_lat; reflexivity).
  assert (LC : forall p, forallb plain p = true ->
                         length (_checksum p) = 2%nat).
  { intros p Hp.
    destruct (checksum_of_bytes p (plain_bytes p Hp)) as (_ & _ & ->).
    reflexivity. }
  eexists _, _. split; [exact G|]. split; [exact R|].
  unfold render. rewrite !length_app, (LC _ PG), (LC _ PR).
  cbn [join_fields gga_fields rmc_fields].
  rewrite !length_app, !LH, LU, LD. split; reflexivity.
Qed.

Lemma sentence_lengths_witness :
  valid_position LATITUDE LONGITUDE = true /\
  six_digits START_TIME_HHMMSS = true /\
  six_digits START_DATE_DDMMYY = true /\
  exists gga rmc,
    _make_gpgga START_TIME_HHMMSS LATITUDE LONGITUDE = Some gga /\
    _make_gprmc START_TIME_HHMMSS START_DATE_DDMMYY LATITUDE LONGITUDE
    = Some rmc /\
    length gga = 69%nat /\ length rmc = 67%nat.
Proof.
  repeat (split; [reflexivity|]).
  exact (sentence_lengths START_TIME_HHMMSS START_DATE_DDMMYY
           LATITUDE LONGITUDE eq_refl eq_refl eq_refl).
Defined.

(** ** ClockModel: composition, period and what is read *)

Lemma seconds_recomposed (t : Z) :
  t / 3600 * 3600 + t mod 3600 / 60 * 60 + t mod 60 = t.
Proof. Z.div_mod_to_equations. lia. Qed.

(** The result of a tick, for a start that begins with six digits. *)
Lemma tick_time_seconds (start : str) (n : number) (k : Z) :
  six_digits (firstn 6 start) = true ->
  int_of_number n = Some k ->
  exists total,
    (forall n' k', int_of_number n' = Some k' ->
       _tick_time start n'
       = Some (hhmmss_of_seconds ((total + k') mod 86400))) /\
    let t := (total + k) mod 86400 in
    0 <= t < 86400 /\
    _tick_time start n = Some (hhmmss_of_seconds t) /\
    forall n' k', int_of_number n' = Some k' ->
      _tick_time (hhmmss_of_seconds t) n'
      = Some (hhmmss_of_seconds ((t + k') mod 86400)).
Proof.
  intros D Hk.
  destruct (six_digits_fields start D)
    as (hh & mm & ss & _ & _ & _ & _ & F1 & F2 & F3).
  exists (hh * 3600 + mm * 60 + ss).
  assert (G : forall n' k', int_of_number n' = Some k' ->
     _tick_time start n'
     = Some (hhmmss_of_seconds ((hh * 3600 + mm * 60 + ss + k') mod 86400)))
    by (intros; now apply tick_time_formula).
  split; [exact G|]. cbv zeta.
  set (t := (hh * 3600 + mm * 60 + ss + k) mod 86400).
  assert (Ht : 0 <= t < 86400) by (apply Z.mod_pos_bound; lia).
  split; [exact Ht|]. split; [now apply G|].
  intros n' k' Hk'.
  pose proof (seconds_in_day t Ht) as V.
  destruct (hhmmss_fields _ _ _ V) as (P1 & P2 & P3).
  unfold hhmmss_of_seconds at 1.
  rewrite (tick_time_formula _ n' _ _ _ k' P1 P2 P3 Hk').
  now rewrite seconds_recomposed.
Qed.

(** X10. Ticks compose: ticking by [a] and then by [b] is ticking once by
    the sum of their whole seconds, and ticking back by as much as one
    ticked forward is not ticking at all. *)
Theorem tick_time_composes (start : str) (a b : number) (ka kb : Z) :
  six_digits (firstn 6 start) = true ->
  int_of_number a = Some ka ->
  int_of_number b = Some kb ->
  exists mid,
    _tick_time start a = Some mid /\
    _tick_time mid b = _tick_time start (PyInt (ka + kb)) /\
    _tick_time mid (PyInt (- ka)) = _tick_time start (PyInt 0).
Proof.
  intros D Ha Hb.
  destruct (tick_time_seconds start a ka D Ha) as (total & G & _ & E & M).
  cbv zeta in E, M.
  eexists. split; [exact E|].
  assert (C : forall k, _tick_time
                (hhmmss_of_seconds ((total + ka) mod 86400)) (PyInt k)
              = _tick_time start (PyInt (ka + k))).
  { intros k. rewrite (M (PyInt k) k eq_refl), (G (PyInt (ka + k)) _ eq_refl).
    rewrite Z.add_mod_idemp_l by lia. do 3 f_equal. lia. }
  split.
  - rewrite (M b kb Hb), (G (PyInt (ka + kb)) _ eq_refl).
    rewrite Z.add_mod_idemp_l by lia. do 3 f_equal. lia.
  - rewrite C. do 2 f_equal. lia.
Qed.

Lemma tick_time_composes_witness :
  six_digits (firstn 6 (lit "235950")) = true /\
  exists mid,
    _tick_time (lit "235950") (PyInt 15) = Some mid /\
    _tick_time mid (PyInt 50) = _tick_time (lit "235950") (PyInt (15 + 50)) /\
    _tick_time mid (PyInt (- 15)) = _tick_time (lit "235950") (PyInt 0).
Proof.
  split; [reflexivity|].
  exact (tick_time_composes (lit "235950") (PyInt 15) (PyInt 50) 15 50
           eq_refl eq_refl eq_refl).
Defined.

(** X11. The clock has a period of one day for every start string, read or
    not: whole days added to the elapsed seconds, or taken from them,
    change nothing. *)
Theorem tick_time_period (start : str) (k days : Z) :
  _tick_time start (PyInt (k + 86400 * days)) = _tick_time start (PyInt k).
Proof.
  unfold _tick_time.
  destruct (int_of_str (slice start 0 2)) as [hh|]; [|reflexivity].
  destruct (int_of_str (slice start 2 4)) as [mm|]; [|reflexivity].
  destruct (int_of_str (slice start 4 6)) as [ss|]; [|reflexivity].
  cbn [int_of_number]. change (24 * 3600) with 86400.
  replace (hh * 3600 + mm * 60 + ss + (k + 86400 * days))
    with (hh * 3600 + mm * 60 + ss + k + days * 86400) by lia.
  now rewrite Z.mod_add by lia.
Qed.

Lemma slice_firstn (s : str) (i j n : nat) :
  (i <= j <= n)%nat -> slice (firstn n s) i j = slice s i j.
Proof.
  intros H. unfold slice.
  rewrite skipn_firstn_comm, firstn_firstn.
  replace (Nat.min (j - i) (n - i)) with (j - i)%nat by lia.
  reflexivity.
Qed.

(** X12. Only the first six characters of the start string are read:
    whatever follows them does not matter. *)
Theorem tick_time_reads_six (start : str) (n : number) :
  _tick_time start n = _tick_time (firstn 6 start) n.
Proof.
  unfold _tick_time. now rewrite !slice_firstn by lia.
Qed.

(** X13. A start string of fewer than five characters raises, whatever it
    holds: its seconds field is empty. *)
Theorem tick_time_short_start (start : str) (n : number) :
  (length start < 5)%nat -> _tick_time start n = None.
Proof.
  intros L. apply tick_time_unreadable. right. right.
  unfold slice. rewrite skipn_all2 by lia. reflexivity.
Qed.

Lemma tick_time_short_start_witness :
  (length (lit "1200") < 5)%nat /\
  _tick_time (lit "1200") (PyInt 0) = None.
Proof.
  assert (L : (length (lit "1200") < 5)%nat) by (cbn; lia).
  split; [exact L|]. exact (tick_time_short_start (lit "1200") (PyInt 0) L).
Defined.

(** X14. The elapsed time is cut toward zero: a [float] strictly between
    -1 and 1 leaves the time as an elapsed time of 0 does, so a negative
    fraction of a second does not step the clock back. *)
Theorem tick_time_below_one_second (start : str) (x : float64) :
  proper_fraction (Float64.abs x) ->
  _tick_time start (PyFloat x) = _tick_time start (PyInt 0).
Proof.
  intros P.
  assert (Z0 : int_of_number (PyFloat x) = Some 0).
  { destruct x as [s|s| |s m e]; cbn [Float64.abs SFabs proper_fraction] in P;
      try contradiction; [reflexivity|].
    destruct P as (He & Hm). cbn [int_of_number Float64.to_int].
    rewrite trunc_mag_neg by lia.
    rewrite Z.div_small by lia. now destruct s. }
  unfold _tick_time. now rewrite Z0.
Qed.

Lemma tick_time_below_one_second_witness :
  let x := SFopp (Float64.of_decimal 5 1) in
  proper_fraction (Float64.abs x) /\
  _tick_time (lit "120000") (PyFloat x) = Some (lit "120000").
Proof.
  intros x.
  assert (P : proper_fraction (Float64.abs x)).
  { change (Float64.abs x) with (S754_finite false 4503599627370496 (-53)).
    cbn [proper_fraction]. change (2 ^ (- -53)) with 9007199254740992. lia. }
  split; [exact P|].
  rewrite (tick_time_below_one_second (lit "120000") x P). reflexivity.
Defined.

(** ** The transmit loop: what goes out *)

Lemma encode_ascii_some (s : str) :
  forallb is_ascii s = true ->
  exists bs, encode_ascii s = Some bs /\ map Byte.to_N bs = s.
Proof.
  induction s as [|c rest IH]; cbn [forallb encode_ascii]; intros H.
  - exists []. auto.
  - apply andb_true_iff in H. destruct H as [Hc Hr].
    destruct (IH Hr) as (bs & E & M). rewrite Hc, E.
    destruct (Byte.of_N c) as [b|] eqn:B.
    + exists (b :: bs). split; [reflexivity|].
      cbn [map]. now rewrite (Byte.to_of_N _ B), M.
    + apply Byte.of_N_None_iff in B. unfold is_ascii in Hc.
      apply N.ltb_lt in Hc. lia.
Qed.

Lemma encode_ascii_none (s : str) :
  forallb is_ascii s = false -> encode_ascii s = None.
Proof.
  induction s as [|c rest IH]; cbn [forallb encode_ascii]; intros H;
    [discriminate|].
  destruct (is_ascii c); [|reflexivity]. cbn [andb] in H.
  rewrite (IH H). now destruct (Byte.of_N c).
Qed.

Lemma cycle_appends (cfg : config) (t : float64) (uart : uart_log) :
  exists added,
    added = written (cycle cfg t []) /\
    written (cycle cfg t uart) = uart ++ added /\
    (length added <= 2)%nat /\
    (forall log, cycle cfg t uart = Completed log -> length added = 2%nat) /\
    ((exists log, cycle cfg t uart = Completed log)
     <-> exists log, cycle cfg t [] = Completed log).
Proof.
  exists (written (cycle cfg t [])). split; [reflexivity|].
  unfold cycle.
  destruct (_tick_time (cfg_start_time cfg) (PyFloat t)) as [utc|];
    [|cbn; rewrite app_nil_r; repeat split; try lia; try discriminate;
      intros (l & H); discriminate].
  destruct (_make_gpgga utc (cfg_latitude cfg) (cfg_longitude cfg)) as [gga|];
    [|cbn; rewrite app_nil_r; repeat split; try lia; try discriminate;
      intros (l & H); discriminate].
  destruct (_make_gprmc utc (cfg_start_date cfg) (cfg_latitude cfg)
              (cfg_longitude cfg)) as [rmc|];
    [|cbn; rewrite app_nil_r; repeat split; try lia; try discriminate;
      intros (l & H); discriminate].
  destruct (encode_ascii gga) as [g|];
    [|cbn; rewrite app_nil_r; repeat split; try lia; try discriminate;
      intros (l & H); discriminate].
  destruct (encode_ascii rmc) as [r|].
  - cbn. rewrite <- app_assoc. repeat split; try (cbn; lia); eauto.
  - cbn. repeat split; try lia; try discriminate;
      intros (l & H); discriminate.
Qed.

(** X15. A pass of the loop only appends to what the UART was given: the
    log it starts from is kept as it is, at most two writes are added, two
    when the pass completes, and what is added does not depend on the
    log. *)
Theorem cycle_only_appends (cfg : config) (t : float64) (uart : uart_log) :
  exists added,
    added = written (cycle cfg t []) /\
    written (cycle cfg t uart) = uart ++ added /\
    (length added <= 2)%nat /\
    (forall log, cycle cfg t uart = Completed log -> length added = 2%nat) /\
    ((exists log, cycle cfg t uart = Completed log)
     <-> exists log, cycle cfg t [] = Completed log).
Proof. exact (cycle_appends cfg t uart). Qed.

(** A pass on a configuration in order, at a finite reading of the clock. *)
Lemma cycle_completes (cfg : config) (t : float64) (uart : uart_log) :
  config_ok cfg = true -> is_finite t = true ->
  exists gga rmc,
    cycle cfg t uart = Completed (uart ++ [gga; rmc]) /\
    checksum_verifies (map Byte.to_N gga) = true /\
    checksum_verifies (map Byte.to_N rmc) = true.
Proof.
  unfold config_ok. intros C F.
  apply andb_true_iff in C. destruct C as [C T].
  apply andb_true_iff in C. destruct C as [V D].
  assert (T6 : six_digits (firstn 6 (cfg_start_time cfg)) = true).
  { pose proof T as T'. unfold six_digits in T'.
    apply andb_true_iff in T'. destruct T' as [L _].
    apply Nat.eqb_eq in L. now rewrite firstn_all2 by lia. }
  assert (K : exists k, int_of_number (PyFloat t) = Some k)
    by (destruct t; try discriminate; cbn; eauto).
  destruct K as (k & Hk).
  destruct (tick_time_seconds _ _ k T6 Hk) as (total & _ & Ht & E & _).
  cbv zeta in Ht, E.
  set (utc := hhmmss_of_seconds ((total + k) mod 86400)) in *.
  assert (U : six_digits utc = true)
    by (apply hhmmss_six_digits, seconds_in_day, Ht).
  destruct (sentences_in_range utc (cfg_start_date cfg) _ _ V)
    as (a & b & c & d & _ & _ & G & R & PG & PR).
  pose proof (six_digits_plain _ U) as PU.
  pose proof (six_digits_plain _ D) as PD.
  specialize (PG PU). specialize (PR PU PD).
  destruct (encode_ascii_some _ (render_ascii _ PG)) as (g & Eg & Mg).
  destruct (encode_ascii_some _ (render_ascii _ PR)) as (r & Er & Mr).
  exists g, r. unfold cycle. rewrite E, G, R, Eg, Er, <- app_assoc.
  split; [reflexivity|]. rewrite Mg, Mr.
  split; now apply render_verifies.
Qed.

Lemma run_from_completes (cfg : config) (elapsed : list float64)
      (uart : uart_log) :
  config_ok cfg = true -> forallb is_finite elapsed = true ->
  exists added,
    run_from cfg elapsed uart = Completed (uart ++ added) /\
    length added = (2 * length elapsed)%nat /\
    added = concat (map (fun t => written (cycle cfg t [])) elapsed) /\
    Forall (fun bs => checksum_verifies (map Byte.to_N bs) = true) added.
Proof.
  intros C. revert uart.
  induction elapsed as [|t later IH]; intros uart F; cbn [run_from].
  - exists []. rewrite app_nil_r. repeat split. constructor.
  - cbn [forallb] in F. apply andb_true_iff in F. destruct F as [Ft Fl].
    destruct (cycle_completes cfg t uart C Ft) as (g & r & E & Vg & Vr).
    destruct (cycle_completes cfg t [] C Ft) as (g0 & r0 & E0 & _).
    destruct (cycle_appends cfg t uart) as (added & A1 & A2 & _).
    rewrite E in A2. rewrite E0 in A1. cbn [written app] in A1, A2.
    subst added. apply app_inv_head in A2. injection A2 as <- <-.
    rewrite E.
    destruct (IH (uart ++ [g; r]) Fl) as (more & R & L & S & V).
    exists ([g; r] ++ more). rewrite app_assoc.
    split; [exact R|]. split; [cbn [length app]; lia|].
    split; [cbn [map concat]; rewrite E0; cbn [written]; now rewrite S|].
    cbn [app]. repeat constructor; assumption.
Qed.

(** X16. On a configuration in order (position in range, six-digit date
    and start time) the loop never raises at a finite clock reading: after
    [n] readings the UART has been given [2 n] byte strings, the two of
    each pass in turn, each one a sentence whose checksum verifies. *)
Theorem run_transmits_two_per_cycle (cfg : config) (elapsed : list float64) :
  config_ok cfg = true -> forallb is_finite elapsed = true ->
  exists log,
    run cfg elapsed = Completed log /\
    length log = (2 * length elapsed)%nat /\
    log = concat (map (fun t => written (cycle cfg t [])) elapsed) /\
    Forall (fun bs => checksum_verifies (map Byte.to_N bs) = true) log.
Proof.
  intros C F. exact (run_from_completes cfg elapsed [] C F).
Qed.

Lemma run_transmits_two_per_cycle_witness :
  let elapsed := [Float64.zero; Float64.of_decimal 10 1;
                  Float64.of_decimal 864005 1] in
  let gga0 :=
    lit "$GPGGA,120000.00,4858.3594,N,12336.6362,W,1,08,1.0,0.0,M,0.0,M,,*4A"
      ++ [13%N; 10%N] in
  let rmc0 :=
    lit "$GPRMC,120000.00,A,4858.3594,N,12336.6362,W,0.0,0.0,190226,,,A*4F"
      ++ [13%N; 10%N] in
  let gga1 :=
    lit "$GPGGA,120001.00,4858.3594,N,12336.6362,W,1,08,1.0,0.0,M,0.0,M,,*4B"
      ++ [13%N; 10%N] in
  let rmc1 :=
    lit "$GPRMC,120001.00,A,4858.3594,N,12336.6362,W,0.0,0.0,190226,,,A*4E"
      ++ [13%N; 10%N] in
  config_ok USER_CONFIG = true /\ forallb is_finite elapsed = true /\
  exists log,
    run USER_CONFIG elapsed = Completed log /\ length log = 6%nat /\
    Forall (fun bs => checksum_verifies (map Byte.to_N bs) = true) log /\
    map (map Byte.to_N) log = [gga0; rmc0; gga1; rmc1; gga0; rmc0] /\
    receiver_xor
      (lit "GPGGA,120001.00,4858.3594,N,12336.6362,W,1,08,1.0,0.0,M,0.0,M,,")
    = 0x4B%N.
Proof.
  intros elapsed gga0 rmc0 gga1 rmc1.
  split; [reflexivity|]. split; [reflexivity|].
  destruct (run_transmits_two_per_cycle USER_CONFIG elapsed eq_refl eq_refl)
    as (log & R & L & _ & V).
  exists log. split; [exact R|]. split; [exact L|]. split; [exact V|].
  vm_compute in R. injection R as <-. split; vm_compute; reflexivity.
Defined.

Lemma payload_with_date_not_ascii (a date b : str) :
  forallb is_ascii date = false ->
  forallb is_ascii (render (a ++ date ++ b)) = false.
Proof.
  intros H. apply not_true_is_false. intros A. unfold render in A.
  rewrite !forallb_app in A.
  repeat (apply andb_true_iff in A; destruct A as [? A]).
  repeat match goal with
         | H : _ && _ = true |- _ => apply andb_true_iff in H; destruct H
         end.
  congruence.
Qed.

Lemma rmc_payload_around_date (utc date a b c d : str) :
  join_fields (rmc_fields utc date a b c d)
  = (lit "GPRMC," ++ utc ++ lit ".00,A," ++ a ++ lit "," ++ b ++ lit ","
       ++ c ++ lit "," ++ d ++ lit ",0.0,0.0,")
      ++ date ++ lit ",,,A".
Proof.
  cbn [join_fields rmc_fields]. rewrite <- !app_assoc. reflexivity.
Qed.

(** X17. A pass is not all or nothing: with a date that has a character
    outside ASCII (and a position in range, a start time of six digits, a
    finite clock reading) the GGA sentence is written, and the pass raises
    before the RMC sentence is. *)
Theorem cycle_raises_between_writes (cfg : config) (t : float64)
        (uart : uart_log) :
  valid_position (cfg_latitude cfg) (cfg_longitude cfg) = true ->
  six_digits (cfg_start_time cfg) = true ->
  forallb is_ascii (cfg_start_date cfg) = false ->
  is_finite t = true ->
  exists gga,
    cycle cfg t uart = Raised (uart ++ [gga]) /\
    checksum_verifies (map Byte.to_N gga) = true.
Proof.
  intros V T D F.
  assert (T6 : six_digits (firstn 6 (cfg_start_time cfg)) = true).
  { pose proof T as T'. unfold six_digits in T'.
    apply andb_true_iff in T'. destruct T' as [L _].
    apply Nat.eqb_eq in L. now rewrite firstn_all2 by lia. }
  assert (K : exists k, int_of_number (PyFloat t) = Some k)
    by (destruct t; try discriminate; cbn; eauto).
  destruct K as (k & Hk).
  destruct (tick_time_seconds _ _ k T6 Hk) as (total & _ & Ht & E & _).
  cbv zeta in Ht, E.
  set (utc := hhmmss_of_seconds ((total + k) mod 86400)) in *.
  assert (U : six_digits utc = true)
    by (apply hhmmss_six_digits, seconds_in_day, Ht).
  destruct (sentences_in_range utc (cfg_start_date cfg) _ _ V)
    as (a & b & c & d & _ & _ & G & R & PG & _).
  specialize (PG (six_digits_plain _ U)).
  destruct (encode_ascii_some _ (render_ascii _ PG)) as (g & Eg & Mg).
  exists g. unfold cycle. rewrite E, G, R, Eg.
  rewrite rmc_payload_around_date, encode_ascii_none.
  - split; [reflexivity|]. rewrite Mg. now apply render_verifies.
  - now apply payload_with_date_not_ascii.
Qed.

Lemma cycle_raises_between_writes_witness :
  let cfg :=
    {| cfg_latitude := LATITUDE;
       cfg_longitude := LONGITUDE;
       cfg_start_date := [49%N; 57%N; 8364%N];
       cfg_start_time := START_TIME_HHMMSS |} in
  valid_position (cfg_latitude cfg) (cfg_longitude cfg) = true /\
  six_digits (cfg_start_time cfg) = true /\
  forallb is_ascii (cfg_start_date cfg) = false /\
  is_finite Float64.zero = true /\
  exists gga, cycle cfg Float64.zero [] = Raised [gga].
Proof.
  intros cfg. repeat (split; [reflexivity|]).
  destruct (cycle_raises_between_writes cfg Float64.zero []
              eq_refl eq_refl eq_refl eq_refl) as (gga & E & _).
  exists gga. exact E.
Defined.

(** * The transmit loop: what a configuration is checked for *)

Lemma foreign_inv (c : char) :
  foreign c = true ->
  is_digit c = false /\ is_space c = false /\
  (c =? 43)%N = false /\ (c =? 45)%N = false /\ (c =? 95)%N = false.
Proof.
  unfold foreign, is_digit, is_space. intros H.
  apply andb_true_iff in H. destruct H as [H W].
  apply andb_true_iff in H. destruct H as [H S].
  apply andb_true_iff in H. destruct H as [_ D].
  apply negb_true_iff in W. apply negb_true_iff in S.
  apply negb_true_iff in D.
  apply orb_false_iff in S. destruct S as [S S3].
  apply orb_false_iff in S. destruct S as [S1 S2].
  auto.
Qed.

Lemma foreign_above (c : char) : (c <? 127)%N = false -> foreign c = false.
Proof. unfold foreign. now intros ->. Qed.

Lemma existsb_rev {A : Type} (f : A -> bool) (l : list A) :
  existsb f (rev l) = existsb f l.
Proof.
  induction l as [|a l IH]; [reflexivity|].
  cbn [rev existsb]. rewrite existsb_app, IH. cbn [existsb].
  rewrite orb_false_r. apply orb_comm.
Qed.

Lemma lstrip_foreign (s : str) :
  existsb foreign s = true -> existsb foreign (lstrip s) = true.
Proof.
  induction s as [|c rest IH]; [discriminate|].
  cbn [lstrip existsb]. intros H.
  destruct (is_space c) eqn:Sp; [|exact H].
  apply IH. destruct (foreign c) eqn:F; [|exact H].
  destruct (foreign_inv c F) as (_ & Sp' & _). congruence.
Qed.

Lemma strip_foreign (s : str) :
  existsb foreign s = true -> existsb foreign (strip s) = true.
Proof.
  intros H. unfold strip. rewrite existsb_rev. apply lstrip_foreign.
  rewrite existsb_rev. now apply lstrip_foreign.
Qed.

Lemma transform_foreign (s : str) :
  existsb foreign s = true ->
  existsb foreign (transform_decimal_and_space s) = true.
Proof.
  induction s as [|c rest IH]; [discriminate|].
  cbn [transform_decimal_and_space existsb]. intros H.
  destruct (c <? 127)%N eqn:L.
  - cbn [existsb]. destruct (foreign c); [reflexivity|]. now apply IH.
  - rewrite (foreign_above c L) in H. cbn [orb] in H.
    destruct (unicode_space c).
    + cbn [existsb]. rewrite (IH H). apply orb_true_r.
    + destruct (unicode_decimal c) as [d|].
      * cbn [existsb]. rewrite (IH H). apply orb_true_r.
      * reflexivity.
Qed.

Lemma to_ascii_text_foreign (s : str) :
  existsb foreign s = true -> existsb foreign (to_ascii_text s) = true.
Proof.
  intros H. unfold to_ascii_text.
  destruct (forallb is_ascii s); [exact H|now apply transform_foreign].
Qed.

Lemma parse_digits_foreign (s : str) (acc count : Z) (after_digit : bool) :
  existsb foreign s = true -> parse_digits s acc count after_digit = None.
Proof.
  revert acc count after_digit.
  induction s as [|c rest IH]; intros acc count after_digit H; [discriminate|].
  cbn [existsb] in H. cbn [parse_digits].
  destruct (foreign c) eqn:F.
  - destruct (foreign_inv c F) as (D & _ & _ & _ & U). now rewrite D, U.
  - cbn [orb] in H. destruct (is_digit c); [now apply IH|].
    destruct ((c =? 95)%N && after_digit); [now apply IH|reflexivity].
Qed.

(** [int] raises on every string that holds such a character. *)
Lemma int_of_str_foreign (s : str) :
  existsb foreign s = true -> int_of_str s = None.
Proof.
  intros H. apply to_ascii_text_foreign, strip_foreign in H.
  unfold int_of_str. cbv zeta.
  destruct (strip (to_ascii_text s)) as [|c rest]; [discriminate|].
  cbn [existsb] in H.
  destruct (foreign c) eqn:F.
  - destruct (foreign_inv c F) as (_ & _ & P & M & _). rewrite P, M.
    apply parse_digits_foreign. cbn [existsb]. now rewrite F.
  - cbn [orb] in H. rewrite (parse_digits_foreign rest 0 0 false H).
    destruct (c =? 43)%N; [reflexivity|].
    destruct (c =? 45)%N; [reflexivity|].
    apply parse_digits_foreign. cbn [existsb]. now rewrite F, H.
Qed.

Lemma first_six_fields (s : str) :
  firstn 6 s = slice s 0 2 ++ slice s 2 4 ++ slice s 4 6.
Proof.
  destruct s as [|a [|b [|c [|d [|e [|f r]]]]]]; reflexivity.
Qed.

(** A start time that cannot be a time of day has a field that [int]
    does not read. *)
Lemma malformed_time_unreadable (start : str) :
  malformed_time start = true -> unreadable_time start.
Proof.
  unfold malformed_time, unreadable_time. intros H.
  apply orb_true_iff in H. destruct H as [H|H].
  - apply Nat.ltb_lt in H. right. right.
    unfold slice. rewrite skipn_all2 by lia. reflexivity.
  - rewrite first_six_fields, !existsb_app in H.
    apply orb_true_iff in H. destruct H as [H|H].
    + left. now apply int_of_str_foreign.
    + apply orb_true_iff in H. destruct H as [H|H].
      * right. left. now apply int_of_str_foreign.
      * right. right. now apply int_of_str_foreign.
Qed.

Lemma ascii_bytes (payload : str) :
  forallb is_ascii payload = true -> Forall (fun c => ord c < 256) payload.
Proof.
  intros H. apply Forall_forall. intros c Hc.
  rewrite forallb_forall in H. specialize (H c Hc).
  unfold is_ascii in H. apply N.ltb_lt in H. unfold ord. lia.
Qed.

Lemma render_ascii_text (payload : str) :
  forallb is_ascii payload = true -> forallb is_ascii (render payload) = true.
Proof.
  intros H. unfold render.
  destruct (checksum_of_bytes payload (ascii_bytes payload H)) as (B & _ & ->).
  destruct (two_hex_read_back _ B) as (hi & lo & -> & Hh & Hl & _).
  rewrite !forallb_app, H.
  cbn. now rewrite (upper_hex_ascii hi Hh), (upper_hex_ascii lo Hl).
Qed.

(** A pass on a configuration that can be transmitted, at a finite reading
    of the clock. *)
Lemma cycle_transmits (cfg : config) (t : float64) (uart : uart_log) :
  transmittable cfg = true -> is_finite t = true ->
  exists gga rmc, cycle cfg t uart = Completed (uart ++ [gga; rmc]).
Proof.
  unfold transmittable. intros C F.
  apply andb_true_iff in C. destruct C as [C D].
  apply andb_true_iff in C. destruct C as [C T6].
  apply andb_true_iff in C. destruct C as [C F2].
  apply andb_true_iff in C. destruct C as [C V2].
  apply andb_true_iff in C. destruct C as [V1 F1].
  assert (K : exists k, int_of_number (PyFloat t) = Some k)
    by (destruct t; try discriminate; cbn; eauto).
  destruct K as (k & Hk).
  destruct (tick_time_seconds _ _ k T6 Hk) as (total & _ & Ht & E & _).
  cbv zeta in Ht, E.
  set (utc := hhmmss_of_seconds ((total + k) mod 86400)) in *.
  assert (PU : forallb plain utc = true)
    by (apply six_digits_plain, hhmmss_six_digits, seconds_in_day, Ht).
  destruct (to_nmea_latlon_plain_finite _ true V1 F1) as (a & b & E1 & Pa & Pb).
  destruct (to_nmea_latlon_plain_finite _ false V2 F2) as (c & d & E2 & Pc & Pd).
  pose proof (gga_fields_plain utc a b c d PU Pa Pb Pc Pd) as PG.
  assert (AR : forallb is_ascii
                 (join_fields (rmc_fields utc (cfg_start_date cfg) a b c d))
               = true).
  { cbn [join_fields rmc_fields].
    rewrite !forallb_app, D, (plain_ascii _ PU), (plain_ascii _ Pa),
      (plain_ascii _ Pb), (plain_ascii _ Pc), (plain_ascii _ Pd).
    reflexivity. }
  destruct (encode_ascii_some _ (render_ascii _ PG)) as (g & Eg & _).
  destruct (encode_ascii_some _ (render_ascii_text _ AR)) as (r & Er & _).
  exists g, r. unfold cycle.
  rewrite E, (make_gpgga_fields utc _ _ a b c d E1 E2),
    (make_gprmc_fields utc _ _ _ a b c d E1 E2), Eg, Er, <- app_assoc.
  reflexivity.
Qed.

Lemma run_from_transmits (cfg : config) (readings : list float64)
      (uart : uart_log) :
  transmittable cfg = true -> forallb is_finite readings = true ->
  exists added,
    run_from cfg readings uart = Completed (uart ++ added) /\
    length added = (2 * length readings)%nat.
Proof.
  intros C. revert uart.
  induction readings as [|t later IH]; intros uart F; cbn [run_from].
  - exists []. now rewrite app_nil_r.
  - cbn [forallb] in F. apply andb_true_iff in F. destruct F as [Ft Fl].
    destruct (cycle_transmits cfg t uart C Ft) as (g & r & ->).
    destruct (IH (uart ++ [g; r]) Fl) as (more & R & L).
    exists ([g; r] ++ more). rewrite app_assoc.
    split; [exact R|]. cbn [length app]. lia.
Qed.

(** A pass on a position that is not finite raises before it writes. *)
Lemma cycle_not_finite (cfg : config) (t : float64) (uart : uart_log) :
  is_finite (cfg_latitude cfg) = false \/ is_finite (cfg_longitude cfg) = false ->
  cycle cfg t uart = Raised uart.
Proof.
  intros H. unfold cycle.
  destruct (_tick_time (cfg_start_time cfg) (PyFloat t)) as [utc|];
    [|reflexivity].
  assert (G : _make_gpgga utc (cfg_latitude cfg) (cfg_longitude cfg) = None).
  { unfold _make_gpgga. destruct H as [H|H].
    - now rewrite (to_nmea_latlon_not_finite _ true H).
    - rewrite (to_nmea_latlon_not_finite _ false H).
      now destruct (_to_nmea_latlon (cfg_latitude cfg) true) as [[a b]|]. }
  now rewrite G.
Qed.

(** C7, amended. No check is made of the configuration; what stops the
    process at startup is what makes the first pass of the loop raise
    before it writes: a start time that has fewer than five characters or,
    among its first six, an ASCII character that is not a digit, a sign,
    an underscore or white space (more generally, one of whose fields
    [int] does not read), and a latitude or a longitude that is NaN or
    infinite.  A position out of range and a date that is not six digits
    are not detected: for every finite position, every date in ASCII and
    every start time that begins with six digits, every pass at a finite
    reading of the clock transmits its two sentences. *)
Theorem unreadable_start_time_is_fatal (cfg : config)
        (readings : list float64) :
  (malformed_time (cfg_start_time cfg) = true
   \/ unreadable_time (cfg_start_time cfg)
   \/ is_finite (cfg_latitude cfg) = false
   \/ is_finite (cfg_longitude cfg) = false ->
   written (run cfg readings) = [] /\
   (readings <> [] -> run cfg readings = Raised [])) /\
  (transmittable cfg = true -> forallb is_finite readings = true ->
   exists log,
     run cfg readings = Completed log /\
     length log = (2 * length readings)%nat).
Proof.
  split.
  - intros H. unfold run.
    destruct readings as [|t later]; cbn [run_from].
    + split; [reflexivity|]. intros N. now contradiction N.
    + assert (R : cycle cfg t [] = Raised []).
      { destruct H as [H|[H|H]].
        - unfold cycle.
          now rewrite (tick_time_unreadable _ _ (malformed_time_unreadable _ H)).
        - unfold cycle. now rewrite (tick_time_unreadable _ _ H).
        - now apply cycle_not_finite. }
      rewrite R. split; [reflexivity|]. intros _. reflexivity.
  - intros C F. exact (run_from_transmits cfg readings [] C F).
Qed.

Lemma unreadable_start_time_is_fatal_witness :
  let bad_time :=
    {| cfg_latitude := LATITUDE;
       cfg_longitude := LONGITUDE;
       cfg_start_date := START_DATE_DDMMYY;
       cfg_start_time := lit "12:00:00" |} in
  let out_of_range :=
    {| cfg_latitude := Float64.of_decimal 91 0;
       cfg_longitude := LONGITUDE;
       cfg_start_date := lit "19/02/26";
       cfg_start_time := START_TIME_HHMMSS |} in
  malformed_time (cfg_start_time bad_time) = true /\
  run bad_time [Float64.zero] = Raised [] /\
  valid_latitude (cfg_latitude out_of_range) = false /\
  six_digits (cfg_start_date out_of_range) = false /\
  transmittable out_of_range = true /\
  exists log,
    run out_of_range [Float64.zero] = Completed log /\
    length log = 2%nat /\
    map (map Byte.to_N) log
    = [ lit "$GPGGA,120000.00,9100.0000,N,12336.6362,W,1,08,1.0,0.0,M,0.0,M,,*48"
          ++ [13%N; 10%N];
        lit "$GPRMC,120000.00,A,9100.0000,N,12336.6362,W,0.0,0.0,19/02/26,,,A*4D"
          ++ [13%N; 10%N] ].
Proof.
  intros bad_time out_of_range.
  destruct (unreadable_start_time_is_fatal bad_time [Float64.zero]) as (A & _).
  destruct (unreadable_start_time_is_fatal out_of_range [Float64.zero])
    as (_ & B).
  split; [reflexivity|].
  split; [apply (proj2 (A (or_introl eq_refl))); discriminate|].
  split; [reflexivity|]. split; [reflexivity|]. split; [reflexivity|].
  destruct (B eq_refl eq_refl) as (log & R & L).
  exists log. split; [exact R|]. split; [exact L|].
  vm_compute in R. injection R as <-. vm_compute. reflexivity.
Defined.
